(** * HexaGlue benchmark scripts: comparison and regression classification

    A shallow embedding of the decision logic of
    [hexaglue-benchmarks/scripts/generate-report.py] and
    [hexaglue-benchmarks/scripts/parse-results.py].

    Python values are modelled as the scripts use them:
    - a [float] is an IEEE 754 binary64 number, given by the Standard
      Library's [spec_float] at precision 53 and maximal exponent 1024;
    - an [int] is a [Z];
    - an exception is a [Raise] in a small error monad;
    - a [dict] is an association list in insertion order, the order in
      which Python iterates over it.

    Reading the JSON file and rendering the rows as text are not modelled:
    [parse_results] starts from the decoded list of entries, and a row is a
    record of the values that the f-string formats. *)

From Stdlib Require Import ZArith List String Ascii Bool Lia.
From Stdlib Require Import Floats.SpecFloat.
Import ListNotations.

Local Open Scope Z_scope.

(** ** A fragment of the Python runtime *)
Module Py.

Inductive exn : Type :=
| ZeroDivisionError
| OverflowError
| KeyError (k : string).

Inductive result (A : Type) : Type :=
| Ok (a : A)
| Raise (e : exn).

Arguments Ok {A} a.
Arguments Raise {A} e.

Definition bind {A B : Type} (c : result A) (k : A -> result B) : result B :=
  match c with
  | Ok a => k a
  | Raise e => Raise e
  end.

Definition raises {A : Type} (c : result A) : Prop :=
  exists e, c = Raise e.

(** *** float: IEEE 754 binary64 *)

Definition prec : Z := 53.
Definition emax : Z := 1024.

Definition float : Type := spec_float.

(** The [spec_float]s that are binary64 numbers: mantissa and exponent of a
    finite number are in canonical form and in range. *)
Definition valid (f : float) : Prop := valid_binary prec emax f = true.

Definition inf : float := S754_infinity false.
Definition nan : float := S754_nan.

Definition is_nan (f : float) : bool :=
  match f with S754_nan => true | _ => false end.

Definition is_finite (f : float) : bool :=
  match f with S754_zero _ | S754_finite _ _ _ => true | _ => false end.

(** [x == 0.0] in C. *)
Definition is_zero (f : float) : bool :=
  match f with S754_zero _ => true | _ => false end.

Definition float_add (x y : float) : float := SFadd prec emax x y.
Definition float_sub (x y : float) : float := SFsub prec emax x y.
Definition float_mul (x y : float) : float := SFmul prec emax x y.

(** [float.__truediv__]: CPython tests the divisor against zero before it
    divides. *)
Definition float_truediv (x y : float) : result float :=
  if is_zero y then Raise ZeroDivisionError else Ok (SFdiv prec emax x y).

(** [int] to [float], rounding to nearest even; an int beyond the range of
    binary64 raises. *)
Definition float_of_int (z : Z) : result float :=
  match binary_normalize prec emax z 0 false with
  | S754_infinity _ => Raise OverflowError
  | f => Ok f
  end.

(** Comparison of a float with an int is exact in CPython: the float
    [(-1)^s * m * 2^e] is compared with [z] after both are scaled to
    integers. *)
Definition float_compare_int (f : float) (z : Z) : option comparison :=
  match f with
  | S754_nan => None
  | S754_infinity s => Some (if s then Lt else Gt)
  | S754_zero _ => Some (0 ?= z)
  | S754_finite s m e =>
      Some (cond_Zopp s (Zpos m) * 2 ^ Z.max e 0 ?= z * 2 ^ Z.max (- e) 0)
  end.

(** *** Numbers: int or float *)

Inductive num : Type :=
| PyInt (z : Z)
| PyFloat (f : float).

Definition to_float (x : num) : result float :=
  match x with
  | PyInt z => float_of_int z
  | PyFloat f => Ok f
  end.

Definition num_compare (x y : num) : option comparison :=
  match x, y with
  | PyInt a, PyInt b => Some (a ?= b)
  | PyFloat f, PyInt b => float_compare_int f b
  | PyInt a, PyFloat g => option_map CompOpp (float_compare_int g a)
  | PyFloat f, PyFloat g => SFcompare f g
  end.

(** [x <= y], [x > y], [x == y]: false when either side is NaN. *)
Definition num_le (x y : num) : bool :=
  match num_compare x y with
  | Some Lt | Some Eq => true
  | _ => false
  end.

Definition num_gt (x y : num) : bool :=
  match num_compare x y with
  | Some Gt => true
  | _ => false
  end.

Definition num_eq (x y : num) : bool :=
  match num_compare x y with
  | Some Eq => true
  | _ => false
  end.

(** [x + y]: exact on two ints, otherwise both sides become floats. *)
Definition num_add (x y : num) : result num :=
  match x, y with
  | PyInt a, PyInt b => Ok (PyInt (a + b))
  | _, _ =>
      bind (to_float x) (fun a =>
      bind (to_float y) (fun b =>
      Ok (PyFloat (float_add a b))))
  end.

(** [bool(x)] of a float: every float but the two zeros is true, NaN
    included. *)
Definition float_truthy (f : float) : bool := negb (is_zero f).

(** [max(a, b)]: the builtin keeps its first argument unless the second
    compares greater. *)
Definition builtin_max (a b : num) : num := if num_gt b a then b else a.

(** *** str *)

(** [s.split(sep)] for a one-character separator. *)
Fixpoint str_split (sep : ascii) (s : string) : list string :=
  match s with
  | EmptyString => [EmptyString]
  | String c s' =>
      if Ascii.eqb c sep then EmptyString :: str_split sep s'
      else match str_split sep s' with
           | [] => [String c EmptyString]
           | h :: t => String c h :: t
           end
  end.

(** [c.lower()] on ASCII letters. *)
Definition lower_ascii (c : ascii) : ascii :=
  let n := N_of_ascii c in
  if ((65 <=? n) && (n <=? 90))%N then ascii_of_N (n + 32) else c.

Fixpoint str_lower (s : string) : string :=
  match s with
  | EmptyString => EmptyString
  | String c s' => String (lower_ascii c) (str_lower s')
  end.

(** [sub in s] on strings. *)
Fixpoint str_contains (sub s : string) : bool :=
  String.prefix sub s ||
  match s with
  | EmptyString => false
  | String _ s' => str_contains sub s'
  end.

(** [sorted(l)] on a list of strings; on a total order every sort returns
    the same list. *)
Fixpoint insert_sorted (x : string) (l : list string) : list string :=
  match l with
  | [] => [x]
  | y :: l' => if String.leb x y then x :: l else y :: insert_sorted x l'
  end.

Definition builtin_sorted (l : list string) : list string :=
  fold_right insert_sorted [] l.

(** *** dict with str keys *)

Definition dict (V : Type) : Type := list (string * V).

Section Dict.
Context {V : Type}.

(** [d.get(k)] *)
Fixpoint dict_get (d : dict V) (k : string) : option V :=
  match d with
  | [] => None
  | (k', v) :: d' => if String.eqb k' k then Some v else dict_get d' k
  end.

(** [k in d] *)
Definition dict_mem (k : string) (d : dict V) : bool :=
  match dict_get d k with Some _ => true | None => false end.

(** [d[k]] *)
Definition dict_item (d : dict V) (k : string) : result V :=
  match dict_get d k with
  | Some v => Ok v
  | None => Raise (KeyError k)
  end.

(** [d[k] = v]: a key already present keeps its place. *)
Fixpoint dict_set (d : dict V) (k : string) (v : V) : dict V :=
  match d with
  | [] => [(k, v)]
  | (k', v') :: d' =>
      if String.eqb k' k then (k, v) :: d' else (k', v') :: dict_set d' k v
  end.

(** [d.keys()] *)
Definition dict_keys (d : dict V) : list string := map fst d.
End Dict.

End Py.

Import Py.

Notation "x <- c ;; k" := (bind c (fun x => k))
  (at level 61, c at next level, right associativity).

(** ** Data shared by the two scripts *)

(** One record of the JMH results file, reduced to the fields the scripts
    read: [entry['benchmark']], [entry['primaryMetric']['score']] and
    [entry['primaryMetric']['scoreError']]. *)
Record Entry : Type := {
  benchmark : string;
  primaryMetric_score : float;
  primaryMetric_scoreError : float
}.

(** The value [{'score': ..., 'error': ...}] stored per benchmark name. *)
Record Measurement : Type := {
  score : float;
  error : float
}.

Definition MetricSet : Type := dict Measurement.

(** ** generate-report.py *)
Module GenerateReport.

Definition parse_results (data : list Entry) : MetricSet :=
  fold_left
    (fun results entry =>
       let benchmark := last (str_split "." (benchmark entry)) EmptyString in
       dict_set results benchmark
         {| score := primaryMetric_score entry;
            error := primaryMetric_scoreError entry |})
    data [].

Definition get_diff (v2_score v3_score : float) : result float :=
  if num_eq (PyFloat v2_score) (PyInt 0) then Ok inf
  else
    q <- float_truediv (float_sub v3_score v2_score) v2_score ;;
    h <- float_of_int 100 ;;
    Ok (float_mul q h).

Definition default_threshold : num := PyInt 20.

Definition get_status (diff : float) (threshold : num) : result string :=
  if num_le (PyFloat diff) (PyInt (-5)) then Ok "IMPROVED"%string
  else if num_le (PyFloat diff) threshold then Ok "OK"%string
  else
    bound <- num_add threshold (PyInt 10) ;;
    if num_le (PyFloat diff) bound then Ok "WARN"%string
    else Ok "REGRESSION"%string.

(** A row of a comparison table; [None] is a cell printed as [N/A]. *)
Record Row : Type := {
  row_bench : string;
  row_v2 : option float;
  row_v3 : option float;
  row_diff : option float;
  row_status : string
}.

(** The status column of a benchmark found in neither results file: the
    placeholder for an unknown status. *)
Definition status_unknown : string := "-".

Definition format_benchmark_row (bench : string)
    (v2_results v3_results : MetricSet) (threshold : num) : result Row :=
  let v2_exists := dict_mem bench v2_results in
  let v3_exists := dict_mem bench v3_results in
  if v2_exists && v3_exists then
    m2 <- dict_item v2_results bench ;;
    m3 <- dict_item v3_results bench ;;
    let v2 := score m2 in
    let v3 := score m3 in
    diff <- get_diff v2 v3 ;;
    status <- get_status diff threshold ;;
    Ok {| row_bench := bench; row_v2 := Some v2; row_v3 := Some v3;
          row_diff := Some diff; row_status := status |}
  else if v3_exists then
    m3 <- dict_item v3_results bench ;;
    Ok {| row_bench := bench; row_v2 := None; row_v3 := Some (score m3);
          row_diff := None; row_status := "NEW" |}
  else if v2_exists then
    m2 <- dict_item v2_results bench ;;
    Ok {| row_bench := bench; row_v2 := Some (score m2); row_v3 := None;
          row_diff := None; row_status := "REMOVED" |}
  else
    Ok {| row_bench := bench; row_v2 := None; row_v3 := None;
          row_diff := None; row_status := status_unknown |}.

(** *** The parts of [main] *)

(** The four tables of benchmark results; every call leaves [threshold] at
    its default. *)
Definition main_table (benches : list string)
    (v2_results v3_results : MetricSet) : result (list Row) :=
  fold_left
    (fun report bench =>
       rows <- report ;;
       row <- format_benchmark_row bench v2_results v3_results
                default_threshold ;;
       Ok (rows ++ [row]))
    benches (Ok []).

Definition compared_benchmarks : list string :=
  ["parseSmall"; "parseMedium"; "parseLarge";
   "buildGraphSmall"; "buildGraphMedium"; "buildGraphLarge";
   "classifySmall"; "classifyMedium"; "classifyLarge"]%string.

(** The dictionary [diffs]: a float for a benchmark in both results, [None]
    otherwise. *)
Definition main_diffs (v2_results v3_results : MetricSet)
    : result (dict (option float)) :=
  fold_left
    (fun acc bench =>
       diffs <- acc ;;
       if dict_mem bench v2_results && dict_mem bench v3_results then
         m2 <- dict_item v2_results bench ;;
         m3 <- dict_item v3_results bench ;;
         d <- get_diff (score m2) (score m3) ;;
         Ok (dict_set diffs bench (Some d))
       else Ok (dict_set diffs bench None))
    compared_benchmarks (Ok []).

(** [v3_results.get(key, {}).get('score', 0)] *)
Definition score_or_zero (v3_results : MetricSet) (key : string) : num :=
  match dict_get v3_results key with
  | Some m => PyFloat (score m)
  | None => PyInt 0
  end.

(** [(val / total * 100) if total > 0 else 0]; [total] is a float, so an
    int [val] is converted before the division. *)
Definition percentage (val : num) (total : float) : result num :=
  if num_gt (PyFloat total) (PyInt 0) then
    x <- to_float val ;;
    q <- float_truediv x total ;;
    h <- float_of_int 100 ;;
    Ok (PyFloat (float_mul q h))
  else Ok (PyInt 0).

(** A row of the time budget table: each phase with its share of the
    total. *)
Record BudgetRow : Type := {
  budget_size : string;
  budget_types : Z;
  budget_parse : num * num;
  budget_graph : num * num;
  budget_classify : num * num;
  budget_total : float
}.

(** The body of the loop over the corpus sizes; [None] when the loop
    appends nothing to the report. *)
Definition main_budget_row (v3_results : MetricSet) (size : string)
    (types : Z) : result (option BudgetRow) :=
  let parse_key := ("parse" ++ size)%string in
  let graph_key := ("buildGraph" ++ size)%string in
  let classify_key := ("classify" ++ size)%string in
  let analyze_key := ("analyze" ++ size)%string in
  cond <- (if dict_mem analyze_key v3_results then
             m <- dict_item v3_results analyze_key ;;
             Ok (num_gt (PyFloat (score m)) (PyInt 0))
           else Ok false) ;;
  if (cond : bool) then
    m <- dict_item v3_results analyze_key ;;
    let total := score m in
    let parse_val := score_or_zero v3_results parse_key in
    let graph_val := score_or_zero v3_results graph_key in
    let classify_val := score_or_zero v3_results classify_key in
    parse_pct <- percentage parse_val total ;;
    graph_pct <- percentage graph_val total ;;
    classify_pct <- percentage classify_val total ;;
    Ok (Some {| budget_size := size; budget_types := types;
                budget_parse := (parse_val, parse_pct);
                budget_graph := (graph_val, graph_pct);
                budget_classify := (classify_val, classify_pct);
                budget_total := total |})
  else Ok None.

Definition corpus_sizes : list (string * Z) :=
  [("Small", 50); ("Medium", 196); ("Large", 540)]%string.

Definition main_budget (v3_results : MetricSet) : result (list BudgetRow) :=
  fold_left
    (fun report '(size, types) =>
       rows <- report ;;
       row <- main_budget_row v3_results size types ;;
       match row with
       | Some r => Ok (rows ++ [r])
       | None => Ok rows
       end)
    corpus_sizes (Ok []).

(** [diffs.get(classify_key, 0) or 0], from the result of the lookup: a
    missing key, [None] and a zero all become the int 0. *)
Definition or_zero (v : option (option float)) : num :=
  match v with
  | Some (Some f) => if float_truthy f then PyFloat f else PyInt 0
  | _ => PyInt 0
  end.

(** A row of the regression threshold table; [gate_result] holds the parse
    and classify differences that the row prints, [None] for
    [N/A (new baseline)]. *)
Record GateRow : Type := {
  gate_size : string;
  gate_threshold : num;
  gate_result : option (float * num);
  gate_status : string
}.

(** The body of the loop over the thresholds. The test
    [parse_key in diffs and diffs[parse_key] is not None] holds exactly
    when the lookup finds a float. *)
Definition main_gate_row (diffs : dict (option float)) (size : string)
    (threshold : num) : GateRow :=
  let parse_key := ("parse" ++ size)%string in
  let classify_key := ("classify" ++ size)%string in
  match dict_get diffs parse_key with
  | Some (Some parse_diff) =>
      let classify_diff := or_zero (dict_get diffs classify_key) in
      let max_diff := builtin_max (PyFloat parse_diff) classify_diff in
      let status :=
        if num_le max_diff threshold then "PASS"%string else "FAIL"%string in
      {| gate_size := size; gate_threshold := threshold;
         gate_result := Some (parse_diff, classify_diff);
         gate_status := status |}
  | _ =>
      {| gate_size := size; gate_threshold := threshold;
         gate_result := None; gate_status := "BASELINE" |}
  end.

Definition gate_thresholds : list (string * num) :=
  [("Small", PyInt 20); ("Medium", PyInt 25); ("Large", PyInt 30)]%string.

Definition main_gate (diffs : dict (option float)) : list GateRow :=
  map (fun '(size, threshold) => main_gate_row diffs size threshold)
    gate_thresholds.

(** The computed parts of the report, in the order [main] appends them. *)
Record Report : Type := {
  report_parsing : list Row;
  report_graph : list Row;
  report_classification : list Row;
  report_end_to_end : list Row;
  report_diffs : dict (option float);
  report_budget : list BudgetRow;
  report_gate : list GateRow
}.

Definition main (v2_results v3_results : MetricSet) : result Report :=
  parsing <- main_table ["parseSmall"; "parseMedium"; "parseLarge"]%string
               v2_results v3_results ;;
  graph <- main_table
             ["buildGraphSmall"; "buildGraphMedium"; "buildGraphLarge"]%string
             v2_results v3_results ;;
  classification <- main_table
             ["classifySmall"; "classifyMedium"; "classifyLarge"]%string
             v2_results v3_results ;;
  end_to_end <- main_table
             ["analyzeSmall"; "analyzeMedium"; "analyzeLarge"]%string
             v2_results v3_results ;;
  diffs <- main_diffs v2_results v3_results ;;
  budget <- main_budget v3_results ;;
  Ok {| report_parsing := parsing; report_graph := graph;
        report_classification := classification;
        report_end_to_end := end_to_end; report_diffs := diffs;
        report_budget := budget; report_gate := main_gate diffs |}.

(** The three paragraphs of the performance summary: the small and the
    medium delta of a phase when [diffs.get] finds a float for both,
    [None] for [Unable to compare]. *)
Definition main_summary (diffs : dict (option float))
    (small_key medium_key : string) : option (float * float) :=
  match dict_get diffs small_key, dict_get diffs medium_key with
  | Some (Some small), Some (Some medium) => Some (small, medium)
  | _, _ => None
  end.

(** The large corpus section: the parse score of the candidate with the
    three other scores, each defaulting to the int 0; [None] for
    [Large corpus benchmarks not available]. *)
Definition main_large_corpus (v3_results : MetricSet)
    : result (option (float * num * num * num)) :=
  if dict_mem "parseLarge" v3_results then
    m <- dict_item v3_results "parseLarge" ;;
    Ok (Some (score m,
              score_or_zero v3_results "buildGraphLarge",
              score_or_zero v3_results "classifyLarge",
              score_or_zero v3_results "analyzeLarge"))
  else Ok None.

End GenerateReport.

(** ** parse-results.py *)
Module ParseResults.

Definition parse_results (data : list Entry) : MetricSet :=
  fold_left
    (fun results entry =>
       let benchmark := last (str_split "." (benchmark entry)) EmptyString in
       let score := primaryMetric_score entry in
       let error := primaryMetric_scoreError entry in
       dict_set results benchmark {| score := score; error := error |})
    data [].

(** The category that the chain of substring tests gives a key. *)
Definition category (key : string) : string :=
  if str_contains "parse" (str_lower key) then "Parsing"
  else if str_contains "graph" (str_lower key) then "Graph Building"
  else if str_contains "classify" (str_lower key) then "Classification"
  else if str_contains "analyze" (str_lower key) then "End-to-End"
  else "Other".

(** The body of the loop that fills the dictionary [categories]: a
    category is created with an empty list when its first key arrives, and
    the key is appended to the list of its category. *)
Definition add_to_category (categories : dict (list string)) (key : string)
    : dict (list string) :=
  let cat := category key in
  let categories :=
    if negb (dict_mem cat categories) then dict_set categories cat []
    else categories in
  match dict_get categories cat with
  | Some l => dict_set categories cat (l ++ [key])
  | None => categories
  end.

Definition main_categories (v2 : MetricSet) : dict (list string) :=
  fold_left add_to_category (dict_keys v2) [].

(** What [main] prints below the banner. *)
Inductive Line : Type :=
| Heading (cat : string)
| Comparison (bench : string) (v2_score v3_score diff : float)
    (status : string).

(** The body of the loop over the benchmarks of one category. *)
Definition main_bench (v2 v3 : MetricSet) (bench : string)
    : result (list Line) :=
  if dict_mem bench v2 && dict_mem bench v3 then
    m2 <- dict_item v2 bench ;;
    m3 <- dict_item v3 bench ;;
    let v2_score := score m2 in
    let v3_score := score m3 in
    q <- float_truediv (float_sub v3_score v2_score) v2_score ;;
    h <- float_of_int 100 ;;
    let diff := float_mul q h in
    let status :=
      if num_le (PyFloat diff) (PyInt (-5)) then "IMPROVED"%string
      else if num_le (PyFloat diff) (PyInt 10) then "OK"%string
      else if num_le (PyFloat diff) (PyInt 20) then "WARN"%string
      else "REGRESSION"%string in
    Ok [Comparison bench v2_score v3_score diff status]
  else Ok [].

(** A loop that prints: the lines of each step are appended, and an
    exception ends the run. *)
Definition for_each {A : Type} (body : A -> result (list Line))
    (l : list A) : result (list Line) :=
  fold_left
    (fun acc x => out <- acc ;; lines <- body x ;; Ok (out ++ lines))
    l (Ok []).

Definition main (v2 v3 : MetricSet) : result (list Line) :=
  for_each
    (fun '(cat, benchmarks) =>
       lines <- for_each (main_bench v2 v3) (builtin_sorted benchmarks) ;;
       Ok (Heading cat :: lines))
    (main_categories v2).

End ParseResults.

(** ** Definitions used to state the properties *)

(** *** Some floats *)

(** The floats [100.0] and [10.0], to which the int literals of the
    scripts are converted, and the scores and deltas of the examples. *)
Definition hundred : float := S754_finite false 7036874417766400 (-46).
Definition ten : float := S754_finite false 5629499534213120 (-49).
Definition five : float := S754_finite false 5629499534213120 (-50).
Definition fifteen : float := S754_finite false 8444249301319680 (-49).
Definition twenty : float := S754_finite false 5629499534213120 (-48).
Definition twenty_five : float := S754_finite false 7036874417766400 (-48).
Definition fifty : float := S754_finite false 7036874417766400 (-47).
Definition ninety : float := S754_finite false 6333186975989760 (-46).
Definition hundred_five : float := S754_finite false 7388718138654720 (-46).
Definition hundred_fifty : float := S754_finite false 5277655813324800 (-45).
Definition minus_ten : float := S754_finite true 5629499534213120 (-49).

Definition num_nan (x : num) : bool :=
  match x with
  | PyInt _ => false
  | PyFloat f => is_nan f
  end.

(** *** The status classifier *)

(** The value of [threshold + 10]. *)
Definition plus_10 (t : num) : num :=
  match t with
  | PyInt z => PyInt (z + 10)
  | PyFloat f => PyFloat (float_add f ten)
  end.

(** A threshold that is a finite number: any int, or a binary64 float that
    is neither an infinity nor NaN. *)
Definition num_finite (t : num) : Prop :=
  match t with
  | PyInt _ => True
  | PyFloat f => is_finite f = true /\ valid f
  end.

(** The ordered bands of the status classifier, as the specification lists
    them: each band holds only when the bands before it do not. *)
Inductive band (d : float) (t : num) : string -> Prop :=
| band_improved :
    num_le (PyFloat d) (PyInt (-5)) = true ->
    band d t "IMPROVED"
| band_ok :
    num_le (PyFloat d) (PyInt (-5)) = false ->
    num_le (PyFloat d) t = true ->
    band d t "OK"
| band_warn :
    num_le (PyFloat d) (PyInt (-5)) = false ->
    num_le (PyFloat d) t = false ->
    num_le (PyFloat d) (plus_10 t) = true ->
    band d t "WARN"
| band_regression :
    num_le (PyFloat d) (PyInt (-5)) = false ->
    num_le (PyFloat d) t = false ->
    num_le (PyFloat d) (plus_10 t) = false ->
    band d t "REGRESSION".

(** *** The presence resolver *)

(** The four cases of the presence resolver, from the two membership tests
    that open [format_benchmark_row]. *)
Inductive PresenceCase : Type :=
| BOTH
| CANDIDATE_ONLY
| BASELINE_ONLY
| NEITHER.

Definition resolve (name : string) (baselineSet candidateSet : MetricSet)
    : PresenceCase :=
  match dict_mem name baselineSet, dict_mem name candidateSet with
  | true, true => BOTH
  | false, true => CANDIDATE_ONLY
  | true, false => BASELINE_ONLY
  | false, false => NEITHER
  end.

(** The case that a row shows, from its two score cells. *)
Definition row_case (row : GenerateReport.Row) : PresenceCase :=
  match GenerateReport.row_v2 row, GenerateReport.row_v3 row with
  | Some _, Some _ => BOTH
  | None, Some _ => CANDIDATE_ONLY
  | Some _, None => BASELINE_ONLY
  | None, None => NEITHER
  end.

(** *** The regression gate *)

(** The delta that [diffs] holds for a key: absent when the key is missing
    or maps to [None]. *)
Definition delta_of (diffs : dict (option float)) (key : string)
    : option float :=
  match dict_get diffs key with
  | Some v => v
  | None => None
  end.

(** The deltas of the two designated roles of a corpus size, parse first. *)
Definition designated_deltas (diffs : dict (option float)) (size : string)
    : list (option float) :=
  [delta_of diffs ("parse" ++ size); delta_of diffs ("classify" ++ size)].

(** The regression gate in the words of the specification (section 4.5):
    collect the deltas that are present, neither absent nor NaN; with none
    the verdict is BASELINE, otherwise FAIL when the greatest of them
    exceeds the threshold and PASS when it does not. *)
Definition present_deltas (candidateDeltas : list (option float))
    : list float :=
  flat_map
    (fun d =>
       match d with
       | Some f => if is_nan f then [] else [f]
       | None => []
       end)
    candidateDeltas.

Definition max_delta (d : float) (ds : list float) : float :=
  fold_left
    (fun acc x => if num_gt (PyFloat x) (PyFloat acc) then x else acc) ds d.

Definition spec_evaluate (thresholdPercent : num)
    (candidateDeltas : list (option float)) : string :=
  match present_deltas candidateDeltas with
  | [] => "BASELINE"
  | d :: ds =>
      if num_gt (PyFloat (max_delta d ds)) thresholdPercent then "FAIL"
      else "PASS"
  end.

(** What the gate of [main] puts in the maximum for the classify delta. *)
Definition classify_operand (c : option float) : num :=
  match c with
  | Some f => if is_zero f then PyInt 0 else PyFloat f
  | None => PyInt 0
  end.

(** *** [parse_results] *)

(** The name and the measurement that [parse_results] takes from an
    entry. *)
Definition entry_name (e : Entry) : string :=
  last (str_split "." (benchmark e)) EmptyString.

Definition entry_measurement (e : Entry) : Measurement :=
  {| score := primaryMetric_score e; error := primaryMetric_scoreError e |}.

(** The loop of [parse_results], from any dictionary. *)
Definition store_entries (results : MetricSet) (data : list Entry)
    : MetricSet :=
  fold_left
    (fun results entry =>
       dict_set results (entry_name entry) (entry_measurement entry))
    data results.

(** *** Inputs of the examples *)

Definition measured (f : float) : Measurement :=
  {| score := f; error := S754_zero false |}.

(** The scenario of the specification (section 8): a baseline with one
    benchmark, a candidate with two. *)
Definition scenario_baseline : MetricSet :=
  [("parseSmall", measured hundred)]%string.

Definition scenario_candidate : MetricSet :=
  [("parseSmall", measured ninety);
   ("buildGraphSmall", measured five)]%string.

(** A results file whose end-to-end score for the small corpus is zero. *)
Definition zero_total_results : MetricSet :=
  [("parseSmall", measured hundred);
   ("analyzeSmall", measured (S754_zero false))]%string.

(** A results file whose end-to-end score for the small corpus is below
    zero. *)
Definition negative_total_results : MetricSet :=
  [("parseSmall", measured hundred);
   ("analyzeSmall", measured minus_ten)]%string.

(** Two results files: classification of the small and the large corpus
    went from 100 to 150 ms, and parsing was measured in the second file
    only. *)
Definition results_without_parse : MetricSet :=
  [("classifySmall", measured hundred);
   ("classifyLarge", measured hundred)]%string.

Definition results_with_parse : MetricSet :=
  [("classifySmall", measured hundred_fifty);
   ("classifyLarge", measured hundred_fifty);
   ("parseSmall", measured ten);
   ("parseLarge", measured ten)]%string.

(** The dictionary [diffs] that [main] computes from them. *)
Definition diffs_without_parse : dict (option float) :=
  [("parseSmall", None); ("parseMedium", None); ("parseLarge", None);
   ("buildGraphSmall", None); ("buildGraphMedium", None);
   ("buildGraphLarge", None);
   ("classifySmall", Some fifty); ("classifyMedium", None);
   ("classifyLarge", Some fifty)]%string.

(** Two results files whose parse scores for the medium corpus are both
    infinite, while classification went from 100 to 105 ms, and their
    [diffs]. *)
Definition results_inf_parse_v2 : MetricSet :=
  [("parseMedium", measured inf);
   ("classifyMedium", measured hundred)]%string.

Definition results_inf_parse_v3 : MetricSet :=
  [("parseMedium", measured inf);
   ("classifyMedium", measured hundred_five)]%string.

Definition diffs_nan_parse : dict (option float) :=
  [("parseSmall", None); ("parseMedium", Some nan); ("parseLarge", None);
   ("buildGraphSmall", None); ("buildGraphMedium", None);
   ("buildGraphLarge", None);
   ("classifySmall", None); ("classifyMedium", Some five);
   ("classifyLarge", None)]%string.

(** The deltas of a small corpus whose parse delta is exactly 20 and whose
    classify delta is absent. *)
Definition diffs_boundary : dict (option float) :=
  [("parseSmall", Some twenty); ("classifySmall", None)]%string.

(** Two records of one benchmark method under two class names. *)
Definition duplicate_entries : list Entry :=
  [{| benchmark := "bench.v2.ParsingBenchmark.parseSmall";
      primaryMetric_score := hundred;
      primaryMetric_scoreError := five |};
   {| benchmark := "bench.v3.ParsingBenchmark.parseSmall";
      primaryMetric_score := fifty;
      primaryMetric_scoreError := nan |}]%string.

(** Two results files with one benchmark in common, whose baseline score is
    zero. *)
Definition zero_baseline_v2 : MetricSet :=
  [("parseSmall", measured hundred);
   ("classifySmall", measured (S754_zero false))]%string.

Definition zero_baseline_v3 : MetricSet :=
  [("classifySmall", measured five)]%string.

(** *** More on [parse_results] *)

(** Whether a character occurs in a string. *)
Fixpoint has_char (c : ascii) (s : string) : bool :=
  match s with
  | EmptyString => false
  | String c' s' => Ascii.eqb c' c || has_char c s'
  end.

(** The names of a list in the order of their first occurrence: the order
    in which a dictionary filled from the list iterates. *)
Definition first_occurrences (names : list string) : list string :=
  fold_left
    (fun acc k => if existsb (String.eqb k) acc then acc else acc ++ [k])
    names [].

(** Three distinct benchmarks, as JMH names them. *)
Definition distinct_entries : list Entry :=
  [{| benchmark := "bench.ParsingBenchmark.parseSmall";
      primaryMetric_score := hundred;
      primaryMetric_scoreError := five |};
   {| benchmark := "bench.ClassifyBenchmark.classifySmall";
      primaryMetric_score := ten;
      primaryMetric_scoreError := nan |};
   {| benchmark := "analyzeSmall";
      primaryMetric_score := hundred_fifty;
      primaryMetric_scoreError := five |}]%string.

(** *** More on the report of generate-report.py *)

(** The value of [get_diff], which never raises. *)
Definition delta_value (b c : float) : float :=
  if is_zero b then inf
  else float_mul (SFdiv prec emax (float_sub c b) b) hundred.

(** The entry of [diffs] for a benchmark, from the two results. *)
Definition expected_diff (v2_results v3_results : MetricSet)
    (bench : string) : option float :=
  match dict_get v2_results bench, dict_get v3_results bench with
  | Some m2, Some m3 => Some (delta_value (score m2) (score m3))
  | _, _ => None
  end.

(** Whether the candidate has an end-to-end score above zero for a corpus
    size. *)
Definition has_total (v3_results : MetricSet) (size : string) : bool :=
  match dict_get v3_results ("analyze" ++ size) with
  | Some m => num_gt (PyFloat (score m)) (PyInt 0)
  | None => false
  end.

(** The statuses of the classifier from best to worst. *)
Definition status_rank (status : string) : nat :=
  if String.eqb status "IMPROVED" then 0
  else if String.eqb status "OK" then 1
  else if String.eqb status "WARN" then 2
  else 3.

(** A candidate with an end-to-end score for the medium corpus only, and
    no graph building score. *)
Definition medium_only_results : MetricSet :=
  [("parseMedium", measured ninety);
   ("classifyMedium", measured five);
   ("analyzeMedium", measured hundred)]%string.

(** The two numbers that a budget row shows for a phase: the score and its
    share of the total, or the int 0 and a share of [0.0] when the phase
    was not measured. *)
Definition phase_cell (v3_results : MetricSet) (key : string)
    (total : float) : num * num :=
  match dict_get v3_results key with
  | Some m =>
      (PyFloat (score m),
       PyFloat (float_mul (SFdiv prec emax (score m) total) hundred))
  | None => (PyInt 0, PyFloat (S754_zero false))
  end.

(** Two results files in which a parse score is NaN. *)
Definition nan_results_v2 : MetricSet :=
  [("parseSmall", measured nan)]%string.

Definition nan_results_v3 : MetricSet :=
  [("parseSmall", measured ninety)]%string.

(** *** The order of the numbers *)

(** The position of a number that is not NaN on
    the line of the integers scaled by [2 ^ 1074], between the two
    infinities. *)
Inductive position : Type :=
| NegInf
| Fin (z : Z)
| PosInf.

Definition position_le (a b : position) : Prop :=
  match a, b with
  | NegInf, _ => True
  | _, PosInf => True
  | Fin x, Fin y => x <= y
  | _, _ => False
  end.

Definition position_compare (a b : position) : comparison :=
  match a, b with
  | NegInf, NegInf => Eq
  | NegInf, _ => Lt
  | _, NegInf => Gt
  | PosInf, PosInf => Eq
  | PosInf, _ => Gt
  | _, PosInf => Lt
  | Fin x, Fin y => x ?= y
  end.

Definition float_position (f : float) : option position :=
  match f with
  | S754_nan => None
  | S754_infinity s => Some (if s then NegInf else PosInf)
  | S754_zero _ => Some (Fin 0)
  | S754_finite s m e => Some (Fin (cond_Zopp s (Z.pos m) * 2 ^ (e + 1074)))
  end.

Definition num_position (x : num) : option position :=
  match x with
  | PyInt z => Some (Fin (z * 2 ^ 1074))
  | PyFloat f => float_position f
  end.

Definition num_valid (x : num) : Prop :=
  match x with
  | PyInt _ => True
  | PyFloat f => valid f
  end.

(** *** The sign of a delta *)

(** Whether a float is zero or has the given sign; false for NaN. *)
Definition signed (sx : bool) (f : float) : bool :=
  match f with
  | S754_nan => false
  | S754_zero _ => true
  | S754_infinity s | S754_finite s _ _ => Bool.eqb s sx
  end.

(** Whether a benchmark, when it is in both results, has a finite baseline
    score above zero and a candidate score that is not greater. *)
Definition not_slower (v2_results v3_results : MetricSet) (bench : string)
    : bool :=
  match dict_get v2_results bench, dict_get v3_results bench with
  | Some m2, Some m3 =>
      valid_binary prec emax (score m2) && valid_binary prec emax (score m3)
      && is_finite (score m2)
      && num_gt (PyFloat (score m2)) (PyInt 0)
      && num_le (PyFloat (score m3)) (PyFloat (score m2))
  | _, _ => true
  end.

(** A baseline and a candidate that was as fast or faster in parsing and
    classification of the small corpus. *)
Definition faster_baseline : MetricSet :=
  [("parseSmall", measured hundred);
   ("classifySmall", measured five)]%string.

Definition faster_candidate : MetricSet :=
  [("parseSmall", measured ninety);
   ("classifySmall", measured five)]%string.

(** * Properties *)

(** ** The runtime fragment *)

Lemma float_of_int_100 : float_of_int 100 = Ok hundred.
Proof. vm_compute. reflexivity. Qed.

Lemma float_of_int_10 : float_of_int 10 = Ok ten.
Proof. vm_compute. reflexivity. Qed.

Lemma float_of_int_0 : float_of_int 0 = Ok (S754_zero false).
Proof. reflexivity. Qed.

(** A finite float that is not a zero compares with 0 by its sign. *)
Lemma float_compare_int_0 (s : bool) (m : positive) (e : Z) :
  float_compare_int (S754_finite s m e) 0 = Some (if s then Lt else Gt).
Proof.
  unfold float_compare_int, cond_Zopp. rewrite Z.mul_0_l. f_equal.
  destruct s.
  - apply Z.compare_lt_iff.
    apply Z.mul_neg_pos; [ lia | apply Z.pow_pos_nonneg; lia ].
  - apply Z.compare_gt_iff.
    apply Z.mul_pos_pos; [ lia | apply Z.pow_pos_nonneg; lia ].
Qed.

(** [x == 0] holds of the two zeros only. *)
Lemma num_eq_zero (f : float) :
  num_eq (PyFloat f) (PyInt 0) = is_zero f.
Proof.
  destruct f as [s | s | | s m e]; try destruct s; try reflexivity;
    unfold num_eq, num_compare; rewrite float_compare_int_0; reflexivity.
Qed.

Lemma num_add_10 (t : num) : num_add t (PyInt 10) = Ok (plus_10 t).
Proof.
  destruct t as [z | f]; [ reflexivity | ].
  unfold num_add, to_float. rewrite float_of_int_10. reflexivity.
Qed.

Lemma num_le_nan (y : num) : num_le (PyFloat nan) y = false.
Proof. destruct y as [z | g]; reflexivity. Qed.

(** ** DeltaCalculator: [get_diff] *)

Section DeltaCalculator.
Import GenerateReport.

Lemma get_diff_nonzero (b c : float) :
  num_eq (PyFloat b) (PyInt 0) = false ->
  get_diff b c = Ok (float_mul (SFdiv prec emax (float_sub c b) b) hundred).
Proof.
  intros Hb. unfold get_diff. rewrite Hb.
  rewrite num_eq_zero in Hb. unfold float_truediv. rewrite Hb.
  cbn [bind]. rewrite float_of_int_100. reflexivity.
Qed.

Lemma get_diff_zero (b c : float) :
  num_eq (PyFloat b) (PyInt 0) = true -> get_diff b c = Ok inf.
Proof. intros Hb. unfold get_diff. rewrite Hb. reflexivity. Qed.

(** A finite, non-zero float minus itself is [+0.0]. *)
Lemma float_sub_diag (s : bool) (m : positive) (e : Z) :
  float_sub (S754_finite s m e) (S754_finite s m e) = S754_zero false.
Proof.
  unfold float_sub, SFsub. rewrite Z.min_id.
  unfold shl_align. rewrite Z.sub_diag. cbn [fst].
  reflexivity.
Qed.

Lemma get_diff_diag (s : bool) (m : positive) (e : Z) :
  get_diff (S754_finite s m e) (S754_finite s m e) = Ok (S754_zero s).
Proof.
  rewrite get_diff_nonzero by (rewrite num_eq_zero; reflexivity).
  rewrite float_sub_diag. destruct s; reflexivity.
Qed.

(** C6, as the code has it: for a baseline that is not zero the delta is
    [(candidate - baseline) / baseline * 100] in binary64 arithmetic and
    the division does not raise; for a finite baseline above zero
    [delta(b, b)] is [+0.0]; for a zero baseline of either sign the delta
    is positive infinity whatever the candidate, NaN and negative numbers
    included. *)
Theorem get_diff_delta (b c : float) :
  (num_eq (PyFloat b) (PyInt 0) = false ->
   get_diff b c
   = Ok (float_mul (SFdiv prec emax (float_sub c b) b) hundred)) /\
  (is_finite b = true -> num_gt (PyFloat b) (PyInt 0) = true ->
   get_diff b b = Ok (S754_zero false)) /\
  (num_eq (PyFloat b) (PyInt 0) = true -> get_diff b c = Ok inf).
Proof.
  split; [ apply get_diff_nonzero | split; [ | apply get_diff_zero ] ].
  intros Hfin Hpos.
  destruct b as [s | s | | s m e]; try discriminate.
  unfold num_gt, num_compare in Hpos. rewrite float_compare_int_0 in Hpos.
  destruct s; [ discriminate | apply get_diff_diag ].
Qed.

Lemma get_diff_delta_witness :
  get_diff hundred ten
  = Ok (float_mul (SFdiv prec emax (float_sub ten hundred) hundred) hundred)
  /\ get_diff hundred hundred = Ok (S754_zero false)
  /\ get_diff (S754_zero true) (S754_finite true 1 0) = Ok inf.
Proof.
  split; [ | split ].
  - apply (proj1 (get_diff_delta hundred ten)). reflexivity.
  - apply (proj1 (proj2 (get_diff_delta hundred hundred))); reflexivity.
  - apply (proj2 (proj2
      (get_diff_delta (S754_zero true) (S754_finite true 1 0)))).
    reflexivity.
Defined.

(** C6 fails as stated at the baseline [+inf], which is above zero:
    [delta(inf, inf)] is NaN, and NaN is not equal to 0. *)
Lemma get_diff_inf_inf_is_nan :
  num_gt (PyFloat inf) (PyInt 0) = true /\
  get_diff inf inf = Ok nan /\
  num_eq (PyFloat nan) (PyInt 0) = false.
Proof. repeat split. Qed.

End DeltaCalculator.

(** ** StatusClassifier: [get_status] *)

Section StatusClassifier.
Import GenerateReport.

Lemma get_status_cases (d : float) (t : num) :
  get_status d t
  = Ok (if num_le (PyFloat d) (PyInt (-5)) then "IMPROVED"
        else if num_le (PyFloat d) t then "OK"
        else if num_le (PyFloat d) (plus_10 t) then "WARN"
        else "REGRESSION")%string.
Proof.
  unfold get_status. rewrite num_add_10. cbn [bind].
  destruct (num_le (PyFloat d) (PyInt (-5))); [ reflexivity | ].
  destruct (num_le (PyFloat d) t); [ reflexivity | ].
  destruct (num_le (PyFloat d) (plus_10 t)); reflexivity.
Qed.

Lemma get_status_band (d : float) (t : num) :
  exists s : string, get_status d t = Ok s /\ band d t s.
Proof.
  rewrite get_status_cases.
  destruct (num_le (PyFloat d) (PyInt (-5))) eqn:H1;
    [ | destruct (num_le (PyFloat d) t) eqn:H2;
        [ | destruct (num_le (PyFloat d) (plus_10 t)) eqn:H3 ] ];
    eexists; (split; [ reflexivity | constructor; assumption ]).
Qed.

Lemma band_unique (d : float) (t : num) (s s' : string) :
  band d t s -> band d t s' -> s' = s.
Proof.
  intros Hs Hs'. inversion Hs; subst; inversion Hs'; subst;
    try reflexivity; congruence.
Qed.

Lemma band_status (d : float) (t : num) (s : string) :
  band d t s -> In s ["IMPROVED"; "OK"; "WARN"; "REGRESSION"]%string.
Proof. intros Hs. inversion Hs; subst; cbn; tauto. Qed.

(** C5: for every delta (finite or not) and every threshold, [get_status]
    returns one of IMPROVED, OK, WARN and REGRESSION, the one whose band
    holds, and no other band holds: the bands are exhaustive and mutually
    exclusive. *)
Theorem get_status_bands (d : float) (t : num) :
  exists s : string,
    get_status d t = Ok s /\
    band d t s /\
    In s ["IMPROVED"; "OK"; "WARN"; "REGRESSION"]%string /\
    forall s' : string, band d t s' -> s' = s.
Proof.
  destruct (get_status_band d t) as (s & Hs & Hband).
  exists s. split; [ exact Hs | ]. split; [ exact Hband | ].
  split; [ apply (band_status d t), Hband | ].
  intros s'. apply band_unique, Hband.
Qed.

(** C10: a NaN delta fails the three comparisons and is classified
    REGRESSION, for every threshold. *)
Theorem get_status_nan (t : num) :
  get_status nan t = Ok "REGRESSION"%string.
Proof.
  rewrite get_status_cases. rewrite !num_le_nan. reflexivity.
Qed.

End StatusClassifier.

(** ** PresenceResolver: [format_benchmark_row] *)

Section PresenceResolver.
Import GenerateReport.

Lemma get_diff_total (b c : float) : exists d, get_diff b c = Ok d.
Proof.
  destruct (num_eq (PyFloat b) (PyInt 0)) eqn:Hb.
  - exists inf. apply get_diff_zero, Hb.
  - eexists. apply get_diff_nonzero, Hb.
Qed.

(** C4: [format_benchmark_row] returns a row for every name and every pair
    of results, in exactly the case that the two membership tests select;
    a name in neither results file gets the placeholder row, with no score,
    no difference and the unknown status, and nothing is raised. *)
Theorem format_benchmark_row_total (bench : string)
    (v2_results v3_results : MetricSet) (threshold : num) :
  exists row : Row,
    format_benchmark_row bench v2_results v3_results threshold = Ok row /\
    row_bench row = bench /\
    row_case row = resolve bench v2_results v3_results /\
    match resolve bench v2_results v3_results with
    | BOTH =>
        exists m2 m3 diff,
          dict_get v2_results bench = Some m2 /\
          dict_get v3_results bench = Some m3 /\
          get_diff (score m2) (score m3) = Ok diff /\
          row_v2 row = Some (score m2) /\
          row_v3 row = Some (score m3) /\
          row_diff row = Some diff /\
          band diff threshold (row_status row)
    | CANDIDATE_ONLY =>
        exists m3,
          dict_get v2_results bench = None /\
          dict_get v3_results bench = Some m3 /\
          row_v2 row = None /\
          row_v3 row = Some (score m3) /\
          row_diff row = None /\
          row_status row = "NEW"%string
    | BASELINE_ONLY =>
        exists m2,
          dict_get v2_results bench = Some m2 /\
          dict_get v3_results bench = None /\
          row_v2 row = Some (score m2) /\
          row_v3 row = None /\
          row_diff row = None /\
          row_status row = "REMOVED"%string
    | NEITHER =>
        dict_get v2_results bench = None /\
        dict_get v3_results bench = None /\
        row_v2 row = None /\
        row_v3 row = None /\
        row_diff row = None /\
        row_status row = status_unknown
    end.
Proof.
  unfold format_benchmark_row, resolve, dict_mem, dict_item.
  destruct (dict_get v2_results bench) as [m2 | ] eqn:H2;
    destruct (dict_get v3_results bench) as [m3 | ] eqn:H3; cbn [andb bind].
  - destruct (get_diff_total (score m2) (score m3)) as [d Hd].
    rewrite Hd. cbn [bind].
    destruct (get_status_band d threshold) as (s & Hs & Hband).
    rewrite Hs. cbn [bind].
    eexists. split; [ reflexivity | ]. do 2 (split; [ reflexivity | ]).
    exists m2, m3, d. cbn. repeat split; assumption.
  - eexists. split; [ reflexivity | ]. do 2 (split; [ reflexivity | ]).
    exists m2. cbn. repeat split.
  - eexists. split; [ reflexivity | ]. do 2 (split; [ reflexivity | ]).
    exists m3. cbn. repeat split.
  - eexists. split; [ reflexivity | ]. do 2 (split; [ reflexivity | ]).
    cbn. repeat split.
Qed.

End PresenceResolver.

(** ** BudgetBreakdown: the time budget rows of [main] *)

Section BudgetBreakdown.
Import GenerateReport.

Lemma num_gt_zero_not_zero (total : float) :
  num_gt (PyFloat total) (PyInt 0) = true -> is_zero total = false.
Proof. destruct total; [ discriminate | reflexivity .. ]. Qed.

Lemma num_eq_zero_not_gt (total : float) :
  num_eq (PyFloat total) (PyInt 0) = true ->
  num_gt (PyFloat total) (PyInt 0) = false.
Proof.
  unfold num_eq, num_gt. destruct (num_compare _ _) as [[ | | ] | ];
    intros H; try discriminate H; reflexivity.
Qed.

Lemma percentage_score_or_zero (v3_results : MetricSet) (key : string)
    (total : float) :
  num_gt (PyFloat total) (PyInt 0) = true ->
  exists p, percentage (score_or_zero v3_results key) total = Ok (PyFloat p).
Proof.
  intros Hpos. unfold percentage. rewrite Hpos.
  assert (Hx : exists x, to_float (score_or_zero v3_results key) = Ok x).
  { unfold score_or_zero. destruct (dict_get v3_results key);
      eexists; reflexivity. }
  destruct Hx as [x Hx]. rewrite Hx. cbn [bind].
  unfold float_truediv. rewrite (num_gt_zero_not_zero _ Hpos). cbn [bind].
  rewrite float_of_int_100. eexists. reflexivity.
Qed.

Lemma main_budget_row_skips (v3_results : MetricSet) (size : string)
    (types : Z) :
  match dict_get v3_results ("analyze" ++ size) with
  | Some m => num_gt (PyFloat (score m)) (PyInt 0) = false
  | None => True
  end ->
  main_budget_row v3_results size types = Ok None.
Proof.
  unfold main_budget_row, dict_mem, dict_item.
  destruct (dict_get v3_results ("analyze" ++ size)) as [m | ];
    [ | reflexivity ].
  intros H. cbn [bind]. rewrite H. reflexivity.
Qed.

Lemma main_budget_row_makes (v3_results : MetricSet) (size : string)
    (types : Z) (m : Measurement) :
  dict_get v3_results ("analyze" ++ size) = Some m ->
  num_gt (PyFloat (score m)) (PyInt 0) = true ->
  exists r,
    main_budget_row v3_results size types = Ok (Some r) /\
    budget_total r = score m.
Proof.
  intros Hm Hpos. unfold main_budget_row, dict_mem, dict_item.
  rewrite Hm. cbn [bind]. rewrite Hpos.
  destruct (percentage_score_or_zero v3_results ("parse" ++ size) _ Hpos)
    as [p1 H1].
  destruct (percentage_score_or_zero v3_results ("buildGraph" ++ size) _ Hpos)
    as [p2 H2].
  destruct (percentage_score_or_zero v3_results ("classify" ++ size) _ Hpos)
    as [p3 H3].
  rewrite H1, H2, H3. cbn [bind]. eexists. split; reflexivity.
Qed.

Lemma main_budget_row_ok (v3_results : MetricSet) (size : string)
    (types : Z) :
  exists r, main_budget_row v3_results size types = Ok r.
Proof.
  destruct (dict_get v3_results ("analyze" ++ size)) as [m | ] eqn:Hm.
  - destruct (num_gt (PyFloat (score m)) (PyInt 0)) eqn:Hpos.
    + destruct (main_budget_row_makes _ _ types _ Hm Hpos) as (r & Hr & _).
      eexists. exact Hr.
    + exists None. apply main_budget_row_skips. rewrite Hm. exact Hpos.
  - exists None. apply main_budget_row_skips. rewrite Hm. exact I.
Qed.

Lemma main_budget_ok (v3_results : MetricSet) :
  exists rows, main_budget v3_results = Ok rows.
Proof.
  unfold main_budget, corpus_sizes. cbn [fold_left bind].
  destruct (main_budget_row_ok v3_results "Small" 50) as [r1 H1].
  destruct (main_budget_row_ok v3_results "Medium" 196) as [r2 H2].
  destruct (main_budget_row_ok v3_results "Large" 540) as [r3 H3].
  rewrite H1. cbn [bind].
  destruct r1; rewrite H2; cbn [bind]; destruct r2; rewrite H3; cbn [bind];
    destruct r3; eexists; reflexivity.
Qed.

(** C3, as the code has it: the time budget never raises; when the
    end-to-end measurement of a corpus is missing, or its score is zero,
    the loop appends no row for that corpus (rather than a row of zero
    percentages); a row is made exactly when the measurement is there and
    its score is above zero, so a score below zero and a NaN score give no
    row either. *)
Theorem main_budget_row_zero_total (v3_results : MetricSet) (size : string)
    (types : Z) :
  (exists rows, main_budget v3_results = Ok rows) /\
  (exists r, main_budget_row v3_results size types = Ok r) /\
  (dict_get v3_results ("analyze" ++ size) = None ->
   main_budget_row v3_results size types = Ok None) /\
  (forall m,
     dict_get v3_results ("analyze" ++ size) = Some m ->
     num_eq (PyFloat (score m)) (PyInt 0) = true ->
     main_budget_row v3_results size types = Ok None) /\
  (forall m,
     dict_get v3_results ("analyze" ++ size) = Some m ->
     num_gt (PyFloat (score m)) (PyInt 0) = true ->
     exists r,
       main_budget_row v3_results size types = Ok (Some r) /\
       budget_total r = score m) /\
  (forall m,
     dict_get v3_results ("analyze" ++ size) = Some m ->
     num_gt (PyFloat (score m)) (PyInt 0) = false ->
     main_budget_row v3_results size types = Ok None) /\
  ((exists r, main_budget_row v3_results size types = Ok (Some r)) <->
   exists m,
     dict_get v3_results ("analyze" ++ size) = Some m /\
     num_gt (PyFloat (score m)) (PyInt 0) = true).
Proof.
  split; [ apply main_budget_ok | ].
  split; [ apply main_budget_row_ok | ].
  split; [ | split; [ | split; [ | split ] ] ].
  - intros Hm. apply main_budget_row_skips. rewrite Hm. exact I.
  - intros m Hm Hz. apply main_budget_row_skips. rewrite Hm.
    apply num_eq_zero_not_gt, Hz.
  - intros m. apply main_budget_row_makes.
  - intros m Hm Hpos. apply main_budget_row_skips. rewrite Hm. exact Hpos.
  - split.
    + intros [r Hr].
      destruct (dict_get v3_results ("analyze" ++ size)) as [m | ] eqn:Hm.
      * destruct (num_gt (PyFloat (score m)) (PyInt 0)) eqn:Hpos.
        -- exists m. split; [ reflexivity | exact Hpos ].
        -- rewrite (main_budget_row_skips v3_results size types) in Hr
             by (rewrite Hm; exact Hpos).
           discriminate Hr.
      * rewrite (main_budget_row_skips v3_results size types) in Hr
          by (rewrite Hm; exact I).
        discriminate Hr.
    + intros (m & Hm & Hpos).
      destruct (main_budget_row_makes _ _ types _ Hm Hpos) as (r & Hr & _).
      exists r. exact Hr.
Qed.

Lemma main_budget_row_zero_total_witness :
  main_budget_row [] "Large" 540 = Ok None /\
  main_budget_row zero_total_results "Small" 50 = Ok None /\
  main_budget_row negative_total_results "Small" 50 = Ok None.
Proof.
  split; [ | split ].
  - apply (proj1 (proj2 (proj2
      (main_budget_row_zero_total [] "Large" 540)))).
    reflexivity.
  - apply (proj1 (proj2 (proj2 (proj2
      (main_budget_row_zero_total zero_total_results "Small" 50))))
      {| score := S754_zero false; error := S754_zero false |});
      reflexivity.
  - apply (proj1 (proj2 (proj2 (proj2 (proj2 (proj2
      (main_budget_row_zero_total negative_total_results "Small" 50))))))
      (measured minus_ten));
      reflexivity.
Defined.

(** C3 fails as stated on a results file whose end-to-end score for the
    small corpus is zero: the loop makes no budget entry for that corpus,
    and the table stays empty. *)
Lemma main_budget_zero_total_no_entry :
  dict_get zero_total_results "analyzeSmall"
  = Some {| score := S754_zero false; error := S754_zero false |} /\
  main_budget_row zero_total_results "Small" 50 = Ok None /\
  main_budget zero_total_results = Ok [].
Proof. repeat split. Qed.

End BudgetBreakdown.

(** ** RegressionGate: the threshold rows of [main] *)

Section RegressionGate.
Import GenerateReport.

Lemma or_zero_delta_of (diffs : dict (option float)) (key : string) :
  or_zero (dict_get diffs key) = classify_operand (delta_of diffs key).
Proof.
  unfold or_zero, classify_operand, delta_of, float_truthy.
  destruct (dict_get diffs key) as [[f | ] | ]; try reflexivity.
  destruct (is_zero f); reflexivity.
Qed.

Lemma delta_of_some (diffs : dict (option float)) (key : string)
    (p : float) :
  delta_of diffs key = Some p <-> dict_get diffs key = Some (Some p).
Proof.
  unfold delta_of. destruct (dict_get diffs key) as [v | ].
  - split; intros H; congruence.
  - split; intros H; discriminate H.
Qed.

Lemma main_gate_row_present (diffs : dict (option float)) (size : string)
    (threshold : num) (p : float) :
  delta_of diffs ("parse" ++ size) = Some p ->
  main_gate_row diffs size threshold
  = let classify_diff :=
      classify_operand (delta_of diffs ("classify" ++ size)) in
    {| gate_size := size; gate_threshold := threshold;
       gate_result := Some (p, classify_diff);
       gate_status :=
         if num_le (builtin_max (PyFloat p) classify_diff) threshold
         then "PASS" else "FAIL" |}.
Proof.
  intros Hp. apply delta_of_some in Hp. unfold main_gate_row.
  rewrite Hp, or_zero_delta_of. reflexivity.
Qed.

Lemma main_gate_row_absent (diffs : dict (option float)) (size : string)
    (threshold : num) :
  delta_of diffs ("parse" ++ size) = None ->
  main_gate_row diffs size threshold
  = {| gate_size := size; gate_threshold := threshold;
       gate_result := None; gate_status := "BASELINE" |}.
Proof.
  unfold delta_of, main_gate_row.
  destruct (dict_get diffs ("parse" ++ size)) as [[p | ] | ];
    intros H; try discriminate H; reflexivity.
Qed.

(** C1, as the code has it: the verdict is BASELINE exactly when the parse
    delta is absent, whatever the classify delta; when the parse delta is
    present, the row holds both designated deltas, the classify delta
    being replaced by the number 0 when it is absent (or zero), and the
    verdict compares the maximum of the two with the threshold. *)
Theorem main_gate_row_baseline (diffs : dict (option float))
    (size : string) (threshold : num) :
  (gate_status (main_gate_row diffs size threshold) = "BASELINE"%string <->
   delta_of diffs ("parse" ++ size) = None) /\
  (forall p,
     delta_of diffs ("parse" ++ size) = Some p ->
     let classify_diff :=
       classify_operand (delta_of diffs ("classify" ++ size)) in
     gate_result (main_gate_row diffs size threshold)
     = Some (p, classify_diff) /\
     gate_status (main_gate_row diffs size threshold)
     = (if num_le (builtin_max (PyFloat p) classify_diff) threshold
        then "PASS" else "FAIL")%string) /\
  (delta_of diffs ("classify" ++ size) = None ->
   classify_operand (delta_of diffs ("classify" ++ size)) = PyInt 0).
Proof.
  split; [ | split ].
  - destruct (delta_of diffs ("parse" ++ size)) as [p | ] eqn:Hp.
    + rewrite (main_gate_row_present _ _ _ _ Hp). cbn.
      destruct (num_le _ _); split; intros H; discriminate H.
    + rewrite (main_gate_row_absent _ _ _ Hp). split; reflexivity.
  - intros p Hp. rewrite (main_gate_row_present _ _ _ _ Hp).
    split; reflexivity.
  - intros Hc. rewrite Hc. reflexivity.
Qed.

Lemma main_gate_row_baseline_witness :
  gate_result (main_gate_row diffs_nan_parse "Medium" (PyInt 25))
  = Some (nan, PyFloat five) /\
  gate_status (main_gate_row diffs_without_parse "Small" (PyInt 20))
  = "BASELINE"%string.
Proof.
  split.
  - apply (proj1 (proj2
      (main_gate_row_baseline diffs_nan_parse "Medium" (PyInt 25)))).
    reflexivity.
  - apply (proj1
      (main_gate_row_baseline diffs_without_parse "Small" (PyInt 20))).
    reflexivity.
Defined.

(** C1 fails as stated when parsing was measured in one results file only
    and classification in both: the classify delta of the small corpus is
    present (+50%), and the verdict is BASELINE all the same. *)
Lemma main_gate_baseline_with_present_delta :
  main_diffs results_without_parse results_with_parse
  = Ok diffs_without_parse /\
  present_deltas (designated_deltas diffs_without_parse "Small") = [fifty] /\
  gate_status (main_gate_row diffs_without_parse "Small" (PyInt 20))
  = "BASELINE"%string.
Proof. repeat split. Qed.

End RegressionGate.

Section GateVerdict.
Import GenerateReport.

(** Two numbers of which neither is NaN compare. *)
Lemma num_compare_some (x y : num) :
  num_nan x = false -> num_nan y = false ->
  exists c, num_compare x y = Some c.
Proof.
  destruct x as [a | f], y as [b | g]; cbn [num_nan]; intros Hx Hy.
  - eexists. reflexivity.
  - destruct g; try discriminate Hy; eexists; reflexivity.
  - destruct f; try discriminate Hx; eexists; reflexivity.
  - destruct f; try discriminate Hx; destruct g; try discriminate Hy;
      eexists; reflexivity.
Qed.

Lemma num_le_not_gt (x y : num) :
  num_nan x = false -> num_nan y = false ->
  num_le x y = negb (num_gt x y).
Proof.
  intros Hx Hy. destruct (num_compare_some x y Hx Hy) as [c Hc].
  unfold num_le, num_gt. rewrite Hc. destruct c; reflexivity.
Qed.

Lemma num_le_not_nan (x y : num) : num_le x y = true -> num_nan y = false.
Proof.
  destruct y as [b | g]; [ reflexivity | ].
  destruct g; try reflexivity.
  destruct x as [a | f]; [ discriminate | ].
  destruct f; discriminate.
Qed.

(** The int 0 and a float zero compare alike with every number. *)
Lemma num_compare_zero_l (s : bool) (y : num) :
  num_compare (PyInt 0) y = num_compare (PyFloat (S754_zero s)) y.
Proof.
  destruct y as [b | g]; [ reflexivity | ].
  destruct g as [s' | s' | | s' m e]; cbn [num_compare].
  - reflexivity.
  - destruct s'; reflexivity.
  - reflexivity.
  - rewrite float_compare_int_0. destruct s'; reflexivity.
Qed.

Lemma num_compare_zero_r (s : bool) (x : num) :
  num_compare x (PyInt 0) = num_compare x (PyFloat (S754_zero s)).
Proof.
  destruct x as [a | f]; cbn [num_compare].
  - cbn [option_map float_compare_int].
    rewrite (Z.compare_antisym 0 a). reflexivity.
  - destruct f as [s' | s' | | s' m e].
    + reflexivity.
    + destruct s'; reflexivity.
    + reflexivity.
    + rewrite float_compare_int_0. destruct s'; reflexivity.
Qed.

(** A float below zero is below every number that is at least zero. *)
Lemma num_gt_below_zero (p : float) (t : num) :
  num_gt (PyInt 0) (PyFloat p) = true ->
  num_le (PyInt 0) t = true ->
  num_gt (PyFloat p) t = false.
Proof.
  unfold num_gt, num_le. cbn [num_compare]. intros Hp Ht.
  assert (Hneg : p = S754_infinity true \/
                 exists m e, p = S754_finite true m e).
  { destruct p as [s | s | | s m e]; try discriminate Hp.
    - destruct s; [ left; reflexivity | discriminate Hp ].
    - rewrite float_compare_int_0 in Hp.
      destruct s; [ right; eauto | discriminate Hp ]. }
  destruct t as [b | g].
  - cbn [num_compare] in Ht.
    assert (Hb : 0 <= b).
    { destruct (Z.compare_spec 0 b); [ lia | lia | discriminate Ht ]. }
    destruct Hneg as [-> | (m & e & ->)]; [ reflexivity | ].
    unfold float_compare_int, cond_Zopp.
    assert (H : - Z.pos m * 2 ^ Z.max e 0 < b * 2 ^ Z.max (- e) 0).
    { assert (H1 : - Z.pos m * 2 ^ Z.max e 0 < 0) by
        (apply Z.mul_neg_pos; [ lia | apply Z.pow_pos_nonneg; lia ]).
      assert (H2 : 0 <= b * 2 ^ Z.max (- e) 0) by
        (apply Z.mul_nonneg_nonneg; [ lia | apply Z.pow_nonneg; lia ]).
      lia. }
    apply Z.compare_lt_iff in H. rewrite H. reflexivity.
  - cbn [num_compare] in Ht.
    destruct g as [s | s | | s m' e'].
    + destruct Hneg as [-> | (m & e & ->)]; reflexivity.
    + destruct s; [ discriminate Ht | ].
      destruct Hneg as [-> | (m & e & ->)]; reflexivity.
    + discriminate Ht.
    + rewrite float_compare_int_0 in Ht.
      destruct s; [ discriminate Ht | ].
      destruct Hneg as [-> | (m & e & ->)]; reflexivity.
Qed.

(** The verdict, from the maximum of the gate to that of the present
    deltas. *)
Lemma gate_max_parse_only (p : float) (t : num) :
  is_nan p = false ->
  num_le (PyInt 0) t = true ->
  num_le (builtin_max (PyFloat p) (PyInt 0)) t
  = negb (num_gt (PyFloat p) t).
Proof.
  intros Hp Ht. unfold builtin_max.
  destruct (num_gt (PyInt 0) (PyFloat p)) eqn:Hneg.
  - rewrite Ht, (num_gt_below_zero p t Hneg Ht). reflexivity.
  - apply num_le_not_gt; [ exact Hp | apply (num_le_not_nan _ _ Ht) ].
Qed.

Lemma gate_max_both (p c : float) (t : num) :
  is_nan p = false -> is_nan c = false -> num_nan t = false ->
  num_le (builtin_max (PyFloat p) (classify_operand (Some c))) t
  = negb (num_gt (PyFloat (max_delta p [c])) t).
Proof.
  intros Hp Hc Ht. unfold builtin_max, max_delta, classify_operand.
  cbn [fold_left].
  destruct c as [s | s | | s m e]; cbn [is_zero];
    try discriminate Hc.
  - unfold num_gt at 1. rewrite (num_compare_zero_l s).
    fold (num_gt (PyFloat (S754_zero s)) (PyFloat p)).
    destruct (num_gt (PyFloat (S754_zero s)) (PyFloat p)).
    + unfold num_le. rewrite (num_compare_zero_l s).
      fold (num_le (PyFloat (S754_zero s)) t).
      apply num_le_not_gt; [ reflexivity | exact Ht ].
    + apply num_le_not_gt; [ exact Hp | exact Ht ].
  - destruct (num_gt (PyFloat (S754_infinity s)) (PyFloat p));
      apply num_le_not_gt; try exact Ht; try exact Hp; reflexivity.
  - destruct (num_gt (PyFloat (S754_finite s m e)) (PyFloat p));
      apply num_le_not_gt; try exact Ht; try exact Hp; reflexivity.
Qed.

Lemma gate_max_nan_classify (p : float) (t : num) :
  is_nan p = false -> num_nan t = false ->
  num_le (builtin_max (PyFloat p) (classify_operand (Some nan))) t
  = negb (num_gt (PyFloat p) t).
Proof.
  intros Hp Ht. unfold builtin_max. cbn [classify_operand nan is_zero].
  replace (num_gt (PyFloat S754_nan) (PyFloat p)) with false
    by (destruct p; reflexivity).
  apply num_le_not_gt; assumption.
Qed.

(** C2, as the code has it: when the parse delta is present and is not
    NaN, and the threshold is at least zero (as 20, 25 and 30 are), the
    verdict is the one of the specification: FAIL when the greatest
    present delta exceeds the threshold and PASS when it does not, so PASS
    when the two are equal. When the parse delta is absent the verdict is
    BASELINE, whatever the classify delta and the threshold. *)
Theorem main_gate_row_verdict (diffs : dict (option float)) (size : string)
    (threshold : num) :
  (forall p : float,
     delta_of diffs ("parse" ++ size) = Some p ->
     is_nan p = false ->
     num_le (PyInt 0) threshold = true ->
     exists d ds,
       present_deltas (designated_deltas diffs size) = d :: ds /\
       gate_status (main_gate_row diffs size threshold)
       = spec_evaluate threshold (designated_deltas diffs size) /\
       gate_status (main_gate_row diffs size threshold)
       = (if num_gt (PyFloat (max_delta d ds)) threshold
          then "FAIL" else "PASS")%string /\
       (num_eq (PyFloat (max_delta d ds)) threshold = true ->
        gate_status (main_gate_row diffs size threshold) = "PASS"%string)) /\
  (delta_of diffs ("parse" ++ size) = None ->
   forall c : option float,
     delta_of diffs ("classify" ++ size) = c ->
     gate_status (main_gate_row diffs size threshold) = "BASELINE"%string /\
     gate_result (main_gate_row diffs size threshold) = None).
Proof.
  split;
    [ | intros Hp c _; rewrite (main_gate_row_absent _ _ _ Hp);
        split; reflexivity ].
  intros p Hp Hnan Ht.
  rewrite (main_gate_row_present _ _ _ _ Hp). cbn [gate_status].
  unfold spec_evaluate, designated_deltas, present_deltas.
  rewrite Hp. cbn [flat_map app]. rewrite Hnan. cbn [app].
  assert (Heq : forall x : float,
            num_eq (PyFloat x) threshold = true ->
            num_gt (PyFloat x) threshold = false).
  { intros x. unfold num_eq, num_gt.
    destruct (num_compare (PyFloat x) threshold) as [[ | | ] | ];
      intros H; try discriminate H; reflexivity. }
  pose proof (num_le_not_nan _ _ Ht) as Htn.
  destruct (delta_of diffs ("classify" ++ size)) as [c | ] eqn:Hcd.
  - destruct (is_nan c) eqn:Hc; cbn [app].
    + assert (c = nan) by (destruct c; try discriminate Hc; reflexivity).
      subst c. exists p, [].
      rewrite (gate_max_nan_classify p threshold Hnan Htn).
      cbn [max_delta fold_left].
      destruct (num_gt (PyFloat p) threshold) eqn:Hgt;
        cbn [negb]; repeat split.
      intros H. apply Heq in H. congruence.
    + exists p, [c].
      rewrite (gate_max_both p c threshold Hnan Hc Htn).
      destruct (num_gt (PyFloat (max_delta p [c])) threshold) eqn:Hgt;
        cbn [negb]; repeat split.
      intros H. apply Heq in H. congruence.
  - cbn [app classify_operand]. exists p, [].
    rewrite (gate_max_parse_only p threshold Hnan Ht).
    cbn [max_delta fold_left].
    destruct (num_gt (PyFloat p) threshold) eqn:Hgt;
      cbn [negb]; repeat split.
    intros H. apply Heq in H. congruence.
Qed.

End GateVerdict.

Section GateExamples.
Import GenerateReport.

Lemma main_gate_row_verdict_witness :
  (exists d ds,
     present_deltas (designated_deltas diffs_boundary "Small") = d :: ds /\
     gate_status (main_gate_row diffs_boundary "Small" (PyInt 20))
     = spec_evaluate (PyInt 20) (designated_deltas diffs_boundary "Small") /\
     gate_status (main_gate_row diffs_boundary "Small" (PyInt 20))
     = (if num_gt (PyFloat (max_delta d ds)) (PyInt 20)
        then "FAIL" else "PASS")%string /\
     (num_eq (PyFloat (max_delta d ds)) (PyInt 20) = true ->
      gate_status (main_gate_row diffs_boundary "Small" (PyInt 20))
      = "PASS"%string)) /\
  (gate_status (main_gate_row diffs_without_parse "Large" (PyInt 30))
   = "BASELINE"%string /\
   gate_result (main_gate_row diffs_without_parse "Large" (PyInt 30))
   = None).
Proof.
  split.
  - apply (proj1 (main_gate_row_verdict diffs_boundary "Small" (PyInt 20))
             twenty); reflexivity.
  - apply (proj2 (main_gate_row_verdict diffs_without_parse "Large"
                    (PyInt 30)) eq_refl (Some fifty)).
    reflexivity.
Defined.

(** A parse delta equal to the threshold passes. *)
Lemma main_gate_row_boundary :
  gate_status (main_gate_row diffs_boundary "Small" (PyInt 20))
  = "PASS"%string.
Proof. reflexivity. Qed.

(** C2 fails as stated when parsing was measured in one results file only
    and classification in both: the classify delta of the large corpus is
    present and, at +50%, exceeds the threshold of 30, so the verdict of
    the specification is FAIL; the code answers BASELINE. *)
Lemma main_gate_baseline_not_fail :
  main_diffs results_without_parse results_with_parse
  = Ok diffs_without_parse /\
  spec_evaluate (PyInt 30) (designated_deltas diffs_without_parse "Large")
  = "FAIL"%string /\
  gate_status (main_gate_row diffs_without_parse "Large" (PyInt 30))
  = "BASELINE"%string.
Proof. repeat split. Qed.

(** A NaN parse delta is not set aside: it is the maximum whatever the
    classify delta, and the verdict is FAIL where the specification, from
    the classify delta of +5% alone, has PASS. *)
Lemma main_gate_nan_parse_fails :
  main_diffs results_inf_parse_v2 results_inf_parse_v3 = Ok diffs_nan_parse /\
  spec_evaluate (PyInt 25) (designated_deltas diffs_nan_parse "Medium")
  = "PASS"%string /\
  gate_status (main_gate_row diffs_nan_parse "Medium" (PyInt 25))
  = "FAIL"%string.
Proof. repeat split. Qed.

End GateExamples.

(** ** [dict] *)

Section DictFacts.
Context {V : Type}.
Implicit Types (d : dict V) (k : string) (v : V).

Lemma dict_get_set_eq d k v : dict_get (dict_set d k v) k = Some v.
Proof.
  induction d as [ | [k' v'] d IH]; cbn.
  - rewrite String.eqb_refl. reflexivity.
  - destruct (String.eqb k' k) eqn:E; cbn.
    + rewrite String.eqb_refl. reflexivity.
    + rewrite E. exact IH.
Qed.

Lemma dict_get_set_ne d k k0 v :
  k0 <> k -> dict_get (dict_set d k v) k0 = dict_get d k0.
Proof.
  intros Hne. induction d as [ | [k' v'] d IH]; cbn.
  - apply String.eqb_neq in Hne. rewrite String.eqb_sym, Hne. reflexivity.
  - destruct (String.eqb k' k) eqn:E; cbn.
    + apply String.eqb_eq in E. subst k'.
      apply String.eqb_neq in Hne. rewrite String.eqb_sym, Hne.
      reflexivity.
    + destruct (String.eqb k' k0); [ reflexivity | exact IH ].
Qed.

Lemma dict_get_set d k k0 v :
  dict_get (dict_set d k v) k0
  = if String.eqb k k0 then Some v else dict_get d k0.
Proof.
  destruct (String.eqb k k0) eqn:E.
  - apply String.eqb_eq in E. subst. apply dict_get_set_eq.
  - apply String.eqb_neq in E. apply dict_get_set_ne. congruence.
Qed.

Lemma dict_get_In d k v : dict_get d k = Some v -> In (k, v) d.
Proof.
  induction d as [ | [k' v'] d IH]; cbn; [ discriminate | ].
  destruct (String.eqb k' k) eqn:E.
  - apply String.eqb_eq in E. intros H. left. congruence.
  - intros H. right. apply IH, H.
Qed.

Lemma dict_get_In_keys d k v : dict_get d k = Some v -> In k (dict_keys d).
Proof.
  intros H. apply dict_get_In in H.
  apply (in_map fst) in H. exact H.
Qed.

Lemma dict_get_not_In_keys d k : ~ In k (dict_keys d) -> dict_get d k = None.
Proof.
  destruct (dict_get d k) as [v | ] eqn:E; [ | reflexivity ].
  intros H. destruct H. apply (dict_get_In_keys _ _ _ E).
Qed.

Lemma dict_keys_set d k v k0 :
  In k0 (dict_keys (dict_set d k v)) <-> k0 = k \/ In k0 (dict_keys d).
Proof.
  induction d as [ | [k' v'] d IH]; cbn.
  - split; intros [H | H]; auto; contradiction.
  - destruct (String.eqb k' k) eqn:E; cbn.
    + apply String.eqb_eq in E. subst k'. intuition congruence.
    + rewrite IH. intuition congruence.
Qed.

Lemma dict_set_NoDup d k v :
  NoDup (dict_keys d) -> NoDup (dict_keys (dict_set d k v)).
Proof.
  induction d as [ | [k' v'] d IH]; cbn; intros Hd.
  - constructor; [ intros [] | constructor ].
  - inversion Hd as [ | ? ? Hnotin Hd']; subst.
    destruct (String.eqb k' k) eqn:E; cbn.
    + apply String.eqb_eq in E. subst k'. constructor; assumption.
    + constructor; [ | apply IH, Hd' ].
      change (map fst (dict_set d k v)) with (dict_keys (dict_set d k v)).
      rewrite dict_keys_set. intros [H | H]; [ | contradiction ].
      apply String.eqb_neq in E. congruence.
Qed.

Lemma dict_set_length d k v :
  List.length (dict_set d k v)
  = if dict_mem k d then List.length d else S (List.length d).
Proof.
  unfold dict_mem. induction d as [ | [k' v'] d IH]; cbn; [ reflexivity | ].
  destruct (String.eqb k' k) eqn:E; cbn; [ reflexivity | ].
  rewrite IH. destruct (dict_get d k); reflexivity.
Qed.

(** In a dictionary without repeated keys, a pair of the list is the pair
    that the lookup finds. *)
Lemma dict_In_get d k v :
  NoDup (dict_keys d) -> In (k, v) d -> dict_get d k = Some v.
Proof.
  induction d as [ | [k' v'] d IH]; cbn; intros Hd Hin; [ contradiction | ].
  inversion Hd as [ | ? ? Hnotin Hd']; subst.
  destruct Hin as [Heq | Hin].
  - inversion Heq; subst. rewrite String.eqb_refl. reflexivity.
  - destruct (String.eqb k' k) eqn:E; [ | apply IH; assumption ].
    apply String.eqb_eq in E. subst k'. destruct Hnotin.
    apply (in_map fst) in Hin. exact Hin.
Qed.

End DictFacts.

(** ** [parse_results] *)

Section ParseResultsFacts.

Lemma parse_results_store (data : list Entry) :
  GenerateReport.parse_results data = store_entries [] data.
Proof. reflexivity. Qed.

(** The two scripts parse alike. *)
Lemma parse_results_same (data : list Entry) :
  ParseResults.parse_results data = GenerateReport.parse_results data.
Proof. reflexivity. Qed.

Lemma store_entries_app (d : MetricSet) (l1 l2 : list Entry) :
  store_entries d (l1 ++ l2) = store_entries (store_entries d l1) l2.
Proof. apply fold_left_app. Qed.

Lemma store_entries_cons (d : MetricSet) (e : Entry) (l : list Entry) :
  store_entries d (e :: l)
  = store_entries (dict_set d (entry_name e) (entry_measurement e)) l.
Proof. reflexivity. Qed.

(** The entry of a name is the measurement of the last record of that
    name. *)
Lemma store_entries_get (d : MetricSet) (l : list Entry) (k : string) :
  dict_get (store_entries d l) k
  = match find (fun e => String.eqb (entry_name e) k) (rev l) with
    | Some e => Some (entry_measurement e)
    | None => dict_get d k
    end.
Proof.
  revert d. induction l as [ | e l IH]; intros d; [ reflexivity | ].
  rewrite store_entries_cons, IH. cbn [rev].
  set (f := fun e0 => String.eqb (entry_name e0) k).
  assert (Happ : forall l1 l2,
            find f (l1 ++ l2)
            = match find f l1 with Some x => Some x | None => find f l2 end).
  { induction l1 as [ | x l1 IH1]; intros l2; cbn; [ reflexivity | ].
    destruct (f x); [ reflexivity | apply IH1 ]. }
  rewrite Happ. destruct (find f (rev l)); [ reflexivity | ].
  cbn [find]. unfold f. rewrite dict_get_set.
  destruct (String.eqb (entry_name e) k); reflexivity.
Qed.

Lemma store_entries_get_other (d : MetricSet) (l : list Entry)
    (k : string) :
  (forall e, In e l -> entry_name e <> k) ->
  dict_get (store_entries d l) k = dict_get d k.
Proof.
  revert d. induction l as [ | e l IH]; intros d Hl; [ reflexivity | ].
  rewrite store_entries_cons, IH by (intros e' He'; apply Hl; right; exact He').
  apply dict_get_set_ne. intros Heq. apply (Hl e); [ left | ]; congruence.
Qed.

Lemma store_entries_NoDup (d : MetricSet) (l : list Entry) :
  NoDup (dict_keys d) -> NoDup (dict_keys (store_entries d l)).
Proof.
  revert d. induction l as [ | e l IH]; intros d Hd; [ exact Hd | ].
  rewrite store_entries_cons. apply IH, dict_set_NoDup, Hd.
Qed.

Lemma store_entries_length (d : MetricSet) (l : list Entry) :
  (List.length (store_entries d l) <= List.length d + List.length l)%nat.
Proof.
  revert d. induction l as [ | e l IH]; intros d; cbn [List.length].
  - cbn. lia.
  - rewrite store_entries_cons.
    specialize (IH (dict_set d (entry_name e) (entry_measurement e))).
    rewrite dict_set_length in IH.
    destruct (dict_mem (entry_name e) d); lia.
Qed.

Lemma store_entries_mem (d : MetricSet) (l : list Entry) (k : string) :
  dict_mem k d = true -> dict_mem k (store_entries d l) = true.
Proof.
  revert d. induction l as [ | e l IH]; intros d Hd; [ exact Hd | ].
  rewrite store_entries_cons. apply IH.
  unfold dict_mem in *. rewrite dict_get_set.
  destruct (String.eqb (entry_name e) k); [ reflexivity | exact Hd ].
Qed.

(** C9: when two records share the last dot-separated segment of their
    identifiers and no later record has it, both scripts' [parse_results]
    keep one entry under that name, with the score and error of the later
    record; the earlier measurement is gone, and the dictionary has fewer
    entries than the input has records. *)
Theorem parse_results_later_record_wins (data pre mid post : list Entry)
    (e1 e2 : Entry) :
  data = pre ++ e1 :: mid ++ e2 :: post ->
  entry_name e1 = entry_name e2 ->
  (forall e, In e post -> entry_name e <> entry_name e2) ->
  dict_get (GenerateReport.parse_results data) (entry_name e2)
  = Some (entry_measurement e2) /\
  (forall m, In (entry_name e2, m) (GenerateReport.parse_results data) ->
             m = entry_measurement e2) /\
  NoDup (dict_keys (GenerateReport.parse_results data)) /\
  (List.length (GenerateReport.parse_results data) < List.length data)%nat /\
  ParseResults.parse_results data = GenerateReport.parse_results data.
Proof.
  intros Hdata Hname Hpost.
  change (ParseResults.parse_results data) with (store_entries [] data).
  change (GenerateReport.parse_results data) with (store_entries [] data).
  subst data.
  assert (Hnd : NoDup (dict_keys (store_entries []
                  (pre ++ e1 :: mid ++ e2 :: post)))).
  { apply store_entries_NoDup. constructor. }
  assert (Hget : dict_get (store_entries []
                   (pre ++ e1 :: mid ++ e2 :: post)) (entry_name e2)
                 = Some (entry_measurement e2)).
  { rewrite store_entries_app, store_entries_cons, store_entries_app,
      store_entries_cons.
    rewrite (store_entries_get_other _ post _ Hpost).
    apply dict_get_set_eq. }
  split; [ exact Hget | ].
  split.
  { intros m Hin. apply (dict_In_get _ _ _ Hnd) in Hin. congruence. }
  split; [ exact Hnd | ].
  split; [ | reflexivity ].
  rewrite store_entries_app, store_entries_cons, store_entries_app,
    store_entries_cons.
  set (d0 := store_entries [] pre).
  set (d1 := dict_set d0 (entry_name e1) (entry_measurement e1)).
  set (d2 := store_entries d1 mid).
  assert (H0 : (List.length d0 <= List.length pre)%nat)
    by apply (store_entries_length [] pre).
  assert (H1 : (List.length d1 <= S (List.length d0))%nat).
  { unfold d1. rewrite dict_set_length.
    destruct (dict_mem (entry_name e1) d0); lia. }
  assert (H2 : (List.length d2 <= List.length d1 + List.length mid)%nat)
    by apply store_entries_length.
  assert (Hmem : dict_mem (entry_name e2) d2 = true).
  { apply store_entries_mem. unfold dict_mem, d1.
    rewrite <- Hname, dict_get_set_eq. reflexivity. }
  pose proof (store_entries_length
                (dict_set d2 (entry_name e2) (entry_measurement e2)) post)
    as H3.
  rewrite dict_set_length, Hmem in H3.
  rewrite !length_app. cbn [List.length]. rewrite length_app.
  cbn [List.length]. lia.
Qed.

Lemma parse_results_later_record_wins_witness :
  dict_get (GenerateReport.parse_results duplicate_entries) "parseSmall"
  = Some {| score := fifty; error := nan |} /\
  (forall m, In ("parseSmall"%string, m)
               (GenerateReport.parse_results duplicate_entries) ->
             m = {| score := fifty; error := nan |}) /\
  NoDup (dict_keys (GenerateReport.parse_results duplicate_entries)) /\
  (List.length (GenerateReport.parse_results duplicate_entries)
   < List.length duplicate_entries)%nat /\
  ParseResults.parse_results duplicate_entries
  = GenerateReport.parse_results duplicate_entries.
Proof.
  apply (parse_results_later_record_wins duplicate_entries [] [] []
           {| benchmark := "bench.v2.ParsingBenchmark.parseSmall";
              primaryMetric_score := hundred;
              primaryMetric_scoreError := five |}
           {| benchmark := "bench.v3.ParsingBenchmark.parseSmall";
              primaryMetric_score := fifty;
              primaryMetric_scoreError := nan |}).
  - reflexivity.
  - reflexivity.
  - intros e H. destruct H.
Defined.

End ParseResultsFacts.

(** ** parse-results.py: [main] *)

Section ParseResultsMain.
Import ParseResults.

Context {A : Type} (body : A -> result (list Line)).

Lemma for_each_raised (l : list A) (e : exn) :
  fold_left
    (fun acc x => out <- acc ;; lines <- body x ;; Ok (out ++ lines))
    l (Raise e)
  = Raise e.
Proof. induction l as [ | x l IH]; [ reflexivity | exact IH ]. Qed.

Lemma for_each_from (l : list A) (out : list Line) :
  fold_left
    (fun acc x => out <- acc ;; lines <- body x ;; Ok (out ++ lines))
    l (Ok out)
  = (rest <- for_each body l ;; Ok (out ++ rest)).
Proof.
  unfold for_each. revert out.
  induction l as [ | x l IH]; intros out; cbn [fold_left bind].
  - rewrite app_nil_r. reflexivity.
  - destruct (body x) as [lines | e]; cbn [bind].
    + rewrite (IH (out ++ lines)), (IH ([] ++ lines)).
      destruct (fold_left _ l (Ok [])) as [rest | e]; cbn [bind];
        [ | reflexivity ].
      rewrite app_nil_l, app_assoc. reflexivity.
    + rewrite !for_each_raised. reflexivity.
Qed.

Lemma for_each_cons (x : A) (l : list A) :
  for_each body (x :: l)
  = (lines <- body x ;; rest <- for_each body l ;; Ok (lines ++ rest)).
Proof.
  unfold for_each at 1. cbn [fold_left bind].
  destruct (body x) as [lines | e]; cbn [bind].
  - rewrite for_each_from. reflexivity.
  - apply for_each_raised.
Qed.

(** A loop raises what one of its steps raises. *)
Lemma for_each_raise (l : list A) (e : exn) :
  for_each body l = Raise e -> exists x, In x l /\ body x = Raise e.
Proof.
  induction l as [ | x l IH]; [ discriminate | ].
  rewrite for_each_cons.
  destruct (body x) as [lines | e'] eqn:Hx; cbn [bind].
  - destruct (for_each body l) as [rest | e'']; cbn [bind];
      [ discriminate | ].
    intros H. destruct (IH H) as (y & Hy & Hby).
    exists y. split; [ right; exact Hy | exact Hby ].
  - intros H. exists x. split; [ left; reflexivity | congruence ].
Qed.

(** When the steps can raise one exception only, a loop with a step that
    raises it raises it. *)
Lemma for_each_raises (l : list A) (e : exn) (x : A) :
  (forall y e', body y = Raise e' -> e' = e) ->
  In x l -> body x = Raise e -> for_each body l = Raise e.
Proof.
  intros Hall Hin Hx.
  destruct (for_each body l) as [lines | e'] eqn:Hl.
  - exfalso. revert lines Hl.
    induction l as [ | y l IH]; [ contradiction | ].
    intros lines. rewrite for_each_cons.
    destruct Hin as [-> | Hin].
    + rewrite Hx. discriminate.
    + destruct (body y); cbn [bind]; [ | discriminate ].
      destruct (for_each body l) as [rest | ]; cbn [bind]; [ | discriminate ].
      intros _. apply (IH Hin rest). reflexivity.
  - destruct (for_each_raise l e' Hl) as (y & _ & Hy).
    rewrite (Hall y e' Hy). reflexivity.
Qed.

End ParseResultsMain.

Section ZeroBaseline.
Import ParseResults.

(** The comparison of one benchmark raises exactly when the benchmark is in
    both results and its baseline score is zero, and then it is the
    division that raises. *)
Lemma main_bench_raise (v2 v3 : MetricSet) (bench : string) (e : exn) :
  main_bench v2 v3 bench = Raise e <->
  e = ZeroDivisionError /\
  exists m2 m3,
    dict_get v2 bench = Some m2 /\ dict_get v3 bench = Some m3 /\
    is_zero (score m2) = true.
Proof.
  unfold main_bench, dict_mem, dict_item.
  destruct (dict_get v2 bench) as [m2 | ];
    destruct (dict_get v3 bench) as [m3 | ]; cbn [andb bind];
    try (split; [ discriminate | intros (_ & ? & ? & H & _); discriminate H ]);
    try (split; [ discriminate
                | intros (_ & ? & ? & _ & H & _); discriminate H ]).
  unfold float_truediv. destruct (is_zero (score m2)) eqn:Hz; cbn [bind].
  - split.
    + intros H. split; [ congruence | ]. exists m2, m3. auto.
    + intros (-> & _). reflexivity.
  - rewrite float_of_int_100. cbn [bind]. split; [ discriminate | ].
    intros (_ & m2' & m3' & H2 & _ & Hz'). congruence.
Qed.

Lemma add_to_category_adds (categories : dict (list string))
    (key : string) :
  exists l,
    dict_get (add_to_category categories key) (category key) = Some l /\
    In key l.
Proof.
  unfold add_to_category, dict_mem.
  destruct (dict_get categories (category key)) as [l0 | ] eqn:Hc;
    cbn [negb].
  - rewrite Hc. exists (l0 ++ [key]). rewrite dict_get_set_eq.
    split; [ reflexivity | apply in_or_app; right; left; reflexivity ].
  - rewrite dict_get_set_eq. exists ([] ++ [key]). rewrite dict_get_set_eq.
    split; [ reflexivity | left; reflexivity ].
Qed.

Lemma add_to_category_keeps (categories : dict (list string))
    (key cat x : string) (l : list string) :
  dict_get categories cat = Some l -> In x l ->
  exists l',
    dict_get (add_to_category categories key) cat = Some l' /\ In x l'.
Proof.
  intros Hcat Hx. unfold add_to_category, dict_mem.
  destruct (dict_get categories (category key)) as [l0 | ] eqn:Hc;
    cbn [negb].
  - rewrite Hc, dict_get_set.
    destruct (String.eqb (category key) cat) eqn:E.
    + apply String.eqb_eq in E. subst cat.
      exists (l0 ++ [key]). split; [ reflexivity | ].
      apply in_or_app. left. congruence.
    + exists l. split; assumption.
  - rewrite dict_get_set_eq, !dict_get_set.
    destruct (String.eqb (category key) cat) eqn:E.
    + apply String.eqb_eq in E. subst cat. congruence.
    + exists l. split; assumption.
Qed.

(** Every key of the baseline is in the list of a category. *)
Lemma main_categories_covers (v2 : MetricSet) (key : string) :
  In key (dict_keys v2) ->
  exists cat l, In (cat, l) (main_categories v2) /\ In key l.
Proof.
  unfold main_categories.
  assert (Hkeep : forall keys categories cat l,
            dict_get categories cat = Some l -> In key l ->
            exists l',
              dict_get (fold_left add_to_category keys categories) cat
              = Some l' /\ In key l').
  { induction keys as [ | k keys IH]; intros categories cat l Hcat Hl.
    - exists l. split; assumption.
    - cbn [fold_left].
      destruct (add_to_category_keeps categories k cat key l Hcat Hl)
        as (l' & Hcat' & Hl').
      apply (IH _ _ _ Hcat' Hl'). }
  assert (Hadd : forall keys categories,
            In key keys ->
            exists cat l,
              dict_get (fold_left add_to_category keys categories) cat
              = Some l /\ In key l).
  { induction keys as [ | k keys IH]; intros categories Hin;
      [ contradiction | ].
    cbn [fold_left]. destruct Hin as [-> | Hin].
    - destruct (add_to_category_adds categories key) as (l & Hcat & Hl).
      destruct (Hkeep keys _ _ _ Hcat Hl) as (l' & Hcat' & Hl').
      exists (category key), l'. split; assumption.
    - apply IH, Hin. }
  intros Hin. destruct (Hadd (dict_keys v2) [] Hin) as (cat & l & Hcat & Hl).
  exists cat, l. split; [ apply dict_get_In, Hcat | exact Hl ].
Qed.

Lemma insert_sorted_In (x y : string) (l : list string) :
  In y (insert_sorted x l) <-> y = x \/ In y l.
Proof.
  induction l as [ | z l IH]; cbn.
  - intuition congruence.
  - destruct (String.leb x z); cbn; [ intuition congruence | ].
    rewrite IH. intuition congruence.
Qed.

Lemma builtin_sorted_In (x : string) (l : list string) :
  In x (builtin_sorted l) <-> In x l.
Proof.
  unfold builtin_sorted. induction l as [ | y l IH]; cbn; [ tauto | ].
  rewrite insert_sorted_In, IH. intuition congruence.
Qed.

(** The steps of the loop over the categories raise nothing but
    [ZeroDivisionError]. *)
Lemma main_category_raise (v2 v3 : MetricSet) (cb : string * list string)
    (e : exn) :
  (let '(cat, benchmarks) := cb in
   lines <- for_each (main_bench v2 v3) (builtin_sorted benchmarks) ;;
   Ok (Heading cat :: lines)) = Raise e ->
  e = ZeroDivisionError /\
  exists bench m2 m3,
    dict_get v2 bench = Some m2 /\ dict_get v3 bench = Some m3 /\
    is_zero (score m2) = true.
Proof.
  destruct cb as [cat benchmarks].
  destruct (for_each (main_bench v2 v3) (builtin_sorted benchmarks))
    as [lines | e'] eqn:Hl; cbn [bind]; [ discriminate | ].
  intros H. inversion H; subst e'.
  destruct (for_each_raise _ _ _ Hl) as (bench & _ & Hb).
  apply main_bench_raise in Hb. destruct Hb as (He & m2 & m3 & Hb).
  split; [ exact He | ]. exists bench, m2, m3. exact Hb.
Qed.

Lemma main_raise (v2 v3 : MetricSet) (e : exn) :
  main v2 v3 = Raise e ->
  e = ZeroDivisionError /\
  exists bench m2 m3,
    dict_get v2 bench = Some m2 /\ dict_get v3 bench = Some m3 /\
    is_zero (score m2) = true.
Proof.
  unfold main. intros H.
  destruct (for_each_raise _ _ _ H) as (cb & _ & Hcb).
  apply (main_category_raise v2 v3 cb e Hcb).
Qed.

Lemma main_raises (v2 v3 : MetricSet) (bench : string)
    (m2 m3 : Measurement) :
  dict_get v2 bench = Some m2 -> dict_get v3 bench = Some m3 ->
  is_zero (score m2) = true ->
  main v2 v3 = Raise ZeroDivisionError.
Proof.
  intros H2 H3 Hz.
  destruct (main_categories_covers v2 bench (dict_get_In_keys _ _ _ H2))
    as (cat & l & Hcat & Hl).
  unfold main.
  apply (for_each_raises _ _ ZeroDivisionError (cat, l)).
  - intros cb e' Hcb. apply (main_category_raise v2 v3 cb e' Hcb).
  - exact Hcat.
  - assert (Hin : for_each (main_bench v2 v3) (builtin_sorted l)
                  = Raise ZeroDivisionError).
    { apply (for_each_raises _ _ ZeroDivisionError bench).
      - intros y e' Hy. apply main_bench_raise in Hy. apply Hy.
      - apply builtin_sorted_In, Hl.
      - apply main_bench_raise. split; [ reflexivity | ].
        exists m2, m3. auto. }
    rewrite Hin. reflexivity.
Qed.

End ZeroBaseline.

(** ** generate-report.py: [main] never raises *)

Section ReportTotal.
Import GenerateReport.

Lemma fold_left_ok {X B : Type} (step : result B -> X -> result B)
    (l : list X) :
  (forall b x, exists b', step (Ok b) x = Ok b') ->
  forall b, exists b', fold_left step l (Ok b) = Ok b'.
Proof.
  intros Hstep. induction l as [ | x l IH]; intros b; cbn [fold_left].
  - exists b. reflexivity.
  - destruct (Hstep b x) as [b' Hb']. rewrite Hb'. apply IH.
Qed.

Lemma format_benchmark_row_ok (bench : string)
    (v2_results v3_results : MetricSet) (threshold : num) :
  exists row,
    format_benchmark_row bench v2_results v3_results threshold = Ok row.
Proof.
  unfold format_benchmark_row, dict_mem, dict_item.
  destruct (dict_get v2_results bench) as [m2 | ];
    destruct (dict_get v3_results bench) as [m3 | ]; cbn [andb bind];
    try (eexists; reflexivity).
  destruct (get_diff_total (score m2) (score m3)) as [d Hd].
  destruct (get_status_band d threshold) as (s & Hs & _).
  rewrite Hd. cbn [bind]. rewrite Hs. eexists. reflexivity.
Qed.

Lemma main_table_ok (benches : list string)
    (v2_results v3_results : MetricSet) :
  exists rows, main_table benches v2_results v3_results = Ok rows.
Proof.
  unfold main_table. apply fold_left_ok. intros rows bench. cbn [bind].
  destruct (format_benchmark_row_ok bench v2_results v3_results
              default_threshold) as [row Hrow].
  rewrite Hrow. eexists. reflexivity.
Qed.

Lemma main_diffs_ok (v2_results v3_results : MetricSet) :
  exists diffs, main_diffs v2_results v3_results = Ok diffs.
Proof.
  unfold main_diffs. apply fold_left_ok. intros diffs bench. cbn [bind].
  unfold dict_mem, dict_item.
  destruct (dict_get v2_results bench) as [m2 | ];
    destruct (dict_get v3_results bench) as [m3 | ]; cbn [andb bind];
    try (eexists; reflexivity).
  destruct (get_diff_total (score m2) (score m3)) as [d Hd].
  rewrite Hd. eexists. reflexivity.
Qed.

Lemma main_ok (v2_results v3_results : MetricSet) :
  exists report, main v2_results v3_results = Ok report.
Proof.
  unfold main.
  destruct (main_table_ok ["parseSmall"; "parseMedium"; "parseLarge"]%string
              v2_results v3_results) as [r1 H1].
  destruct (main_table_ok
              ["buildGraphSmall"; "buildGraphMedium"; "buildGraphLarge"]%string
              v2_results v3_results) as [r2 H2].
  destruct (main_table_ok
              ["classifySmall"; "classifyMedium"; "classifyLarge"]%string
              v2_results v3_results) as [r3 H3].
  destruct (main_table_ok
              ["analyzeSmall"; "analyzeMedium"; "analyzeLarge"]%string
              v2_results v3_results) as [r4 H4].
  destruct (main_diffs_ok v2_results v3_results) as [diffs Hd].
  destruct (main_budget_ok v3_results) as [budget Hb].
  rewrite H1, H2, H3, H4, Hd, Hb. cbn [bind]. eexists. reflexivity.
Qed.

(** C8: the plain-text comparison of [parse-results.py] raises
    [ZeroDivisionError], and nothing else, exactly when a benchmark of both
    results has a baseline score equal to zero; on such a benchmark
    [get_diff] of [generate-report.py] returns positive infinity, and the
    report is made without raising. *)
Theorem main_zero_baseline_divergence (v2 v3 : MetricSet) :
  (ParseResults.main v2 v3 = Raise ZeroDivisionError <->
   exists bench m2 m3,
     dict_get v2 bench = Some m2 /\ dict_get v3 bench = Some m3 /\
     num_eq (PyFloat (score m2)) (PyInt 0) = true) /\
  (forall e, ParseResults.main v2 v3 = Raise e -> e = ZeroDivisionError) /\
  (forall bench m2 m3,
     dict_get v2 bench = Some m2 -> dict_get v3 bench = Some m3 ->
     num_eq (PyFloat (score m2)) (PyInt 0) = true ->
     get_diff (score m2) (score m3) = Ok inf) /\
  (exists report, main v2 v3 = Ok report).
Proof.
  split; [ split | split; [ | split ] ].
  - intros H. destruct (main_raise v2 v3 _ H) as (_ & bench & m2 & m3 & Hb).
    exists bench, m2, m3. rewrite num_eq_zero. exact Hb.
  - intros (bench & m2 & m3 & H2 & H3 & Hz). rewrite num_eq_zero in Hz.
    apply (main_raises v2 v3 bench m2 m3 H2 H3 Hz).
  - intros e H. apply (main_raise v2 v3 e H).
  - intros bench m2 m3 _ _ Hz. apply get_diff_zero, Hz.
  - apply main_ok.
Qed.

Lemma main_zero_baseline_divergence_witness :
  ParseResults.main zero_baseline_v2 zero_baseline_v3
  = Raise ZeroDivisionError /\
  get_diff (S754_zero false) five = Ok inf.
Proof.
  split.
  - apply (proj2 (proj1
      (main_zero_baseline_divergence zero_baseline_v2 zero_baseline_v3))).
    exists "classifySmall"%string, (measured (S754_zero false)),
      (measured five).
    repeat split.
  - apply (proj1 (proj2 (proj2
      (main_zero_baseline_divergence zero_baseline_v2 zero_baseline_v3)))
      "classifySmall"%string (measured (S754_zero false)) (measured five));
      reflexivity.
Defined.

End ReportTotal.

(** ** Binary64 rounding: adding ten to a finite number *)

Section Binary64.

(** The number of binary digits of a positive number. *)
Lemma digits2_pos_bounds (p : positive) :
  2 ^ (Z.pos (digits2_pos p) - 1) <= Z.pos p < 2 ^ Z.pos (digits2_pos p).
Proof.
  induction p as [p IH | p IH | ]; cbn [digits2_pos].
  - rewrite Pos2Z.inj_succ, (Pos2Z.inj_xI p).
    replace (Z.succ (Z.pos (digits2_pos p)) - 1)
      with (Z.succ (Z.pos (digits2_pos p) - 1)) by lia.
    rewrite !Z.pow_succ_r by lia. lia.
  - rewrite Pos2Z.inj_succ, (Pos2Z.inj_xO p).
    replace (Z.succ (Z.pos (digits2_pos p)) - 1)
      with (Z.succ (Z.pos (digits2_pos p) - 1)) by lia.
    rewrite !Z.pow_succ_r by lia. lia.
  - cbn. lia.
Qed.

Lemma digits2_pos_le (p : positive) (k : Z) :
  Z.pos p < 2 ^ k -> Z.pos (digits2_pos p) <= k.
Proof.
  intros Hp. destruct (digits2_pos_bounds p) as [Hlo _].
  destruct (Z.le_gt_cases (Z.pos (digits2_pos p)) k) as [H | H];
    [ exact H | exfalso ].
  destruct (Z.le_gt_cases 0 k) as [Hk | Hk].
  - assert (2 ^ k <= 2 ^ (Z.pos (digits2_pos p) - 1))
      by (apply Z.pow_le_mono_r; lia).
    lia.
  - rewrite (Z.pow_neg_r 2 k) in Hp by lia. lia.
Qed.

Lemma Zdigits2_le (x k : Z) :
  0 <= x < 2 ^ k -> 0 <= k -> Zdigits2 x <= k.
Proof.
  intros [Hx0 Hx] Hk. destruct x as [ | p | p]; cbn [Zdigits2].
  - exact Hk.
  - apply digits2_pos_le, Hx.
  - lia.
Qed.

(** Shifting a mantissa to the left. *)
Lemma iter_xO_spec (p k : positive) :
  Z.pos (Pos.iter xO p k) = Z.pos p * 2 ^ Z.pos k /\
  Z.pos (digits2_pos (Pos.iter xO p k)) = Z.pos (digits2_pos p) + Z.pos k.
Proof.
  induction k as [ | k IH] using Pos.peano_ind.
  - cbn. split; lia.
  - rewrite Pos.iter_succ. cbn [digits2_pos].
    rewrite (Pos2Z.inj_xO (Pos.iter xO p k)), !Pos2Z.inj_succ,
      Z.pow_succ_r by lia.
    destruct IH as [IH1 IH2]. rewrite IH1, IH2. split; lia.
Qed.

Lemma shl_align_spec (p : positive) (ex ex' : Z) :
  exists mz,
    shl_align p ex ex' = (mz, Z.min ex ex') /\
    Z.pos mz = Z.pos p * 2 ^ (ex - Z.min ex ex') /\
    Z.pos (digits2_pos mz) = Z.pos (digits2_pos p) + (ex - Z.min ex ex').
Proof.
  unfold shl_align. destruct (ex' - ex) as [ | d | d] eqn:Hd.
  - exists p. replace (Z.min ex ex') with ex by lia.
    rewrite Z.sub_diag. cbn. repeat split; lia.
  - exists p. replace (Z.min ex ex') with ex by lia.
    rewrite Z.sub_diag. cbn. repeat split; lia.
  - exists (Pos.iter xO p d). replace (Z.min ex ex') with ex' by lia.
    replace (ex - ex') with (Z.pos d) by lia.
    destruct (iter_xO_spec p d) as [H1 H2]. repeat split; assumption.
Qed.

(** Shifting a mantissa to the right: the quotient and the round bit. *)
Lemma shr_1_spec (mrs : shr_record) :
  0 <= shr_m mrs ->
  shr_m (shr_1 mrs) = Z.div2 (shr_m mrs) /\
  shr_r (shr_1 mrs) = Z.odd (shr_m mrs).
Proof.
  destruct mrs as [m r s]. cbn [shr_m]. intros Hm.
  destruct m as [ | [p | p | ] | p]; cbn; try (split; reflexivity). lia.
Qed.

Lemma iter_pos_shr_1 (n : positive) (mrs : shr_record) :
  0 <= shr_m mrs ->
  shr_m (iter_pos shr_1 n mrs) = shr_m mrs / 2 ^ Z.pos n /\
  shr_r (iter_pos shr_1 n mrs) = Z.testbit (shr_m mrs) (Z.pos n - 1).
Proof.
  revert mrs. induction n as [n IH | n IH | ]; intros mrs Hm;
    cbn [iter_pos].
  - destruct (shr_1_spec mrs Hm) as [H0m H0r].
    assert (Hm0 : 0 <= shr_m (shr_1 mrs))
      by (rewrite H0m, Z.div2_div; apply Z.div_pos; lia).
    destruct (IH _ Hm0) as [H1m H1r].
    assert (Hm1 : 0 <= shr_m (iter_pos shr_1 n (shr_1 mrs)))
      by (rewrite H1m; apply Z.div_pos; [ lia | apply Z.pow_pos_nonneg; lia ]).
    destruct (IH _ Hm1) as [H2m H2r].
    rewrite H2m, H2r, H1m, H0m, Z.div2_div.
    assert (Hpow : 0 < 2 ^ Z.pos n) by (apply Z.pow_pos_nonneg; lia).
    split.
    + rewrite !Z.div_div by lia. f_equal.
      rewrite (Pos2Z.inj_xI n).
      replace (2 * Z.pos n + 1) with (1 + Z.pos n + Z.pos n) by lia.
      rewrite !Z.pow_add_r by lia. lia.
    + rewrite Z.div_pow2_bits by lia.
      change (shr_m mrs / 2) with (shr_m mrs / 2 ^ 1).
      rewrite Z.div_pow2_bits by lia. f_equal. lia.
  - destruct (IH _ Hm) as [H1m H1r].
    assert (Hm1 : 0 <= shr_m (iter_pos shr_1 n mrs))
      by (rewrite H1m; apply Z.div_pos; [ lia | apply Z.pow_pos_nonneg; lia ]).
    destruct (IH _ Hm1) as [H2m H2r].
    rewrite H2m, H2r, H1m.
    assert (Hpow : 0 < 2 ^ Z.pos n) by (apply Z.pow_pos_nonneg; lia).
    split.
    + rewrite Z.div_div by lia. f_equal.
      rewrite (Pos2Z.inj_xO n).
      replace (2 * Z.pos n) with (Z.pos n + Z.pos n) by lia.
      rewrite Z.pow_add_r by lia. reflexivity.
    + rewrite Z.div_pow2_bits by lia. f_equal. lia.
  - destruct (shr_1_spec mrs Hm) as [H0m H0r].
    rewrite H0m, H0r, Z.div2_div. split; [ reflexivity | ].
    symmetry. apply Z.bit0_odd.
Qed.


Lemma fexp_eq (e : Z) : fexp prec emax e = Z.max (e - 53) (-1074).
Proof. reflexivity. Qed.

Lemma shr_fexp_exact (m e : Z) :
  0 <= m ->
  let n := fexp prec emax (Zdigits2 m + e) - e in
  let mrs := fst (shr_fexp prec emax m e loc_Exact) in
  snd (shr_fexp prec emax m e loc_Exact)
  = Z.max e (fexp prec emax (Zdigits2 m + e)) /\
  shr_m mrs = m / 2 ^ Z.max n 0 /\
  (shr_r mrs = true -> 0 < n /\ Z.testbit m (n - 1) = true).
Proof.
  intros Hm n mrs. subst mrs. unfold shr_fexp, shr. fold n.
  cbn [shr_record_of_loc].
  destruct n as [ | k | k] eqn:Hn; cbn [fst snd shr_m shr_r].
  - split; [ lia | ]. split; [ | discriminate ].
    cbn. rewrite Z.div_1_r. reflexivity.
  - destruct (iter_pos_shr_1 k {| shr_m := m; shr_r := false;
                                  shr_s := false |} Hm) as [H1 H2].
    cbn [shr_m] in H1, H2. rewrite H1, H2.
    split; [ lia | ]. split.
    + replace (Z.max (Z.pos k) 0) with (Z.pos k) by lia. reflexivity.
    + intros H. split; [ lia | exact H ].
  - split; [ lia | ]. split; [ | discriminate ].
    cbn. rewrite Z.div_1_r. reflexivity.
Qed.

Lemma round_nearest_even_bounds (mrs : shr_record) :
  let m := round_nearest_even (shr_m mrs) (loc_of_shr_record mrs) in
  shr_m mrs <= m <= shr_m mrs + 1 /\
  (shr_r mrs = false -> m = shr_m mrs).
Proof.
  destruct mrs as [m r s]. cbn [shr_m shr_r].
  destruct r, s; cbn [loc_of_shr_record round_nearest_even];
    try destruct (Z.even m); split; try lia; try discriminate; reflexivity.
Qed.

(** Rounding a mantissa of at most 1023 binary digits before the point
    (or of 1024 with a zero round bit) stays finite. *)
Lemma binary_round_aux_finite (sx : bool) (mz : positive) (ez : Z) :
  let d := Z.pos (digits2_pos mz) + ez in
  ez <= fexp prec emax d ->
  d <= 1023 \/
  (d = 1024 /\ (ez = 971 \/ Z.testbit (Z.pos mz) (971 - ez - 1) = false)) ->
  forall s,
    binary_round_aux prec emax sx (Z.pos mz) ez loc_Exact <> S754_infinity s.
Proof.
  intros d Hez Hd s. unfold binary_round_aux.
  destruct (shr_fexp_exact (Z.pos mz) ez) as (He' & Hm' & Hr'); [ lia | ].
  cbn [Zdigits2] in He', Hm', Hr'. fold d in He', Hm', Hr'.
  destruct (shr_fexp prec emax (Z.pos mz) ez loc_Exact) as [mrs' e'].
  cbn [fst snd] in He', Hm', Hr'.
  rewrite fexp_eq in *.
  assert (He : e' = Z.max (d - 53) (-1074)) by lia.
  set (n := Z.max (d - 53) (-1074) - ez) in *.
  assert (Hn : 0 <= n) by (unfold n; lia).
  replace (Z.max n 0) with n in Hm' by lia.
  assert (Hpn : 0 < 2 ^ n) by (apply Z.pow_pos_nonneg; lia).
  assert (Hm'0 : 0 <= shr_m mrs')
    by (rewrite Hm'; apply Z.div_pos; lia).
  assert (Hm'53 : shr_m mrs' < 2 ^ 53).
  { rewrite Hm'. apply Z.div_lt_upper_bound; [ exact Hpn | ].
    rewrite <- Z.pow_add_r by lia.
    destruct (digits2_pos_bounds mz) as [_ Hhi].
    assert (2 ^ Z.pos (digits2_pos mz) <= 2 ^ (n + 53))
      by (apply Z.pow_le_mono_r; unfold n, d; lia).
    lia. }
  destruct (round_nearest_even_bounds mrs') as [Hround Hexact].
  set (m'' := round_nearest_even (shr_m mrs') (loc_of_shr_record mrs')) in *.
  destruct (shr_fexp_exact m'' e') as (He'' & _ & _); [ lia | ].
  destruct (shr_fexp prec emax m'' e' loc_Exact) as [mrs'' e''].
  cbn [fst snd] in He''. rewrite fexp_eq in He''.
  assert (Hle : e'' <= 971).
  { destruct Hd as [Hd | [Hd Hbit]].
    - assert (Zdigits2 m'' <= 54)
        by (apply Zdigits2_le; [ change (2 ^ 54) with (2 * 2 ^ 53) | ]; lia).
      lia.
    - assert (Hrf : shr_r mrs' = false).
      { destruct (shr_r mrs') eqn:Hr; [ exfalso | reflexivity ].
        destruct (Hr' eq_refl) as [Hn0 Hb].
        replace (n - 1) with (971 - ez - 1) in Hb by (unfold n; lia).
        destruct Hbit as [Hbit | Hbit]; [ unfold n in Hn0; lia | congruence ]. }
      rewrite (Hexact Hrf) in *.
      assert (Zdigits2 (shr_m mrs') <= 53) by (apply Zdigits2_le; lia).
      lia. }
  destruct (shr_m mrs''); try discriminate.
  apply Z.leb_le in Hle. change (emax - prec) with 971. rewrite Hle.
  discriminate.
Qed.

Lemma binary_round_aux_sign (sx : bool) (m e : Z) (l : location)
    (s : bool) :
  binary_round_aux prec emax sx m e l = S754_infinity s -> s = sx.
Proof.
  unfold binary_round_aux.
  destruct (shr_fexp prec emax m e l) as [mrs' e'].
  destruct (shr_fexp prec emax _ e' loc_Exact) as [mrs'' e''].
  destruct (shr_m mrs''); try discriminate.
  destruct (e'' <=? emax - prec); [ discriminate | ].
  intros H. inversion H. reflexivity.
Qed.


Lemma binary_round_finite (sx : bool) (p : positive) (ex : Z) :
  let d := Z.pos (digits2_pos p) + ex in
  d <= 1023 \/
  (d = 1024 /\ ex <= 971 /\
   (ex = 971 \/ Z.testbit (Z.pos p) (971 - ex - 1) = false)) ->
  forall s, binary_round prec emax sx p ex <> S754_infinity s.
Proof.
  intros d Hd. unfold binary_round. fold d.
  destruct (shl_align_spec p ex (fexp prec emax d)) as (mz & Hal & Hmz & Hdig).
  rewrite Hal. rewrite fexp_eq in *.
  assert (Hd' : Z.pos (digits2_pos mz) + Z.min ex (Z.max (d - 53) (-1074)) = d)
    by (unfold d; lia).
  apply binary_round_aux_finite; rewrite Hd'.
  - rewrite fexp_eq. lia.
  - destruct Hd as [Hd | (Hd & Hex & Hbit)]; [ left; exact Hd | right ].
    split; [ exact Hd | ].
    replace (Z.min ex (Z.max (d - 53) (-1074))) with ex in * by lia.
    rewrite Z.sub_diag, Z.pow_0_r, Z.mul_1_r in Hmz. rewrite Hmz.
    exact Hbit.
Qed.

(** Adding [10.0] to a finite binary64 number never gives [+inf]. *)
Lemma float_add_ten_not_inf (s : bool) (m : positive) (e : Z) :
  valid (S754_finite s m e) ->
  float_add (S754_finite s m e) ten <> inf.
Proof.
  unfold valid, float_add, inf. cbn [valid_binary]. intros Hb.
  unfold bounded, canonical_mantissa in Hb.
  apply andb_prop in Hb. destruct Hb as [Hcan He].
  apply Z.eqb_eq in Hcan. apply Z.leb_le in He.
  rewrite fexp_eq in Hcan. change (emax - prec) with 971 in He.
  assert (Hdig : Z.pos (digits2_pos m) <= 53) by lia.
  destruct (digits2_pos_bounds m) as [_ Hm].
  assert (Hm53 : Z.pos m < 2 ^ 53).
  { assert (2 ^ Z.pos (digits2_pos m) <= 2 ^ 53)
      by (apply Z.pow_le_mono_r; lia).
    lia. }
  unfold ten, SFadd. set (ez := Z.min e (-49)).
  destruct (shl_align_spec m e ez) as (m1 & H1 & Hm1 & _).
  destruct (shl_align_spec 5629499534213120 (-49) ez) as (m2 & H2 & Hm2 & _).
  rewrite H1, H2. cbn [fst].
  replace (Z.min e ez) with ez in * by (unfold ez; lia).
  replace (Z.min (-49) ez) with ez in * by (unfold ez; lia).
  set (a := e - ez) in *. set (b := -49 - ez) in *.
  assert (Ha : 0 <= a) by (unfold a, ez; lia).
  assert (Hb : 0 <= b) by (unfold b, ez; lia).
  assert (HA : 0 < 2 ^ a) by (apply Z.pow_pos_nonneg; lia).
  assert (HB : 0 < 2 ^ b) by (apply Z.pow_pos_nonneg; lia).
  unfold binary_normalize. cbn [cond_Zopp].
  destruct (cond_Zopp s (Z.pos m1) + Z.pos m2) as [ | p | p] eqn:Hsum.
  - discriminate.
  - apply binary_round_finite.
    destruct s; cbn [cond_Zopp] in Hsum.
    + (* a negative number plus ten: below 16 *)
      left.
      assert (Hp : Z.pos p < 2 ^ (53 + b)).
      { rewrite Z.pow_add_r by lia. change (2 ^ 53) with 9007199254740992.
        nia. }
      apply digits2_pos_le in Hp. unfold b in Hp. lia.
    + destruct (Z.le_gt_cases e (-49)) as [Hlow | Hhigh].
      * (* a small number plus ten: below 32 *)
        left.
        assert (Ha0 : a = 0) by (unfold a, ez; lia).
        assert (Hp : Z.pos p < 2 ^ (54 + b)).
        { rewrite Z.pow_add_r by lia. change (2 ^ 54) with 18014398509481984.
          replace (2 ^ a) with 1 in * by (rewrite Ha0; reflexivity).
          change (2 ^ 53) with 9007199254740992 in Hm53. nia. }
        apply digits2_pos_le in Hp. unfold b, ez in Hp. lia.
      * assert (Hb0 : b = 0) by (unfold b, ez; lia).
        assert (Ha49 : a = e + 49) by (unfold a, ez; lia).
        replace (2 ^ b) with 1 in * by (rewrite Hb0; reflexivity).
        replace ez with (-49) in * by (unfold ez; lia).
        destruct (Z.le_gt_cases e 3) as [He3 | He4].
        -- left.
           assert (Hp : Z.pos p < 2 ^ (54 + a)).
           { rewrite Z.pow_add_r by lia.
             change (2 ^ 54) with 18014398509481984.
             change (2 ^ 53) with 9007199254740992 in Hm53. nia. }
           apply digits2_pos_le in Hp. lia.
        -- assert (H53a : 2 ^ 53 <= 2 ^ a)
             by (apply Z.pow_le_mono_r; lia).
           assert (Hp : Z.pos p < 2 ^ (53 + a)).
           { rewrite Z.pow_add_r by lia.
             change (2 ^ 53) with 9007199254740992 in *. nia. }
           apply digits2_pos_le in Hp.
           destruct (Z.le_gt_cases e 970) as [He970 | He971];
             [ left; lia | ].
           assert (e = 971) by lia. subst e.
           destruct (Z.le_gt_cases (Z.pos (digits2_pos p) + -49) 1023)
             as [Hd | Hd]; [ left; exact Hd | right ].
           split; [ lia | ]. split; [ lia | ]. right.
           change (971 - -49 - 1) with 1019.
           apply Z.testbit_false; [ lia | ].
           rewrite <- Hsum, Hm1, Hm2, Ha49, Z.mul_1_r.
           change (971 + 49) with (1 + 1019).
           rewrite Z.pow_add_r, Z.mul_assoc by lia.
           assert (Hpos : 0 < 2 ^ 1019) by (apply Z.pow_pos_nonneg; lia).
           rewrite Z.div_add_l by lia.
           rewrite (Z.div_small 5629499534213120).
           ++ rewrite Z.add_0_r. change (2 ^ 1) with 2.
              apply Z.mod_mul. lia.
           ++ split; [ lia | ].
              assert (2 ^ 53 <= 2 ^ 1019) by (apply Z.pow_le_mono_r; lia).
              change (2 ^ 53) with 9007199254740992 in *. lia.
  - intros H. unfold binary_round in H.
    destruct (shl_align p ez _) as [mz ez'].
    apply binary_round_aux_sign in H. discriminate H.
Qed.

End Binary64.

(** ** A zero baseline is a regression *)

Section DegenerateBaseline.
Import GenerateReport.

Lemma num_le_inf_finite (t : num) :
  num_finite t -> num_le (PyFloat inf) t = false.
Proof.
  destruct t as [z | f]; [ reflexivity | ].
  intros [Hfin _]. destruct f; try discriminate Hfin; reflexivity.
Qed.

Lemma num_le_inf_plus_10 (t : num) :
  num_finite t -> num_le (PyFloat inf) (plus_10 t) = false.
Proof.
  destruct t as [z | f]; [ reflexivity | ].
  intros [Hfin Hvalid]. cbn [plus_10].
  destruct f as [s | s | | s m e]; try discriminate Hfin.
  - reflexivity.
  - pose proof (float_add_ten_not_inf s m e Hvalid) as Hinf.
    unfold num_le, num_compare.
    destruct (float_add (S754_finite s m e) ten) as [s' | s' | | s' m' e'];
      try reflexivity.
    destruct s'; [ reflexivity | ]. destruct Hinf. reflexivity.
Qed.

(** C7: for every finite threshold (an int, or a finite binary64 float)
    the delta of a zero baseline, positive infinity, is classified
    REGRESSION: it is above -5, above the threshold, and above the
    threshold plus ten, which is finite too. *)
Theorem get_status_zero_baseline (baseline candidate : float) (t : num) :
  num_eq (PyFloat baseline) (PyInt 0) = true ->
  num_finite t ->
  get_diff baseline candidate = Ok inf /\
  get_status inf t = Ok "REGRESSION"%string.
Proof.
  intros Hz Ht. split; [ apply get_diff_zero, Hz | ].
  rewrite get_status_cases, (num_le_inf_finite t Ht),
    (num_le_inf_plus_10 t Ht).
  reflexivity.
Qed.

Lemma get_status_zero_baseline_witness :
  get_diff (S754_zero true) five = Ok inf /\
  get_status inf (PyFloat twenty) = Ok "REGRESSION"%string.
Proof.
  apply (get_status_zero_baseline (S754_zero true) five (PyFloat twenty)).
  - reflexivity.
  - split; reflexivity.
Defined.

(** The threshold has to be finite: against an infinite threshold the
    infinite delta is within the OK band. *)
Lemma get_status_inf_threshold :
  get_status inf (PyFloat inf) = Ok "OK"%string.
Proof. reflexivity. Qed.

End DegenerateBaseline.

(** ** The examples of the specification *)

Section SpecExamples.
Import GenerateReport.

Lemma float_constants :
  float_of_int 90 = Ok ninety /\ float_of_int 15 = Ok fifteen /\
  float_of_int 25 = Ok twenty_five /\ float_of_int 20 = Ok twenty /\
  float_of_int 50 = Ok fifty /\ float_of_int 5 = Ok five /\
  float_of_int 105 = Ok hundred_five /\
  float_of_int 150 = Ok hundred_fifty /\
  float_of_int (-10) = Ok minus_ten.
Proof. vm_compute. repeat split. Qed.

(** A baseline of 100 and a candidate of 90: a delta of -10, IMPROVED; a
    benchmark of the candidate alone is NEW. *)
Lemma scenario_rows :
  format_benchmark_row "parseSmall" scenario_baseline scenario_candidate
    default_threshold
  = Ok {| row_bench := "parseSmall"; row_v2 := Some hundred;
          row_v3 := Some ninety; row_diff := Some minus_ten;
          row_status := "IMPROVED" |} /\
  format_benchmark_row "buildGraphSmall" scenario_baseline scenario_candidate
    default_threshold
  = Ok {| row_bench := "buildGraphSmall"; row_v2 := None;
          row_v3 := Some five; row_diff := None; row_status := "NEW" |}.
Proof. split; reflexivity. Qed.

(** The gate on deltas of 15 and 5, of 25 and 5, and on two absent
    deltas, against a threshold of 20. *)
Lemma gate_rows :
  gate_status
    (main_gate_row [("parseSmall", Some fifteen);
                    ("classifySmall", Some five)]%string "Small" (PyInt 20))
  = "PASS"%string /\
  gate_status
    (main_gate_row [("parseSmall", Some twenty_five);
                    ("classifySmall", Some five)]%string "Small" (PyInt 20))
  = "FAIL"%string /\
  gate_status
    (main_gate_row [("parseSmall", None);
                    ("classifySmall", None)]%string "Small" (PyInt 20))
  = "BASELINE"%string.
Proof. repeat split. Qed.

End SpecExamples.

(** * Further properties of the two scripts *)

(** ** The benchmark name: [entry['benchmark'].split('.')[-1]] *)

Section BenchmarkName.

Lemma str_split_not_nil (sep : ascii) (s : string) : str_split sep s <> [].
Proof.
  destruct s as [ | c s]; cbn; [ discriminate | ].
  destruct (Ascii.eqb c sep); [ discriminate | ].
  destruct (str_split sep s); discriminate.
Qed.

Lemma concat_cons_cons (sep x y : string) (l : list string) :
  String.concat sep (x :: y :: l)
  = (x ++ sep ++ String.concat sep (y :: l))%string.
Proof. reflexivity. Qed.

(** Joining the segments with the separator gives the string back. *)
Lemma str_split_join (sep : ascii) (s : string) :
  String.concat (String sep EmptyString) (str_split sep s) = s.
Proof.
  induction s as [ | c s IH]; [ reflexivity | ].
  cbn [str_split]. pose proof (str_split_not_nil sep s) as Hne.
  destruct (Ascii.eqb c sep) eqn:E.
  - apply Ascii.eqb_eq in E. subst c.
    destruct (str_split sep s) as [ | h t]; [ contradiction | ].
    rewrite concat_cons_cons, IH. reflexivity.
  - destruct (str_split sep s) as [ | h t]; [ contradiction | ].
    destruct t as [ | x xs].
    + cbn in *. rewrite IH. reflexivity.
    + rewrite concat_cons_cons. rewrite concat_cons_cons in IH.
      rewrite <- IH. reflexivity.
Qed.

Lemma str_split_free (sep : ascii) (s : string) :
  has_char sep s = false -> str_split sep s = [s].
Proof.
  induction s as [ | c s IH]; [ reflexivity | ].
  cbn. destruct (Ascii.eqb c sep); [ discriminate | ].
  cbn. intros H. rewrite (IH H). reflexivity.
Qed.

Lemma str_split_app (sep : ascii) (p s : string) :
  str_split sep (p ++ String sep s) = str_split sep p ++ str_split sep s.
Proof.
  induction p as [ | c p IH]; cbn.
  - rewrite Ascii.eqb_refl. reflexivity.
  - destruct (Ascii.eqb c sep); [ rewrite IH; reflexivity | ].
    rewrite IH. pose proof (str_split_not_nil sep p) as Hne.
    destruct (str_split sep p) as [ | h t]; [ contradiction | reflexivity ].
Qed.

Lemma str_split_segments_free (sep : ascii) (s : string) :
  Forall (fun x => has_char sep x = false) (str_split sep s).
Proof.
  induction s as [ | c s IH]; cbn.
  - constructor; [ reflexivity | constructor ].
  - destruct (Ascii.eqb c sep) eqn:E.
    + constructor; [ reflexivity | exact IH ].
    + destruct (str_split sep s) as [ | h t].
      * constructor; [ cbn; rewrite E; reflexivity | constructor ].
      * inversion IH; subst. constructor; [ | assumption ].
        cbn. rewrite E. assumption.
Qed.

Lemma last_app_not_nil {X : Type} (l1 l2 : list X) (d : X) :
  l2 <> [] -> last (l1 ++ l2) d = last l2 d.
Proof.
  intros Hne. induction l1 as [ | x l1 IH]; [ reflexivity | ].
  cbn [app last]. destruct (l1 ++ l2) eqn:E; [ | exact IH ].
  apply app_eq_nil in E. destruct E. contradiction.
Qed.

Lemma str_append_assoc (a b c : string) :
  ((a ++ b) ++ c)%string = (a ++ (b ++ c))%string.
Proof. induction a as [ | x a IH]; cbn; [ | rewrite IH ]; reflexivity. Qed.

Lemma concat_last (sep : string) (l : list string) (n : string) :
  String.concat sep (l ++ [n])
  = match l with
    | [] => n
    | _ :: _ => (String.concat sep l ++ sep ++ n)%string
    end.
Proof.
  induction l as [ | x l IH]; [ reflexivity | ].
  cbn [app String.concat]. destruct l as [ | y l]; [ reflexivity | ].
  cbn [app] in *. rewrite IH.
  rewrite !str_append_assoc. reflexivity.
Qed.

(** X1: the name under which [parse_results] stores a record is the part
    of the identifier after its last dot: it holds no dot, and the
    identifier is either the name itself or a prefix, a dot and the
    name. *)
Theorem entry_name_last_segment (e : Entry) (n : string) :
  entry_name e = n <->
  has_char "." n = false /\
  (benchmark e = n \/ exists p, benchmark e = (p ++ "." ++ n)%string).
Proof.
  unfold entry_name. split.
  - intros Hn.
    pose proof (str_split_segments_free "." (benchmark e)) as Hfree.
    pose proof (str_split_join "." (benchmark e)) as Hjoin.
    destruct (exists_last (str_split_not_nil "." (benchmark e)))
      as (l & x & Hl).
    rewrite Hl in *. rewrite last_last in Hn. subst x.
    split.
    + apply Forall_app in Hfree. destruct Hfree as [_ Hfree].
      inversion Hfree; assumption.
    + rewrite concat_last in Hjoin. destruct l as [ | y l].
      * left. symmetry. exact Hjoin.
      * right. eexists. symmetry. exact Hjoin.
  - intros [Hfree [Hb | [p Hb]]]; rewrite Hb.
    + rewrite (str_split_free _ _ Hfree). reflexivity.
    + change (p ++ "." ++ n)%string with (p ++ String "." n)%string.
      rewrite str_split_app, (str_split_free _ n Hfree).
      apply last_last.
Qed.

End BenchmarkName.

(** ** [parse_results]: keys, order and lookup *)

Section ParseResultsOrder.

Lemma existsb_dict_mem {V : Type} (d : dict V) (k : string) :
  existsb (String.eqb k) (dict_keys d) = dict_mem k d.
Proof.
  unfold dict_mem. induction d as [ | [k' v] d IH]; [ reflexivity | ].
  cbn. rewrite String.eqb_sym.
  destruct (String.eqb k' k); [ reflexivity | exact IH ].
Qed.

Lemma dict_set_new {V : Type} (d : dict V) (k : string) (v : V) :
  dict_mem k d = false -> dict_set d k v = d ++ [(k, v)].
Proof.
  unfold dict_mem. induction d as [ | [k' v'] d IH]; [ reflexivity | ].
  cbn. destruct (String.eqb k' k); [ discriminate | ].
  intros H. rewrite (IH H). reflexivity.
Qed.

Lemma dict_set_old_keys {V : Type} (d : dict V) (k : string) (v : V) :
  dict_mem k d = true -> dict_keys (dict_set d k v) = dict_keys d.
Proof.
  unfold dict_mem. induction d as [ | [k' v'] d IH]; [ discriminate | ].
  cbn. destruct (String.eqb k' k) eqn:E.
  - apply String.eqb_eq in E. subst k'. reflexivity.
  - intros H. cbn. f_equal. apply IH, H.
Qed.

Lemma store_entries_keys (d : MetricSet) (l : list Entry) :
  dict_keys (store_entries d l)
  = fold_left
      (fun acc k => if existsb (String.eqb k) acc then acc else acc ++ [k])
      (map entry_name l) (dict_keys d).
Proof.
  revert d. induction l as [ | e l IH]; intros d; [ reflexivity | ].
  rewrite store_entries_cons, IH. cbn [map fold_left]. f_equal.
  rewrite existsb_dict_mem.
  destruct (dict_mem (entry_name e) d) eqn:Hm.
  - apply dict_set_old_keys, Hm.
  - rewrite (dict_set_new _ _ _ Hm). unfold dict_keys.
    rewrite map_app. reflexivity.
Qed.

Lemma store_entries_distinct (d : MetricSet) (l : list Entry) :
  NoDup (dict_keys d ++ map entry_name l) ->
  store_entries d l
  = d ++ map (fun e => (entry_name e, entry_measurement e)) l.
Proof.
  revert d. induction l as [ | e l IH]; intros d Hnd.
  - cbn. rewrite app_nil_r. reflexivity.
  - rewrite store_entries_cons. cbn [map] in *.
    assert (Hm : dict_mem (entry_name e) d = false).
    { unfold dict_mem.
      rewrite dict_get_not_In_keys; [ reflexivity | ].
      intros Hin. apply NoDup_remove_2 in Hnd. apply Hnd.
      apply in_or_app. left. exact Hin. }
    rewrite (dict_set_new _ _ _ Hm), IH.
    + rewrite <- app_assoc. reflexivity.
    + unfold dict_keys. rewrite map_app, <- app_assoc. exact Hnd.
Qed.

(** X2: when the records have pairwise distinct names, [parse_results]
    loses nothing: the dictionary holds one entry per record, in the order
    of the input, each with the score and error of its record. *)
Theorem parse_results_distinct (data : list Entry) :
  NoDup (map entry_name data) ->
  GenerateReport.parse_results data
  = map (fun e => (entry_name e, entry_measurement e)) data /\
  ParseResults.parse_results data
  = map (fun e => (entry_name e, entry_measurement e)) data /\
  List.length (GenerateReport.parse_results data) = List.length data.
Proof.
  intros Hnd.
  change (ParseResults.parse_results data) with (store_entries [] data).
  change (GenerateReport.parse_results data) with (store_entries [] data).
  rewrite (store_entries_distinct [] data Hnd). cbn [app].
  repeat split. apply length_map.
Qed.

Lemma parse_results_distinct_witness :
  GenerateReport.parse_results distinct_entries
  = map (fun e => (entry_name e, entry_measurement e)) distinct_entries /\
  ParseResults.parse_results distinct_entries
  = map (fun e => (entry_name e, entry_measurement e)) distinct_entries /\
  List.length (GenerateReport.parse_results distinct_entries)
  = List.length distinct_entries.
Proof.
  apply (parse_results_distinct distinct_entries).
  vm_compute. repeat constructor; cbn; intuition discriminate.
Defined.

(** X3: for every input and every name, the lookup in the dictionary of
    [parse_results] gives the measurement of the last record of that name,
    and nothing when no record has it; the keys are the names of the
    records in the order of their first occurrence, each once. *)
Theorem parse_results_lookup (data : list Entry) (k : string) :
  dict_get (GenerateReport.parse_results data) k
  = option_map entry_measurement
      (find (fun e => String.eqb (entry_name e) k) (rev data)) /\
  (dict_mem k (GenerateReport.parse_results data) = true <->
   exists e, In e data /\ entry_name e = k) /\
  dict_keys (GenerateReport.parse_results data)
  = first_occurrences (map entry_name data) /\
  NoDup (dict_keys (GenerateReport.parse_results data)).
Proof.
  change (GenerateReport.parse_results data) with (store_entries [] data).
  assert (Hget : dict_get (store_entries [] data) k
                 = option_map entry_measurement
                     (find (fun e => String.eqb (entry_name e) k)
                        (rev data))).
  { rewrite store_entries_get.
    destruct (find _ (rev data)); reflexivity. }
  split; [ exact Hget | ]. split; [ | split ].
  - unfold dict_mem. rewrite Hget.
    destruct (find _ (rev data)) as [e | ] eqn:Hf; cbn.
    + apply find_some in Hf. destruct Hf as [Hin Heq].
      apply String.eqb_eq in Heq. apply in_rev in Hin.
      split; [ intros _; exists e; auto | reflexivity ].
    + split; [ discriminate | ].
      intros (e & Hin & Heq). apply in_rev in Hin.
      apply (find_none _ _ Hf) in Hin. cbn in Hin.
      apply String.eqb_neq in Hin. contradiction.
  - apply (store_entries_keys [] data).
  - apply store_entries_NoDup. constructor.
Qed.

End ParseResultsOrder.

(** ** generate-report.py: what [main] computes from the two results *)

Section ReportContents.
Import GenerateReport.

Lemma get_diff_value (b c : float) : get_diff b c = Ok (delta_value b c).
Proof.
  unfold delta_value. destruct (is_zero b) eqn:Hz.
  - apply get_diff_zero. rewrite num_eq_zero. exact Hz.
  - apply get_diff_nonzero. rewrite num_eq_zero. exact Hz.
Qed.

Lemma main_diffs_step (v2_results v3_results : MetricSet)
    (diffs : dict (option float)) (bench : string) :
  (if dict_mem bench v2_results && dict_mem bench v3_results then
     m2 <- dict_item v2_results bench ;;
     m3 <- dict_item v3_results bench ;;
     d <- get_diff (score m2) (score m3) ;;
     Ok (dict_set diffs bench (Some d))
   else Ok (dict_set diffs bench None))
  = Ok (dict_set diffs bench (expected_diff v2_results v3_results bench)).
Proof.
  unfold dict_mem, dict_item, expected_diff.
  destruct (dict_get v2_results bench) as [m2 | ];
    destruct (dict_get v3_results bench) as [m3 | ]; cbn [andb bind];
    try reflexivity.
  rewrite get_diff_value. reflexivity.
Qed.

Lemma main_diffs_value (v2_results v3_results : MetricSet) :
  main_diffs v2_results v3_results
  = Ok (map (fun bench => (bench, expected_diff v2_results v3_results bench))
          compared_benchmarks).
Proof.
  unfold main_diffs, compared_benchmarks. cbn [fold_left bind].
  repeat (rewrite main_diffs_step; cbn [bind]).
  reflexivity.
Qed.

(** X4: the dictionary [diffs] of [main] always has the nine compared
    benchmarks as its keys, in their fixed order; the entry of a benchmark
    is [None] exactly when the benchmark is missing from one of the two
    results, and the delta of its two scores otherwise. *)
Theorem main_diffs_entries (v2_results v3_results : MetricSet) :
  exists diffs,
    main_diffs v2_results v3_results = Ok diffs /\
    dict_keys diffs = compared_benchmarks /\
    forall bench,
      In bench compared_benchmarks ->
      dict_get diffs bench
      = Some (expected_diff v2_results v3_results bench) /\
      (delta_of diffs bench = None <->
       resolve bench v2_results v3_results <> BOTH) /\
      (forall m2 m3,
         dict_get v2_results bench = Some m2 ->
         dict_get v3_results bench = Some m3 ->
         exists d,
           delta_of diffs bench = Some d /\
           get_diff (score m2) (score m3) = Ok d).
Proof.
  eexists. split; [ apply main_diffs_value | ]. split; [ reflexivity | ].
  intros bench Hin.
  assert (Hget : dict_get
                   (map (fun b => (b, expected_diff v2_results v3_results b))
                      compared_benchmarks) bench
                 = Some (expected_diff v2_results v3_results bench)).
  { cbn in Hin.
    repeat (destruct Hin as [<- | Hin]; [ reflexivity | ]).
    contradiction. }
  split; [ exact Hget | ]. unfold delta_of. rewrite Hget.
  unfold expected_diff, resolve, dict_mem.
  destruct (dict_get v2_results bench) as [m2 | ];
    destruct (dict_get v3_results bench) as [m3 | ]; split;
    try (split; [ intros H; discriminate H | intros H; contradiction ]);
    try (split; [ intros _; discriminate | reflexivity ]);
    try (intros ? ? H2 H3; discriminate).
  intros ? ? H2 H3. inversion H2; inversion H3; subst.
  eexists. split; [ reflexivity | apply get_diff_value ].
Qed.

End ReportContents.

Section ReportRows.
Import GenerateReport.

Lemma expected_diff_none (v2_results v3_results : MetricSet)
    (bench : string) :
  expected_diff v2_results v3_results bench = None <->
  resolve bench v2_results v3_results <> BOTH.
Proof.
  unfold expected_diff, resolve, dict_mem.
  destruct (dict_get v2_results bench);
    destruct (dict_get v3_results bench); split; intros H;
    try discriminate H; try reflexivity; try contradiction;
    intros H'; discriminate H'.
Qed.

Lemma main_gate_row_from_results (v2_results v3_results : MetricSet)
    (size : string) (threshold : num) :
  In size ["Small"; "Medium"; "Large"]%string ->
  let row :=
    main_gate_row
      (map (fun bench => (bench, expected_diff v2_results v3_results bench))
         compared_benchmarks) size threshold in
  (gate_status row = "BASELINE"%string <->
   resolve ("parse" ++ size) v2_results v3_results <> BOTH) /\
  gate_result row
  = match expected_diff v2_results v3_results ("parse" ++ size) with
    | Some p =>
        Some (p, classify_operand
                   (expected_diff v2_results v3_results ("classify" ++ size)))
    | None => None
    end.
Proof.
  intros Hin row. subst row.
  set (diffs := map _ compared_benchmarks).
  assert (Hp : delta_of diffs ("parse" ++ size)
               = expected_diff v2_results v3_results ("parse" ++ size)).
  { cbn in Hin. repeat (destruct Hin as [<- | Hin]; [ reflexivity | ]).
    contradiction. }
  assert (Hc : delta_of diffs ("classify" ++ size)
               = expected_diff v2_results v3_results ("classify" ++ size)).
  { cbn in Hin. repeat (destruct Hin as [<- | Hin]; [ reflexivity | ]).
    contradiction. }
  rewrite <- expected_diff_none, <- Hp, <- Hc.
  destruct (delta_of diffs ("parse" ++ size)) as [p | ] eqn:Hd.
  - rewrite (main_gate_row_present _ _ _ _ Hd). cbn.
    split; [ | reflexivity ].
    destruct (num_le _ _); split; intros H; discriminate H.
  - rewrite (main_gate_row_absent _ _ _ Hd). cbn.
    split; [ | reflexivity ]. split; reflexivity.
Qed.

Lemma main_gate_row_size (diffs : dict (option float)) (size : string)
    (threshold : num) :
  (gate_size (main_gate_row diffs size threshold),
   gate_threshold (main_gate_row diffs size threshold))
  = (size, threshold).
Proof.
  unfold main_gate_row.
  destruct (dict_get diffs ("parse" ++ size)) as [[p | ] | ]; reflexivity.
Qed.

(** X5: in the report of [main], the regression table has a row for Small,
    Medium and Large with the thresholds 20, 25 and 30; the verdict of a
    row is BASELINE exactly when the parse benchmark of that size is
    missing from one of the two results files, and otherwise the row
    holds the parse delta with the classify delta, the latter replaced by
    0 when the classify benchmark is missing from a file. *)
Theorem main_gate_from_results (v2_results v3_results : MetricSet) :
  exists report,
    main v2_results v3_results = Ok report /\
    map (fun row => (gate_size row, gate_threshold row)) (report_gate report)
    = gate_thresholds /\
    forall row,
      In row (report_gate report) ->
      (gate_status row = "BASELINE"%string <->
       resolve ("parse" ++ gate_size row) v2_results v3_results <> BOTH) /\
      gate_result row
      = match expected_diff v2_results v3_results
                ("parse" ++ gate_size row) with
        | Some p =>
            Some (p, classify_operand
                       (expected_diff v2_results v3_results
                          ("classify" ++ gate_size row)))
        | None => None
        end.
Proof.
  unfold main.
  destruct (main_table_ok ["parseSmall"; "parseMedium"; "parseLarge"]%string
              v2_results v3_results) as [r1 H1].
  destruct (main_table_ok
              ["buildGraphSmall"; "buildGraphMedium"; "buildGraphLarge"]%string
              v2_results v3_results) as [r2 H2].
  destruct (main_table_ok
              ["classifySmall"; "classifyMedium"; "classifyLarge"]%string
              v2_results v3_results) as [r3 H3].
  destruct (main_table_ok
              ["analyzeSmall"; "analyzeMedium"; "analyzeLarge"]%string
              v2_results v3_results) as [r4 H4].
  destruct (main_budget_ok v3_results) as [budget Hb].
  rewrite H1, H2, H3, H4, main_diffs_value, Hb. cbn [bind].
  eexists. split; [ reflexivity | ]. cbn [report_gate].
  split.
  { unfold main_gate, gate_thresholds. cbn [map].
    rewrite !main_gate_row_size. reflexivity. }
  intros row Hrow. unfold main_gate, gate_thresholds in Hrow.
  cbn [map In] in Hrow.
  destruct Hrow as [<- | [<- | [<- | []]]];
    match goal with
    | |- context [gate_size (main_gate_row ?d ?sz ?th)] =>
        replace (gate_size (main_gate_row d sz th)) with sz
          by (symmetry;
              apply (f_equal fst (main_gate_row_size d sz th)))
    end;
    apply main_gate_row_from_results; cbn; tauto.
Qed.

(** X6: the paragraph of the performance summary for a phase shows the
    small and the medium delta exactly when both benchmarks are in both
    results files, and [Unable to compare] as soon as one of the four
    measurements is missing. *)
Theorem main_summary_from_results (v2_results v3_results : MetricSet)
    (small_key medium_key : string) :
  In (small_key, medium_key)
    [("parseSmall", "parseMedium"); ("buildGraphSmall", "buildGraphMedium");
     ("classifySmall", "classifyMedium")]%string ->
  exists diffs,
    main_diffs v2_results v3_results = Ok diffs /\
    main_summary diffs small_key medium_key
    = match expected_diff v2_results v3_results small_key,
            expected_diff v2_results v3_results medium_key with
      | Some small, Some medium => Some (small, medium)
      | _, _ => None
      end /\
    (main_summary diffs small_key medium_key = None <->
     resolve small_key v2_results v3_results <> BOTH \/
     resolve medium_key v2_results v3_results <> BOTH).
Proof.
  intros Hin. eexists. split; [ apply main_diffs_value | ].
  assert (Hs : main_summary
                 (map (fun b => (b, expected_diff v2_results v3_results b))
                    compared_benchmarks) small_key medium_key
               = match expected_diff v2_results v3_results small_key,
                       expected_diff v2_results v3_results medium_key with
                 | Some small, Some medium => Some (small, medium)
                 | _, _ => None
                 end).
  { cbn [In] in Hin.
    destruct Hin as [H | [H | [H | []]]]; inversion H; subst; reflexivity. }
  split; [ exact Hs | ]. rewrite Hs, <- !expected_diff_none.
  destruct (expected_diff v2_results v3_results small_key);
    destruct (expected_diff v2_results v3_results medium_key);
    split; intros H; try discriminate H; try reflexivity;
    try (left; reflexivity); try (right; reflexivity).
  destruct H as [H | H]; discriminate H.
Qed.

Lemma main_summary_from_results_witness :
  exists diffs,
    main_diffs scenario_baseline scenario_candidate = Ok diffs /\
    main_summary diffs "parseSmall" "parseMedium"
    = match expected_diff scenario_baseline scenario_candidate "parseSmall",
            expected_diff scenario_baseline scenario_candidate
              "parseMedium" with
      | Some small, Some medium => Some (small, medium)
      | _, _ => None
      end /\
    (main_summary diffs "parseSmall" "parseMedium" = None <->
     resolve "parseSmall" scenario_baseline scenario_candidate <> BOTH \/
     resolve "parseMedium" scenario_baseline scenario_candidate <> BOTH).
Proof.
  apply (main_summary_from_results scenario_baseline scenario_candidate
           "parseSmall" "parseMedium").
  cbn. left. reflexivity.
Defined.

Lemma format_benchmark_row_shape (bench : string)
    (v2_results v3_results : MetricSet) (threshold : num) :
  exists row,
    format_benchmark_row bench v2_results v3_results threshold = Ok row /\
    row_bench row = bench /\
    row_case row = resolve bench v2_results v3_results.
Proof.
  unfold format_benchmark_row, resolve, dict_mem, dict_item.
  destruct (dict_get v2_results bench) as [m2 | ];
    destruct (dict_get v3_results bench) as [m3 | ]; cbn [andb bind];
    try (eexists; repeat split; reflexivity).
  rewrite get_diff_value. cbn [bind]. rewrite get_status_cases.
  eexists. repeat split; reflexivity.
Qed.

(** X7: a table of [main] has one row for each benchmark asked for, in the
    order asked, whether the benchmark was measured or not: the row that
    [format_benchmark_row] makes with the default threshold, in the case
    that the presence of the benchmark in the two results selects. *)
Theorem main_table_rows (benches : list string)
    (v2_results v3_results : MetricSet) :
  exists rows,
    main_table benches v2_results v3_results = Ok rows /\
    Forall2
      (fun bench row =>
         format_benchmark_row bench v2_results v3_results default_threshold
         = Ok row)
      benches rows /\
    map row_bench rows = benches /\
    map row_case rows
    = map (fun bench => resolve bench v2_results v3_results) benches.
Proof.
  unfold main_table.
  assert (H : forall acc,
            exists rows,
              fold_left
                (fun report bench =>
                   rows <- report ;;
                   row <- format_benchmark_row bench v2_results v3_results
                            default_threshold ;;
                   Ok (rows ++ [row]))
                benches (Ok acc)
              = Ok (acc ++ rows) /\
              Forall2
                (fun bench row =>
                   format_benchmark_row bench v2_results v3_results
                     default_threshold = Ok row)
                benches rows /\
              map row_bench rows = benches /\
              map row_case rows
              = map (fun bench => resolve bench v2_results v3_results)
                  benches).
  { induction benches as [ | bench benches IH]; intros acc.
    - exists []. rewrite app_nil_r. repeat split. constructor.
    - cbn [fold_left bind].
      destruct (format_benchmark_row_shape bench v2_results v3_results
                  default_threshold) as (row & Hrow & Hb & Hc).
      rewrite Hrow. cbn [bind].
      destruct (IH (acc ++ [row])) as (rows & Hf & Hall & Hbs & Hcs).
      exists (row :: rows). rewrite Hf, <- app_assoc. cbn [app map].
      rewrite Hb, Hc, Hbs, Hcs. repeat split.
      constructor; assumption. }
  destruct (H []) as (rows & Hf & Hrest). exists rows.
  split; [ exact Hf | exact Hrest ].
Qed.

End ReportRows.

(** ** generate-report.py: the rows of the time budget *)

Section BudgetRows.
Import GenerateReport.

(** A float above zero is a positive number or [+inf]. *)
Lemma num_gt_zero_cases (total : float) :
  num_gt (PyFloat total) (PyInt 0) = true ->
  total = inf \/ exists m e, total = S754_finite false m e.
Proof.
  unfold num_gt, num_compare.
  destruct total as [s | s | | s m e]; try discriminate.
  - destruct s; [ discriminate | left; reflexivity ].
  - rewrite float_compare_int_0. destruct s; [ discriminate | ].
    right. eauto.
Qed.

Lemma percentage_cell (v3_results : MetricSet) (key : string)
    (total : float) :
  num_gt (PyFloat total) (PyInt 0) = true ->
  (score_or_zero v3_results key, percentage (score_or_zero v3_results key) total)
  = (fst (phase_cell v3_results key total),
     Ok (snd (phase_cell v3_results key total))).
Proof.
  intros Hpos. unfold percentage, phase_cell, score_or_zero. rewrite Hpos.
  unfold float_truediv. rewrite (num_gt_zero_not_zero _ Hpos).
  destruct (dict_get v3_results key) as [m | ]; cbn [to_float bind fst snd].
  - rewrite float_of_int_100. reflexivity.
  - rewrite float_of_int_0. cbn [bind]. rewrite float_of_int_100.
    cbn [bind]. do 3 f_equal.
    destruct (num_gt_zero_cases total Hpos) as [-> | (m & e & ->)];
      reflexivity.
Qed.

Lemma main_budget_row_value (v3_results : MetricSet) (size : string)
    (types : Z) :
  main_budget_row v3_results size types
  = Ok (match dict_get v3_results ("analyze" ++ size) with
        | Some m =>
            if num_gt (PyFloat (score m)) (PyInt 0) then
              Some {| budget_size := size; budget_types := types;
                      budget_parse :=
                        phase_cell v3_results ("parse" ++ size) (score m);
                      budget_graph :=
                        phase_cell v3_results ("buildGraph" ++ size)
                          (score m);
                      budget_classify :=
                        phase_cell v3_results ("classify" ++ size) (score m);
                      budget_total := score m |}
            else None
        | None => None
        end).
Proof.
  unfold main_budget_row, dict_mem, dict_item.
  destruct (dict_get v3_results ("analyze" ++ size)) as [m | ];
    [ | reflexivity ].
  cbn [bind]. destruct (num_gt (PyFloat (score m)) (PyInt 0)) eqn:Hpos;
    [ | reflexivity ].
  pose proof (percentage_cell v3_results ("parse" ++ size) _ Hpos) as H1.
  pose proof (percentage_cell v3_results ("buildGraph" ++ size) _ Hpos) as H2.
  pose proof (percentage_cell v3_results ("classify" ++ size) _ Hpos) as H3.
  pose proof (f_equal snd H1) as H1b. pose proof (f_equal fst H1) as H1a.
  pose proof (f_equal snd H2) as H2b. pose proof (f_equal fst H2) as H2a.
  pose proof (f_equal snd H3) as H3b. pose proof (f_equal fst H3) as H3a.
  cbn [fst snd] in H1a, H1b, H2a, H2b, H3a, H3b.
  rewrite H1b, H2b, H3b. cbn [bind].
  rewrite H1a, H2a, H3a, <- !surjective_pairing. reflexivity.
Qed.

(** X8: a row of the time budget, when the candidate has an end-to-end
    score above zero for the corpus, shows for each of the three phases
    its score and [score / total * 100]; a phase that was not measured
    shows the int 0 and a share of exactly [+0.0], whatever the total. *)
Theorem main_budget_row_cells (v3_results : MetricSet) (size : string)
    (types : Z) (m : Measurement) :
  dict_get v3_results ("analyze" ++ size) = Some m ->
  num_gt (PyFloat (score m)) (PyInt 0) = true ->
  exists row,
    main_budget_row v3_results size types = Ok (Some row) /\
    budget_size row = size /\ budget_types row = types /\
    budget_total row = score m /\
    forall phase cell,
      In (phase, cell)
        [("parse", budget_parse row); ("buildGraph", budget_graph row);
         ("classify", budget_classify row)]%string ->
      match dict_get v3_results (phase ++ size) with
      | Some mp =>
          cell = (PyFloat (score mp),
                  PyFloat (float_mul (SFdiv prec emax (score mp) (score m))
                             hundred))
      | None => cell = (PyInt 0, PyFloat (S754_zero false))
      end.
Proof.
  intros Hm Hpos. rewrite main_budget_row_value, Hm, Hpos.
  eexists. split; [ reflexivity | ]. cbn [budget_size budget_types
    budget_total budget_parse budget_graph budget_classify].
  repeat split.
  intros phase cell Hin. cbn [In] in Hin.
  destruct Hin as [H | [H | [H | []]]];
    apply pair_equal_spec in H; destruct H as [<- <-];
    unfold phase_cell;
    match goal with
    | |- context [dict_get ?d ?k] => destruct (dict_get d k)
    end; reflexivity.
Qed.

Lemma main_budget_row_cells_witness :
  exists row,
    main_budget_row medium_only_results "Medium" 196 = Ok (Some row) /\
    budget_size row = "Medium"%string /\ budget_types row = 196 /\
    budget_total row = score (measured hundred) /\
    forall phase cell,
      In (phase, cell)
        [("parse", budget_parse row); ("buildGraph", budget_graph row);
         ("classify", budget_classify row)]%string ->
      match dict_get medium_only_results (phase ++ "Medium") with
      | Some mp =>
          cell = (PyFloat (score mp),
                  PyFloat (float_mul
                             (SFdiv prec emax (score mp)
                                (score (measured hundred)))
                             hundred))
      | None => cell = (PyInt 0, PyFloat (S754_zero false))
      end.
Proof.
  apply (main_budget_row_cells medium_only_results "Medium" 196
           (measured hundred)); reflexivity.
Defined.

(** X9: the time budget table has a row for exactly the corpus sizes, among
    Small, Medium and Large and in that order, for which the candidate has
    an end-to-end score above zero; the other sizes are left out, and
    nothing is raised. *)
Theorem main_budget_rows (v3_results : MetricSet) :
  exists rows,
    main_budget v3_results = Ok rows /\
    map budget_size rows
    = filter (has_total v3_results) ["Small"; "Medium"; "Large"]%string /\
    forall row,
      In row rows ->
      main_budget_row v3_results (budget_size row) (budget_types row)
      = Ok (Some row) /\
      In (budget_size row, budget_types row) corpus_sizes.
Proof.
  unfold main_budget, corpus_sizes. cbn [fold_left bind filter].
  rewrite !main_budget_row_value. unfold has_total.
  destruct (dict_get v3_results ("analyze" ++ "Small")) as [m1 | ] eqn:E1;
    [ destruct (num_gt (PyFloat (score m1)) (PyInt 0)) eqn:P1 | ];
    (destruct (dict_get v3_results ("analyze" ++ "Medium")) as [m2 | ] eqn:E2;
     [ destruct (num_gt (PyFloat (score m2)) (PyInt 0)) eqn:P2 | ]);
    (destruct (dict_get v3_results ("analyze" ++ "Large")) as [m3 | ] eqn:E3;
     [ destruct (num_gt (PyFloat (score m3)) (PyInt 0)) eqn:P3 | ]);
    cbn [bind app]; eexists; (split; [ reflexivity | ]);
    (split; [ reflexivity | ]);
    intros row Hrow; cbn [In] in Hrow;
    repeat (destruct Hrow as [<- | Hrow];
            [ cbn [budget_size budget_types];
              rewrite main_budget_row_value;
              repeat match goal with
                     | H : dict_get _ _ = _ |- _ => rewrite H
                     | H : num_gt _ _ = _ |- _ => rewrite H
                     end;
              split; [ reflexivity | cbn; tauto ] | ]);
    contradiction.
Qed.

End BudgetRows.

(** ** parse-results.py: the lines of the comparison *)

Section ComparisonLines.
Import ParseResults.

(** X10: when [parse-results.py] prints a line for a benchmark, the line
    shows what [format_benchmark_row] of [generate-report.py] shows with a
    threshold of 10: the same two scores, the same delta and the same
    status; a benchmark that is not in both results gets no line. *)
Theorem main_bench_matches_report (v2 v3 : MetricSet) (bench : string)
    (lines : list Line) :
  main_bench v2 v3 bench = Ok lines ->
  match resolve bench v2 v3 with
  | BOTH =>
      exists row v2_score v3_score diff,
        GenerateReport.format_benchmark_row bench v2 v3 (PyInt 10) = Ok row /\
        GenerateReport.row_v2 row = Some v2_score /\
        GenerateReport.row_v3 row = Some v3_score /\
        GenerateReport.row_diff row = Some diff /\
        lines = [Comparison bench v2_score v3_score diff
                   (GenerateReport.row_status row)]
  | _ => lines = []
  end.
Proof.
  unfold main_bench, GenerateReport.format_benchmark_row, resolve, dict_mem,
    dict_item.
  destruct (dict_get v2 bench) as [m2 | ];
    destruct (dict_get v3 bench) as [m3 | ]; cbn [andb bind];
    try (intros H; inversion H; reflexivity).
  rewrite get_diff_value. unfold delta_value, float_truediv.
  destruct (is_zero (score m2)); cbn [bind]; [ discriminate | ].
  rewrite float_of_int_100. cbn [bind]. rewrite get_status_cases.
  intros H. inversion H; subst lines. clear H.
  eexists. exists (score m2), (score m3). eexists.
  split; [ reflexivity | ]. cbn. repeat split.
Qed.

Lemma main_bench_matches_report_witness :
  match resolve "parseSmall" scenario_baseline scenario_candidate with
  | BOTH =>
      exists row v2_score v3_score diff,
        GenerateReport.format_benchmark_row "parseSmall" scenario_baseline
          scenario_candidate (PyInt 10) = Ok row /\
        GenerateReport.row_v2 row = Some v2_score /\
        GenerateReport.row_v3 row = Some v3_score /\
        GenerateReport.row_diff row = Some diff /\
        [Comparison "parseSmall" hundred ninety minus_ten "IMPROVED"]
        = [Comparison "parseSmall" v2_score v3_score diff
             (GenerateReport.row_status row)]
  | _ => [Comparison "parseSmall" hundred ninety minus_ten "IMPROVED"] = []
  end.
Proof.
  apply (main_bench_matches_report scenario_baseline scenario_candidate
           "parseSmall"
           [Comparison "parseSmall" hundred ninety minus_ten "IMPROVED"]).
  reflexivity.
Defined.

Lemma add_to_category_keys (categories : dict (list string))
    (key : string) :
  dict_keys (add_to_category categories key)
  = if existsb (String.eqb (category key)) (dict_keys categories)
    then dict_keys categories
    else dict_keys categories ++ [category key].
Proof.
  rewrite existsb_dict_mem. unfold add_to_category.
  destruct (dict_mem (category key) categories) eqn:Hm; cbn [negb].
  - unfold dict_mem in Hm.
    destruct (dict_get categories (category key)) as [l | ] eqn:Hg;
      [ | discriminate ].
    apply dict_set_old_keys. unfold dict_mem. rewrite Hg. reflexivity.
  - rewrite dict_get_set_eq, dict_set_old_keys
      by (unfold dict_mem; rewrite dict_get_set_eq; reflexivity).
    rewrite (dict_set_new _ _ _ Hm). unfold dict_keys.
    rewrite map_app. reflexivity.
Qed.

Lemma add_to_category_get (categories : dict (list string))
    (key cat : string) :
  dict_get (add_to_category categories key) cat
  = if String.eqb (category key) cat then
      Some (match dict_get categories cat with
            | Some l => l
            | None => []
            end ++ [key])
    else dict_get categories cat.
Proof.
  unfold add_to_category, dict_mem.
  destruct (dict_get categories (category key)) as [l | ] eqn:Hg;
    cbn [negb].
  - rewrite Hg, dict_get_set.
    destruct (String.eqb (category key) cat) eqn:E; [ | reflexivity ].
    apply String.eqb_eq in E. subst cat. rewrite Hg. reflexivity.
  - rewrite dict_get_set_eq, !dict_get_set.
    destruct (String.eqb (category key) cat) eqn:E; [ | reflexivity ].
    apply String.eqb_eq in E. subst cat. rewrite Hg. reflexivity.
Qed.

Lemma fold_add_to_category_keys (keys : list string)
    (categories : dict (list string)) :
  dict_keys (fold_left add_to_category keys categories)
  = fold_left
      (fun acc k => if existsb (String.eqb k) acc then acc else acc ++ [k])
      (map category keys) (dict_keys categories).
Proof.
  revert categories. induction keys as [ | key keys IH]; intros categories;
    [ reflexivity | ].
  cbn [fold_left map]. rewrite IH, add_to_category_keys. reflexivity.
Qed.

Lemma fold_add_to_category_get (keys : list string)
    (categories : dict (list string)) (cat : string) :
  dict_get (fold_left add_to_category keys categories) cat
  = match dict_get categories cat,
          filter (fun key => String.eqb (category key) cat) keys with
    | Some l, more => Some (l ++ more)
    | None, [] => None
    | None, more => Some more
    end.
Proof.
  revert categories. induction keys as [ | key keys IH]; intros categories.
  - cbn. destruct (dict_get categories cat); [ | reflexivity ].
    rewrite app_nil_r. reflexivity.
  - cbn [fold_left filter]. rewrite IH, add_to_category_get.
    destruct (String.eqb (category key) cat).
    + destruct (dict_get categories cat) as [l | ].
      * rewrite <- app_assoc. reflexivity.
      * reflexivity.
    + reflexivity.
Qed.

(** X11: the dictionary [categories] lists, for each category, the keys of
    the baseline that fall in it, in the order of the baseline; a category
    without a key is absent, and the categories come in the order in which
    their first keys arrive. *)
Theorem main_categories_lists (v2 : MetricSet) (cat : string) :
  dict_get (main_categories v2) cat
  = match filter (fun key => String.eqb (category key) cat) (dict_keys v2) with
    | [] => None
    | l => Some l
    end /\
  dict_keys (main_categories v2)
  = first_occurrences (map category (dict_keys v2)) /\
  NoDup (dict_keys (main_categories v2)).
Proof.
  unfold main_categories. split; [ | split ].
  - rewrite fold_add_to_category_get. reflexivity.
  - apply fold_add_to_category_keys.
  - assert (H : forall keys categories,
              NoDup (dict_keys categories) ->
              NoDup (dict_keys (fold_left add_to_category keys categories))).
    { induction keys as [ | key keys IH]; intros categories Hnd;
        [ exact Hnd | ].
      cbn [fold_left]. apply IH. rewrite add_to_category_keys.
      destruct (existsb _ _) eqn:E; [ exact Hnd | ].
      apply NoDup_app; [ exact Hnd | constructor; [ intros [] | constructor ] | ].
      intros x Hx [<- | []].
      assert (existsb (String.eqb (category key)) (dict_keys categories)
              = true).
      { apply existsb_exists. exists (category key).
        split; [ exact Hx | apply String.eqb_refl ]. }
      congruence. }
    apply H. constructor.
Qed.

End ComparisonLines.

Section LoopOutput.
Import ParseResults.

Context {A : Type} (body : A -> result (list Line)).

(** The output of a loop that ends is made of the lines of its steps. *)
Lemma for_each_ok_in (l : list A) (lines : list Line) :
  for_each body l = Ok lines ->
  (forall y, In y l -> exists ls, body y = Ok ls) /\
  forall x,
    In x lines <-> exists y ls, In y l /\ body y = Ok ls /\ In x ls.
Proof.
  revert lines. induction l as [ | a l IH]; intros lines.
  - intros H. inversion H; subst. split; [ intros y [] | ].
    intros x. split; [ intros [] | intros (y & ls & [] & _) ].
  - rewrite for_each_cons.
    destruct (body a) as [la | e] eqn:Ha; cbn [bind]; [ | discriminate ].
    destruct (for_each body l) as [rest | e]; cbn [bind]; [ | discriminate ].
    intros H. inversion H; subst lines. clear H.
    destruct (IH rest eq_refl) as [IHall IHin]. split.
    + intros y [<- | Hy]; [ eexists; exact Ha | apply IHall, Hy ].
    + intros x. rewrite in_app_iff, IHin. split.
      * intros [Hx | (y & ls & Hy & Hb & Hx)].
        -- exists a, la. split; [ left; reflexivity | auto ].
        -- exists y, ls. split; [ right; exact Hy | auto ].
      * intros (y & ls & [<- | Hy] & Hb & Hx).
        -- left. congruence.
        -- right. exists y, ls. auto.
Qed.

End LoopOutput.

Section ComparisonOutput.
Import ParseResults.

Lemma main_bench_ok (v2 v3 : MetricSet) (bench : string)
    (lines : list Line) (x : Line) :
  main_bench v2 v3 bench = Ok lines -> In x lines ->
  resolve bench v2 v3 = BOTH /\
  exists v2_score v3_score diff status,
    x = Comparison bench v2_score v3_score diff status.
Proof.
  unfold main_bench, resolve, dict_mem, dict_item.
  destruct (dict_get v2 bench) as [m2 | ];
    destruct (dict_get v3 bench) as [m3 | ]; cbn [andb bind];
    try (intros H; inversion H; subst; intros []).
  destruct (float_truediv _ _); cbn [bind]; [ | discriminate ].
  rewrite float_of_int_100. cbn [bind].
  intros H. inversion H; subst. intros [<- | []].
  split; [ reflexivity | ]. do 4 eexists. reflexivity.
Qed.

Lemma main_bench_both (v2 v3 : MetricSet) (bench : string)
    (lines : list Line) :
  main_bench v2 v3 bench = Ok lines -> resolve bench v2 v3 = BOTH ->
  exists v2_score v3_score diff status,
    lines = [Comparison bench v2_score v3_score diff status].
Proof.
  unfold main_bench, resolve, dict_mem, dict_item.
  destruct (dict_get v2 bench) as [m2 | ];
    destruct (dict_get v3 bench) as [m3 | ]; cbn [andb bind];
    try (intros _ H; discriminate H).
  destruct (float_truediv _ _); cbn [bind]; [ | discriminate ].
  rewrite float_of_int_100. cbn [bind].
  intros H _. inversion H; subst. do 4 eexists. reflexivity.
Qed.

Lemma first_occurrences_In (x : string) (l : list string) :
  In x (first_occurrences l) <-> In x l.
Proof.
  unfold first_occurrences.
  assert (H : forall acc,
            In x (fold_left
                    (fun acc k =>
                       if existsb (String.eqb k) acc then acc
                       else acc ++ [k]) l acc)
            <-> In x acc \/ In x l).
  { induction l as [ | k l IH]; intros acc; cbn [fold_left].
    - cbn. tauto.
    - rewrite IH. destruct (existsb (String.eqb k) acc) eqn:E.
      + apply existsb_exists in E. destruct E as (k' & Hk' & E).
        apply String.eqb_eq in E. subst k'. cbn [In].
        intuition congruence.
      + rewrite in_app_iff. cbn [In]. tauto. }
  rewrite H. cbn. tauto.
Qed.

(** X12: when the comparison of [parse-results.py] ends without raising,
    it has printed one line for every benchmark that is in both results
    and for no other: a benchmark of the baseline alone or of the
    candidate alone is passed over in silence; and it has printed the
    heading of every category that has a key in the baseline. *)
Theorem main_lines (v2 v3 : MetricSet) (lines : list Line) :
  main v2 v3 = Ok lines ->
  (forall bench,
     (exists v2_score v3_score diff status,
        In (Comparison bench v2_score v3_score diff status) lines) <->
     resolve bench v2 v3 = BOTH) /\
  (forall cat,
     In (Heading cat) lines <->
     exists key, In key (dict_keys v2) /\ category key = cat).
Proof.
  unfold main. intros Hmain.
  destruct (for_each_ok_in _ _ _ Hmain) as [Hall Hin]. split.
  - intros bench. split.
    + intros (s2 & s3 & d & st & Hx).
      apply Hin in Hx. destruct Hx as ([cat l] & ls & _ & Hbody & Hx).
      destruct (for_each (main_bench v2 v3) (builtin_sorted l))
        as [inner | e] eqn:Hinner; cbn [bind] in Hbody; [ | discriminate ].
      inversion Hbody; subst ls. destruct Hx as [Hx | Hx]; [ discriminate | ].
      destruct (for_each_ok_in _ _ _ Hinner) as [_ Hin'].
      apply Hin' in Hx. destruct Hx as (b & lb & _ & Hb & Hx).
      destruct (main_bench_ok _ _ _ _ _ Hb Hx)
        as (Hboth & s2' & s3' & d' & st' & Heq).
      inversion Heq; subst. exact Hboth.
    + intros Hboth.
      assert (Hkey : In bench (dict_keys v2)).
      { unfold resolve, dict_mem in Hboth.
        destruct (dict_get v2 bench) eqn:Hg.
        - apply (dict_get_In_keys _ _ _ Hg).
        - destruct (dict_get v3 bench); discriminate. }
      destruct (main_categories_covers v2 bench Hkey) as (cat & l & Hcat & Hl).
      destruct (Hall (cat, l) Hcat) as [ls Hbody].
      destruct (for_each (main_bench v2 v3) (builtin_sorted l))
        as [inner | e] eqn:Hinner; cbn [bind] in Hbody; [ | discriminate ].
      inversion Hbody; subst ls.
      destruct (for_each_ok_in _ _ _ Hinner) as [Hall' Hin'].
      assert (Hs : In bench (builtin_sorted l))
        by (apply builtin_sorted_In, Hl).
      destruct (Hall' bench Hs) as [lb Hb].
      destruct (main_bench_both _ _ _ _ Hb Hboth)
        as (s2 & s3 & d & st & ->).
      exists s2, s3, d, st. apply Hin.
      exists (cat, l). eexists. split; [ exact Hcat | ].
      cbn beta iota. rewrite Hinner. cbn [bind].
      split; [ reflexivity | ]. right. apply Hin'.
      exists bench. eexists. split; [ exact Hs | ].
      split; [ exact Hb | left; reflexivity ].
  - intros cat.
    assert (Hkeys : In cat (dict_keys (main_categories v2)) <->
                    exists key, In key (dict_keys v2) /\ category key = cat).
    { destruct (main_categories_lists v2 cat) as (_ & -> & _).
      rewrite first_occurrences_In, in_map_iff.
      split; intros (key & H1 & H2); exists key; auto. }
    rewrite <- Hkeys. split.
    + intros Hx. apply Hin in Hx.
      destruct Hx as ([cat' l] & ls & Hc & Hbody & Hx).
      destruct (for_each (main_bench v2 v3) (builtin_sorted l))
        as [inner | e] eqn:Hinner; cbn [bind] in Hbody; [ | discriminate ].
      inversion Hbody; subst ls. destruct Hx as [Hx | Hx].
      * inversion Hx; subst cat'.
        apply (in_map fst) in Hc. exact Hc.
      * destruct (for_each_ok_in _ _ _ Hinner) as [_ Hin'].
        apply Hin' in Hx. destruct Hx as (b & lb & _ & Hb & Hx).
        destruct (main_bench_ok _ _ _ _ _ Hb Hx)
          as (_ & s2' & s3' & d' & st' & Heq).
        discriminate Heq.
    + intros Hc. unfold dict_keys in Hc. apply in_map_iff in Hc.
      destruct Hc as ([cat' l] & Heq & Hc). cbn in Heq. subst cat'.
      destruct (Hall (cat, l) Hc) as [ls Hbody].
      apply Hin. exists (cat, l), ls. split; [ exact Hc | ].
      split; [ exact Hbody | ].
      destruct (for_each (main_bench v2 v3) (builtin_sorted l));
        cbn [bind] in Hbody; [ | discriminate ].
      inversion Hbody. left. reflexivity.
Qed.

End ComparisonOutput.

Lemma main_lines_witness :
  (forall bench,
     (exists v2_score v3_score diff status,
        In (ParseResults.Comparison bench v2_score v3_score diff status)
          [ParseResults.Heading "Parsing";
           ParseResults.Comparison "parseSmall" hundred ninety minus_ten
             "IMPROVED"]) <->
     resolve bench scenario_baseline scenario_candidate = BOTH) /\
  (forall cat,
     In (ParseResults.Heading cat)
       [ParseResults.Heading "Parsing";
        ParseResults.Comparison "parseSmall" hundred ninety minus_ten
          "IMPROVED"] <->
     exists key,
       In key (dict_keys scenario_baseline) /\
       ParseResults.category key = cat).
Proof.
  apply (main_lines scenario_baseline scenario_candidate
           [ParseResults.Heading "Parsing";
            ParseResults.Comparison "parseSmall" hundred ninety minus_ten
              "IMPROVED"]).
  reflexivity.
Defined.

(** ** NaN scores *)

Section NanScores.
Import GenerateReport.

Lemma delta_value_nan (b c : float) :
  is_nan b = true \/ (is_nan c = true /\ is_zero b = false) ->
  delta_value b c = nan.
Proof.
  unfold delta_value.
  intros [Hb | [Hc Hz]].
  - destruct b; try discriminate Hb. destruct c; reflexivity.
  - rewrite Hz. destruct c; try discriminate Hc. destruct b; reflexivity.
Qed.

(** X13: when a benchmark is in both results and its baseline score is
    NaN, or its candidate score is NaN and the baseline is not zero,
    [format_benchmark_row] and the loop body of [parse-results.py] return
    for it without raising, and both show a NaN delta and the status
    REGRESSION, whatever the threshold. *)
Theorem nan_score_is_regression (v2 v3 : MetricSet) (bench : string)
    (m2 m3 : Measurement) (threshold : num) :
  dict_get v2 bench = Some m2 -> dict_get v3 bench = Some m3 ->
  is_nan (score m2) = true \/
  (is_nan (score m3) = true /\ is_zero (score m2) = false) ->
  format_benchmark_row bench v2 v3 threshold
  = Ok {| row_bench := bench; row_v2 := Some (score m2);
          row_v3 := Some (score m3); row_diff := Some nan;
          row_status := "REGRESSION" |} /\
  ParseResults.main_bench v2 v3 bench
  = Ok [ParseResults.Comparison bench (score m2) (score m3) nan
          "REGRESSION"].
Proof.
  intros H2 H3 Hnan. pose proof (delta_value_nan _ _ Hnan) as Hd.
  assert (Hz : is_zero (score m2) = false).
  { destruct Hnan as [Hb | [_ Hz]]; [ | exact Hz ].
    destruct (score m2); try discriminate Hb. reflexivity. }
  unfold delta_value in Hd. rewrite Hz in Hd. split.
  - unfold format_benchmark_row, dict_mem, dict_item.
    rewrite H2, H3. cbn [andb bind].
    rewrite get_diff_value. unfold delta_value. rewrite Hz, Hd.
    cbn [bind]. rewrite get_status_cases, !num_le_nan. reflexivity.
  - unfold ParseResults.main_bench, dict_mem, dict_item.
    rewrite H2, H3. cbn [andb bind]. unfold float_truediv. rewrite Hz.
    cbn [bind]. rewrite float_of_int_100. cbn [bind]. rewrite Hd.
    reflexivity.
Qed.

Lemma nan_score_is_regression_witness :
  format_benchmark_row "parseSmall" nan_results_v2 nan_results_v3
    default_threshold
  = Ok {| row_bench := "parseSmall"; row_v2 := Some (score (measured nan));
          row_v3 := Some (score (measured ninety)); row_diff := Some nan;
          row_status := "REGRESSION" |} /\
  ParseResults.main_bench nan_results_v2 nan_results_v3 "parseSmall"
  = Ok [ParseResults.Comparison "parseSmall" (score (measured nan))
          (score (measured ninety)) nan "REGRESSION"].
Proof.
  apply (nan_score_is_regression nan_results_v2 nan_results_v3 "parseSmall"
           (measured nan) (measured ninety) default_threshold).
  - reflexivity.
  - reflexivity.
  - left. reflexivity.
Defined.

End NanScores.

(** ** The order of the numbers *)

Section NumberOrder.

Lemma compare_scale (a b k : Z) : 0 < k -> (a * k ?= b * k) = (a ?= b).
Proof. intros Hk. symmetry. apply Zmult_compare_compat_r. lia. Qed.

Lemma valid_finite_bounds (s : bool) (m : positive) (e : Z) :
  valid (S754_finite s m e) ->
  -1074 <= e <= 971 /\ Z.pos m < 2 ^ 53 /\
  (-1074 < e -> 2 ^ 52 <= Z.pos m).
Proof.
  unfold valid. cbn [valid_binary]. unfold bounded, canonical_mantissa.
  intros Hb. apply andb_prop in Hb. destruct Hb as [Hcan He].
  apply Z.eqb_eq in Hcan. apply Z.leb_le in He.
  rewrite fexp_eq in Hcan. change (emax - prec) with 971 in He.
  destruct (digits2_pos_bounds m) as [Hlo Hhi].
  split; [ lia | ]. split.
  - assert (2 ^ Z.pos (digits2_pos m) <= 2 ^ 53)
      by (apply Z.pow_le_mono_r; lia).
    lia.
  - intros Hn. replace (Z.pos (digits2_pos m)) with 53 in Hlo by lia.
    exact Hlo.
Qed.

(** Of two finite binary64 numbers above zero, the one with the smaller
    exponent is the smaller. *)
Lemma valid_exponent_lt (s1 s2 : bool) (m1 m2 : positive) (e1 e2 : Z) :
  valid (S754_finite s1 m1 e1) -> valid (S754_finite s2 m2 e2) ->
  e1 < e2 ->
  Z.pos m1 * 2 ^ (e1 + 1074) < Z.pos m2 * 2 ^ (e2 + 1074).
Proof.
  intros H1 H2 Hlt.
  destruct (valid_finite_bounds _ _ _ H1) as (He1 & Hm1 & _).
  destruct (valid_finite_bounds _ _ _ H2) as (He2 & _ & Hm2).
  specialize (Hm2 ltac:(lia)).
  replace (e2 + 1074) with ((e2 - e1) + (e1 + 1074)) by lia.
  rewrite (Z.pow_add_r 2 (e2 - e1) (e1 + 1074)) by lia.
  assert (Hk : 0 < 2 ^ (e1 + 1074)) by (apply Z.pow_pos_nonneg; lia).
  assert (Hd : 2 ^ 1 <= 2 ^ (e2 - e1)) by (apply Z.pow_le_mono_r; lia).
  change (2 ^ 1) with 2 in Hd.
  change (2 ^ 53) with 9007199254740992 in *.
  change (2 ^ 52) with 4503599627370496 in *.
  apply Z.lt_le_trans with (9007199254740992 * 2 ^ (e1 + 1074)).
  - apply Z.mul_lt_mono_pos_r; assumption.
  - rewrite Z.mul_assoc. apply Z.mul_le_mono_nonneg_r; [ lia | ].
    apply Z.le_trans with (Z.pos m2 * 2); [ lia | ].
    apply Z.mul_le_mono_nonneg_l; lia.
Qed.

Lemma float_compare_int_position (f : float) (z : Z) :
  valid f ->
  float_compare_int f z
  = option_map (fun a => position_compare a (Fin (z * 2 ^ 1074)))
      (float_position f).
Proof.
  intros Hv.
  destruct f as [s | s | | s m e];
    cbn [float_compare_int float_position option_map position_compare].
  - f_equal. symmetry. apply (compare_scale 0 z). apply Z.pow_pos_nonneg; lia.
  - destruct s; reflexivity.
  - reflexivity.
  - destruct (valid_finite_bounds _ _ _ Hv) as (He & _ & _). f_equal.
    destruct (Z.le_gt_cases 0 e) as [Hpos | Hneg].
    + replace (Z.max e 0) with e by lia. replace (Z.max (- e) 0) with 0 by lia.
      rewrite Z.pow_0_r, Z.mul_1_r, Z.pow_add_r, Z.mul_assoc by lia.
      symmetry. apply compare_scale. apply Z.pow_pos_nonneg; lia.
    + replace (Z.max e 0) with 0 by lia.
      replace (Z.max (- e) 0) with (- e) by lia.
      rewrite Z.pow_0_r, Z.mul_1_r.
      replace 1074 with (- e + (e + 1074)) at 2 by lia.
      rewrite (Z.pow_add_r 2 (- e) (e + 1074)), Z.mul_assoc by lia.
      symmetry. apply compare_scale. apply Z.pow_pos_nonneg; lia.
Qed.

Lemma position_compare_antisym (a b : position) :
  position_compare b a = CompOpp (position_compare a b).
Proof.
  destruct a, b; try reflexivity. cbn [position_compare CompOpp].
  apply Z.compare_antisym.
Qed.

Lemma SFcompare_position (f g : float) :
  valid f -> valid g ->
  SFcompare f g
  = match float_position f, float_position g with
    | Some a, Some b => Some (position_compare a b)
    | _, _ => None
    end.
Proof.
  intros Hf Hg.
  destruct f as [s1 | s1 | | s1 m1 e1], g as [s2 | s2 | | s2 m2 e2];
    cbn [SFcompare float_position position_compare];
    try reflexivity;
    try (destruct s1; reflexivity); try (destruct s2; reflexivity);
    try (destruct s1, s2; reflexivity).
  - (* zero, finite *)
    destruct (valid_finite_bounds _ _ _ Hg) as (He & _ & _).
    assert (Hk : 0 < 2 ^ (e2 + 1074)) by (apply Z.pow_pos_nonneg; lia).
    f_equal. destruct s2; cbn [cond_Zopp]; symmetry.
    + apply Z.compare_gt_iff. nia.
    + apply Z.compare_lt_iff. nia.
  - (* finite, zero *)
    destruct (valid_finite_bounds _ _ _ Hf) as (He & _ & _).
    assert (Hk : 0 < 2 ^ (e1 + 1074)) by (apply Z.pow_pos_nonneg; lia).
    f_equal. destruct s1; cbn [cond_Zopp]; symmetry.
    + apply Z.compare_lt_iff. nia.
    + apply Z.compare_gt_iff. nia.
  - (* finite, finite *)
    destruct (valid_finite_bounds _ _ _ Hf) as (He1 & _ & _).
    destruct (valid_finite_bounds _ _ _ Hg) as (He2 & _ & _).
    assert (Hk1 : 0 < 2 ^ (e1 + 1074)) by (apply Z.pow_pos_nonneg; lia).
    assert (Hk2 : 0 < 2 ^ (e2 + 1074)) by (apply Z.pow_pos_nonneg; lia).
    f_equal.
    assert (Hsame : e1 = e2 ->
              (Z.pos m1 * 2 ^ (e1 + 1074) ?= Z.pos m2 * 2 ^ (e2 + 1074))
              = Pos.compare_cont Eq m1 m2).
    { intros ->. rewrite compare_scale by exact Hk2. reflexivity. }
    destruct s1, s2; cbn [cond_Zopp]; symmetry.
    + (* both below zero *)
      rewrite !Z.mul_opp_l, Z.compare_opp.
      destruct (Z.compare_spec e1 e2) as [Heq | Hlt | Hgt].
      * rewrite Z.compare_antisym, (Hsame Heq). reflexivity.
      * apply Z.compare_gt_iff. apply (valid_exponent_lt _ _ _ _ _ _ Hf Hg Hlt).
      * apply Z.compare_lt_iff. apply (valid_exponent_lt _ _ _ _ _ _ Hg Hf Hgt).
    + apply Z.compare_lt_iff. nia.
    + apply Z.compare_gt_iff. nia.
    + destruct (Z.compare_spec e1 e2) as [Heq | Hlt | Hgt].
      * apply (Hsame Heq).
      * apply Z.compare_lt_iff. apply (valid_exponent_lt _ _ _ _ _ _ Hf Hg Hlt).
      * apply Z.compare_gt_iff. apply (valid_exponent_lt _ _ _ _ _ _ Hg Hf Hgt).
Qed.

Lemma num_compare_position (x y : num) :
  num_valid x -> num_valid y ->
  num_compare x y
  = match num_position x, num_position y with
    | Some a, Some b => Some (position_compare a b)
    | _, _ => None
    end.
Proof.
  destruct x as [a | f], y as [b | g]; cbn [num_valid num_compare num_position];
    intros Hx Hy.
  - cbn [position_compare]. f_equal. symmetry. apply compare_scale.
    apply Z.pow_pos_nonneg; lia.
  - rewrite (float_compare_int_position _ _ Hy).
    destruct (float_position g) as [p | ]; cbn [option_map]; [ | reflexivity ].
    rewrite <- position_compare_antisym. reflexivity.
  - rewrite (float_compare_int_position _ _ Hx).
    destruct (float_position f); reflexivity.
  - apply SFcompare_position; assumption.
Qed.

Lemma position_compare_le (a b : position) :
  match position_compare a b with Lt | Eq => True | Gt => False end
  <-> position_le a b.
Proof.
  destruct a, b; cbn; try tauto.
  destruct (Z.compare_spec z z0); split; intros; try tauto; lia.
Qed.

(** [x <= y] on numbers is the order of their positions. *)
Lemma num_le_position (x y : num) :
  num_valid x -> num_valid y ->
  (num_le x y = true <->
   exists a b,
     num_position x = Some a /\ num_position y = Some b /\ position_le a b).
Proof.
  intros Hx Hy. unfold num_le. rewrite (num_compare_position x y Hx Hy).
  destruct (num_position x) as [a | ], (num_position y) as [b | ].
  - split.
    + intros H. exists a, b. repeat split. apply position_compare_le.
      destruct (position_compare a b); [ exact I | exact I | discriminate ].
    + intros (a' & b' & Ha & Hb & H). inversion Ha; inversion Hb; subst.
      apply position_compare_le in H.
      destruct (position_compare a' b');
        [ reflexivity | reflexivity | contradiction ].
  - split; [ discriminate | intros (a' & b' & _ & H & _); discriminate ].
  - split; [ discriminate | intros (a' & b' & H & _); discriminate ].
  - split; [ discriminate | intros (a' & b' & H & _); discriminate ].
Qed.

Lemma num_gt_position (x y : num) :
  num_valid x -> num_valid y ->
  (num_gt x y = true <->
   exists a b,
     num_position x = Some a /\ num_position y = Some b /\
     ~ position_le a b).
Proof.
  intros Hx Hy. unfold num_gt. rewrite (num_compare_position x y Hx Hy).
  destruct (num_position x) as [a | ], (num_position y) as [b | ].
  - split.
    + intros H. exists a, b. repeat split. intros Hle.
      apply position_compare_le in Hle.
      destruct (position_compare a b);
        [ discriminate | discriminate | contradiction ].
    + intros (a' & b' & Ha & Hb & H). inversion Ha; inversion Hb; subst.
      rewrite <- position_compare_le in H.
      destruct (position_compare a' b');
        [ exfalso; apply H; exact I | exfalso; apply H; exact I
        | reflexivity ].
  - split; [ discriminate | intros (a' & b' & _ & H & _); discriminate ].
  - split; [ discriminate | intros (a' & b' & H & _); discriminate ].
  - split; [ discriminate | intros (a' & b' & H & _); discriminate ].
Qed.

Lemma num_le_positions (x y : num) (a b : position) :
  num_valid x -> num_valid y ->
  num_position x = Some a -> num_position y = Some b ->
  (num_le x y = true <-> position_le a b).
Proof.
  intros Hx Hy Ha Hb. rewrite (num_le_position x y Hx Hy). split.
  - intros (a' & b' & Ha' & Hb' & H). congruence.
  - intros H. exists a, b. repeat split; assumption.
Qed.

Lemma position_le_trans (a b c : position) :
  position_le a b -> position_le b c -> position_le a c.
Proof. destruct a, b, c; cbn; try tauto. lia. Qed.

Lemma position_le_total (a b : position) :
  position_le a b \/ position_le b a.
Proof. destruct a, b; cbn; try tauto. lia. Qed.

Lemma num_le_trans (x y z : num) :
  num_valid x -> num_valid y -> num_valid z ->
  num_le x y = true -> num_le y z = true -> num_le x z = true.
Proof.
  intros Hx Hy Hz Hxy Hyz.
  apply (num_le_position x y Hx Hy) in Hxy.
  apply (num_le_position y z Hy Hz) in Hyz.
  destruct Hxy as (a & b & Ha & Hb & Hab).
  destruct Hyz as (b' & c & Hb' & Hc & Hbc).
  rewrite Hb in Hb'. inversion Hb'; subst b'.
  apply (num_le_position x z Hx Hz). exists a, c.
  repeat split; try assumption. apply (position_le_trans a b c); assumption.
Qed.

(** Of two numbers that are not NaN, one is at most the other. *)
Lemma num_gt_false_le (x y : num) :
  num_valid x -> num_valid y -> num_nan x = false -> num_nan y = false ->
  num_gt x y = false -> num_le x y = true.
Proof.
  intros Hx Hy Hnx Hny Hgt.
  rewrite (num_le_not_gt x y Hnx Hny), Hgt. reflexivity.
Qed.

Lemma num_gt_le (x y : num) :
  num_valid x -> num_valid y ->
  num_gt x y = true -> num_le y x = true.
Proof.
  intros Hx Hy Hgt. apply (num_gt_position x y Hx Hy) in Hgt.
  destruct Hgt as (a & b & Ha & Hb & Hab).
  apply (num_le_position y x Hy Hx). exists b, a. repeat split; try assumption.
  destruct (position_le_total a b); [ contradiction | assumption ].
Qed.

End NumberOrder.

(** ** [get_status]: monotonicity *)

Section StatusOrder.
Import GenerateReport.

Lemma num_le_int_mono (d : float) (t t' : Z) :
  t <= t' ->
  num_le (PyFloat d) (PyInt t) = true ->
  num_le (PyFloat d) (PyInt t') = true.
Proof.
  intros Ht. unfold num_le. cbn [num_compare].
  destruct d as [s | s | | s m e]; cbn [float_compare_int].
  - destruct (Z.compare_spec 0 t) as [Ha | Ha | Ha],
             (Z.compare_spec 0 t') as [Hb | Hb | Hb];
      intros H; try discriminate H; try reflexivity; lia.
  - destruct s; intros H; [ reflexivity | discriminate H ].
  - intros H; discriminate H.
  - assert (Hk : 0 < 2 ^ Z.max (- e) 0) by (apply Z.pow_pos_nonneg; lia).
    destruct (Z.compare_spec (cond_Zopp s (Z.pos m) * 2 ^ Z.max e 0)
                (t * 2 ^ Z.max (- e) 0)) as [Ha | Ha | Ha],
             (Z.compare_spec (cond_Zopp s (Z.pos m) * 2 ^ Z.max e 0)
                (t' * 2 ^ Z.max (- e) 0)) as [Hb | Hb | Hb];
      intros H0; try discriminate H0; try reflexivity; nia.
Qed.

Lemma status_cases_int (d : float) (t : Z) :
  get_status d (PyInt t)
  = Ok (if num_le (PyFloat d) (PyInt (-5)) then "IMPROVED"
        else if num_le (PyFloat d) (PyInt t) then "OK"
        else if num_le (PyFloat d) (PyInt (t + 10)) then "WARN"
        else "REGRESSION")%string.
Proof. apply get_status_cases. Qed.

(** X14: [get_status] is monotone in the delta: of two deltas that compare
    [d1 <= d2], the greater never gets a better status (IMPROVED before OK
    before WARN before REGRESSION), for every int threshold. *)
Theorem get_status_delta_monotone (d1 d2 : float) (t : Z) :
  valid d1 -> valid d2 ->
  num_le (PyFloat d1) (PyFloat d2) = true ->
  exists s1 s2,
    get_status d1 (PyInt t) = Ok s1 /\ get_status d2 (PyInt t) = Ok s2 /\
    (status_rank s1 <= status_rank s2)%nat.
Proof.
  intros H1 H2 Hle. rewrite !status_cases_int.
  assert (Htrans : forall z, num_le (PyFloat d2) (PyInt z) = true ->
                             num_le (PyFloat d1) (PyInt z) = true).
  { intros z Hz.
    apply (num_le_trans (PyFloat d1) (PyFloat d2) (PyInt z));
      try assumption; exact I. }
  destruct (num_le (PyFloat d2) (PyInt (-5))) eqn:Ha.
  { rewrite (Htrans _ Ha). do 2 eexists. repeat split. cbn. lia. }
  destruct (num_le (PyFloat d2) (PyInt t)) eqn:Hb.
  { rewrite (Htrans _ Hb).
    destruct (num_le (PyFloat d1) (PyInt (-5)));
      do 2 eexists; repeat split; cbn; lia. }
  destruct (num_le (PyFloat d2) (PyInt (t + 10))) eqn:Hc.
  { rewrite (Htrans _ Hc).
    destruct (num_le (PyFloat d1) (PyInt (-5)));
      [ | destruct (num_le (PyFloat d1) (PyInt t)) ];
      do 2 eexists; repeat split; cbn; lia. }
  destruct (num_le (PyFloat d1) (PyInt (-5)));
    [ | destruct (num_le (PyFloat d1) (PyInt t));
        [ | destruct (num_le (PyFloat d1) (PyInt (t + 10))) ] ];
    do 2 eexists; repeat split; cbn; lia.
Qed.

(** X15: [get_status] is monotone in the threshold: raising an int
    threshold never gives a delta a worse status, NaN and the infinities
    included. *)
Theorem get_status_threshold_monotone (d : float) (t t' : Z) :
  t <= t' ->
  exists s s',
    get_status d (PyInt t) = Ok s /\ get_status d (PyInt t') = Ok s' /\
    (status_rank s' <= status_rank s)%nat.
Proof.
  intros Ht. rewrite !status_cases_int.
  destruct (num_le (PyFloat d) (PyInt (-5))) eqn:Ha.
  { do 2 eexists. repeat split. cbn. lia. }
  destruct (num_le (PyFloat d) (PyInt t)) eqn:Hb.
  { rewrite (num_le_int_mono d t t' Ht Hb).
    do 2 eexists. repeat split. cbn. lia. }
  destruct (num_le (PyFloat d) (PyInt (t + 10))) eqn:Hc.
  { rewrite (num_le_int_mono d (t + 10) (t' + 10) ltac:(lia) Hc).
    destruct (num_le (PyFloat d) (PyInt t'));
      do 2 eexists; repeat split; cbn; lia. }
  destruct (num_le (PyFloat d) (PyInt t'));
    [ | destruct (num_le (PyFloat d) (PyInt (t' + 10))) ];
    do 2 eexists; repeat split; cbn; lia.
Qed.

Lemma get_status_delta_monotone_witness :
  exists s1 s2,
    get_status five (PyInt 20) = Ok s1 /\
    get_status twenty_five (PyInt 20) = Ok s2 /\
    (status_rank s1 <= status_rank s2)%nat.
Proof.
  apply (get_status_delta_monotone five twenty_five 20); reflexivity.
Defined.

Lemma get_status_threshold_monotone_witness :
  exists s s',
    get_status twenty_five (PyInt 20) = Ok s /\
    get_status twenty_five (PyInt 30) = Ok s' /\
    (status_rank s' <= status_rank s)%nat.
Proof.
  apply (get_status_threshold_monotone twenty_five 20 30). lia.
Defined.

End StatusOrder.

(** ** [get_diff]: the sign of the delta *)

Section DeltaSign.
Import GenerateReport.

Lemma shr_fexp_nonneg (m e : Z) (l : location) :
  0 <= m -> 0 <= shr_m (fst (shr_fexp prec emax m e l)).
Proof.
  intros Hm. unfold shr_fexp, shr.
  assert (H0 : shr_m (shr_record_of_loc m l) = m)
    by (destruct l as [ | [ | | ]]; reflexivity).
  destruct (fexp prec emax (Zdigits2 m + e) - e) as [ | k | k];
    cbn [fst]; try (rewrite H0; exact Hm).
  destruct (iter_pos_shr_1 k (shr_record_of_loc m l)) as [H1 _];
    [ rewrite H0; exact Hm | ].
  rewrite H1, H0. apply Z.div_pos; [ exact Hm | ].
  apply Z.pow_pos_nonneg; lia.
Qed.

(** Rounding keeps the sign and never gives NaN. *)
Lemma binary_round_aux_signed (sx : bool) (m e : Z) (l : location) :
  0 <= m -> signed sx (binary_round_aux prec emax sx m e l) = true.
Proof.
  intros Hm. unfold binary_round_aux.
  pose proof (shr_fexp_nonneg m e l Hm) as H1.
  destruct (shr_fexp prec emax m e l) as [mrs' e']. cbn [fst] in H1.
  destruct (round_nearest_even_bounds mrs') as [Hround _].
  set (m'' := round_nearest_even (shr_m mrs') (loc_of_shr_record mrs')) in *.
  pose proof (shr_fexp_nonneg m'' e' loc_Exact ltac:(lia)) as H2.
  destruct (shr_fexp prec emax m'' e' loc_Exact) as [mrs'' e''].
  cbn [fst] in H2.
  destruct (shr_m mrs'') as [ | p | p]; [ reflexivity | | lia ].
  destruct (e'' <=? emax - prec); cbn [signed]; apply Bool.eqb_reflx.
Qed.

Lemma binary_round_signed (sx : bool) (p : positive) (e : Z) :
  signed sx (binary_round prec emax sx p e) = true.
Proof.
  unfold binary_round.
  destruct (shl_align p e (fexp prec emax (Z.pos (digits2_pos p) + e)))
    as [mz ez].
  apply binary_round_aux_signed. lia.
Qed.

Lemma float_mul_hundred_signed (sx : bool) (q : float) :
  signed sx q = true -> signed sx (float_mul q hundred) = true.
Proof.
  unfold float_mul, hundred.
  destruct q as [s | s | | s m e]; cbn [signed SFmul]; intros H;
    try discriminate H.
  - reflexivity.
  - rewrite xorb_false_r. exact H.
  - apply Bool.eqb_prop in H. subst s. rewrite xorb_false_r.
    apply binary_round_aux_signed. lia.
Qed.

Lemma SFdiv_core_binary_nonneg (m1 m2 : positive) (e1 e2 : Z) :
  0 <= fst (fst (SFdiv_core_binary prec emax (Z.pos m1) e1 (Z.pos m2) e2)).
Proof.
  unfold SFdiv_core_binary.
  set (s := e1 - e2 - _).
  set (m' := match s with
             | 0 => Z.pos m1
             | Z.pos _ => Z.shiftl (Z.pos m1) s
             | Z.neg _ => 0
             end).
  assert (Hm' : 0 <= m').
  { unfold m'. destruct s; try lia. apply Z.shiftl_nonneg. lia. }
  pose proof (Z_div_mod m' (Z.pos m2) ltac:(lia)) as Hdiv.
  destruct (Z.div_eucl m' (Z.pos m2)) as [q r]. cbn [fst].
  destruct Hdiv as [Heq Hr]. nia.
Qed.

Lemma SFdiv_signed (sx : bool) (x : float) (m : positive) (e : Z) :
  signed sx x = true ->
  signed sx (SFdiv prec emax x (S754_finite false m e)) = true.
Proof.
  destruct x as [s | s | | s mx ex]; cbn [signed SFdiv]; intros H;
    try discriminate H.
  - reflexivity.
  - rewrite xorb_false_r. exact H.
  - apply Bool.eqb_prop in H. subst s. rewrite xorb_false_r.
    pose proof (SFdiv_core_binary_nonneg mx m ex e) as Hq.
    destruct (SFdiv_core_binary prec emax (Z.pos mx) ex (Z.pos m) e)
      as [[mz ez] lz].
    cbn [fst] in Hq. apply binary_round_aux_signed. exact Hq.
Qed.

Lemma binary_normalize_signed (sx : bool) (z e : Z) :
  (if sx then z <= 0 else 0 <= z) ->
  signed sx (binary_normalize prec emax z e false) = true.
Proof.
  destruct z as [ | p | p]; cbn [binary_normalize]; intros H.
  - reflexivity.
  - destruct sx; [ lia | apply binary_round_signed ].
  - destruct sx; [ apply binary_round_signed | lia ].
Qed.

Lemma shl_align_value (m : positive) (e e' : Z) :
  e' <= e ->
  Z.pos (fst (shl_align m e e')) * 2 ^ (e' + 1074)
  = Z.pos m * 2 ^ (e + 1074) \/ e' + 1074 < 0.
Proof.
  intros Hle. destruct (Z.lt_ge_cases (e' + 1074) 0) as [Hn | Hn];
    [ right; exact Hn | left ].
  destruct (shl_align_spec m e e') as (mz & Heq & Hmz & _).
  rewrite Heq. cbn [fst]. rewrite Hmz.
  replace (Z.min e e') with e' by lia.
  rewrite <- Z.mul_assoc, <- Z.pow_add_r by lia.
  f_equal. f_equal. lia.
Qed.

(** The sign of a difference of two finite numbers is the order of the
    two. *)
Lemma float_sub_signed (c : float) (m : positive) (e : Z) :
  valid c -> valid (S754_finite false m e) ->
  (num_le (PyFloat c) (PyFloat (S754_finite false m e)) = true ->
   signed true (float_sub c (S754_finite false m e)) = true) /\
  (num_le (PyFloat (S754_finite false m e)) (PyFloat c) = true ->
   signed false (float_sub c (S754_finite false m e)) = true).
Proof.
  intros Hc Hb.
  destruct (valid_finite_bounds _ _ _ Hb) as (He & _ & _).
  assert (Hk : 0 < 2 ^ (e + 1074)) by (apply Z.pow_pos_nonneg; lia).
  assert (Hpb : num_position (PyFloat (S754_finite false m e))
                = Some (Fin (Z.pos m * 2 ^ (e + 1074)))) by reflexivity.
  destruct c as [s | s | | s mc ec]; unfold float_sub; cbn [SFsub].
  - split; intros H; [ reflexivity | ].
    apply (num_le_positions (PyFloat (S754_finite false m e)) (PyFloat (S754_zero s)) _ (Fin 0)
             Hb Hc Hpb eq_refl) in H.
    cbn [position_le] in H. exfalso. nia.
  - split; intros H.
    + apply (num_le_positions (PyFloat (S754_infinity s)) (PyFloat (S754_finite false m e))
               (if s then NegInf else PosInf) _ Hc Hb eq_refl Hpb) in H.
      destruct s; [ reflexivity | contradiction ].
    + apply (num_le_positions (PyFloat (S754_finite false m e)) (PyFloat (S754_infinity s)) _
               (if s then NegInf else PosInf) Hb Hc Hpb eq_refl) in H.
      destruct s; [ contradiction | reflexivity ].
  - split; intros H; discriminate H.
  - destruct (valid_finite_bounds _ _ _ Hc) as (Hec & _ & _).
    assert (Hpc : num_position (PyFloat (S754_finite s mc ec))
                  = Some (Fin (cond_Zopp s (Z.pos mc) * 2 ^ (ec + 1074))))
      by reflexivity.
    set (ez := Z.min ec e).
    assert (Hkz : 0 < 2 ^ (ez + 1074))
      by (apply Z.pow_pos_nonneg; unfold ez; lia).
    destruct (shl_align_value mc ec ez ltac:(unfold ez; lia)) as [Hvc | Hvc];
      [ | unfold ez in Hvc; lia ].
    destruct (shl_align_value m e ez ltac:(unfold ez; lia)) as [Hvb | Hvb];
      [ | unfold ez in Hvb; lia ].
    set (c' := Z.pos (fst (shl_align mc ec ez))) in *.
    set (b' := Z.pos (fst (shl_align m e ez))) in *.
    assert (Hsc : cond_Zopp s c' * 2 ^ (ez + 1074)
                  = cond_Zopp s (Z.pos mc) * 2 ^ (ec + 1074))
      by (destruct s; cbn [cond_Zopp]; lia).
    cbn [cond_Zopp].
    split; intros H; apply binary_normalize_signed.
    + apply (num_le_positions (PyFloat (S754_finite s mc ec)) (PyFloat (S754_finite false m e))
               _ _ Hc Hb Hpc Hpb) in H.
      cbn [position_le] in H. nia.
    + apply (num_le_positions (PyFloat (S754_finite false m e)) (PyFloat (S754_finite s mc ec))
               _ _ Hb Hc Hpb Hpc) in H.
      cbn [position_le] in H. nia.
Qed.

(** A zero or a number of the given sign, against the ints. *)
Lemma signed_true_le (d : float) (t : Z) :
  signed true d = true -> 0 <= t -> num_le (PyFloat d) (PyInt t) = true.
Proof.
  unfold num_le. cbn [num_compare].
  destruct d as [s | s | | s m e]; cbn [signed float_compare_int];
    intros H Ht; try discriminate H.
  - destruct (Z.compare_spec 0 t); try reflexivity; lia.
  - apply Bool.eqb_prop in H. subst s. reflexivity.
  - apply Bool.eqb_prop in H. subst s. cbn [cond_Zopp].
    assert (Hk : 0 < 2 ^ Z.max e 0) by (apply Z.pow_pos_nonneg; lia).
    assert (Hk' : 0 < 2 ^ Z.max (- e) 0) by (apply Z.pow_pos_nonneg; lia).
    destruct (Z.compare_spec (- Z.pos m * 2 ^ Z.max e 0)
                (t * 2 ^ Z.max (- e) 0)); try reflexivity; nia.
Qed.

Lemma signed_false_ge (d : float) (t : Z) :
  signed false d = true -> t <= 0 -> num_le (PyInt t) (PyFloat d) = true.
Proof.
  unfold num_le. cbn [num_compare].
  destruct d as [s | s | | s m e]; cbn [signed float_compare_int option_map];
    intros H Ht; try discriminate H.
  - destruct (Z.compare_spec 0 t); try reflexivity; lia.
  - apply Bool.eqb_prop in H. subst s. reflexivity.
  - apply Bool.eqb_prop in H. subst s. cbn [cond_Zopp].
    assert (Hk : 0 < 2 ^ Z.max e 0) by (apply Z.pow_pos_nonneg; lia).
    assert (Hk' : 0 < 2 ^ Z.max (- e) 0) by (apply Z.pow_pos_nonneg; lia).
    destruct (Z.compare_spec (Z.pos m * 2 ^ Z.max e 0)
                (t * 2 ^ Z.max (- e) 0)); try reflexivity; nia.
Qed.

Lemma signed_false_not_below (d : float) (t : Z) :
  signed false d = true -> t < 0 -> num_le (PyFloat d) (PyInt t) = false.
Proof.
  unfold num_le. cbn [num_compare].
  destruct d as [s | s | | s m e]; cbn [signed float_compare_int];
    intros H Ht; try discriminate H.
  - destruct (Z.compare_spec 0 t); try reflexivity; lia.
  - apply Bool.eqb_prop in H. subst s. reflexivity.
  - apply Bool.eqb_prop in H. subst s. cbn [cond_Zopp].
    assert (Hk : 0 < 2 ^ Z.max e 0) by (apply Z.pow_pos_nonneg; lia).
    assert (Hk' : 0 < 2 ^ Z.max (- e) 0) by (apply Z.pow_pos_nonneg; lia).
    destruct (Z.compare_spec (Z.pos m * 2 ^ Z.max e 0)
                (t * 2 ^ Z.max (- e) 0)); try reflexivity; nia.
Qed.

(** A finite float above zero. *)
Lemma positive_finite (b : float) :
  is_finite b = true -> num_gt (PyFloat b) (PyInt 0) = true ->
  exists m e, b = S754_finite false m e.
Proof.
  destruct b as [s | s | | s m e]; intros Hf Hgt; try discriminate Hf.
  - unfold num_gt in Hgt. cbn in Hgt. discriminate Hgt.
  - destruct s; [ | exists m, e; reflexivity ].
    unfold num_gt in Hgt. cbn [num_compare] in Hgt.
    rewrite float_compare_int_0 in Hgt. discriminate Hgt.
Qed.

Lemma delta_value_signed (sx : bool) (b c : float) :
  valid b -> valid c -> is_finite b = true ->
  num_gt (PyFloat b) (PyInt 0) = true ->
  (if sx then num_le (PyFloat c) (PyFloat b)
   else num_le (PyFloat b) (PyFloat c)) = true ->
  signed sx (delta_value b c) = true.
Proof.
  intros Hb Hc Hf Hgt Hle.
  destruct (positive_finite b Hf Hgt) as (m & e & ->).
  unfold delta_value. cbn [is_zero].
  apply float_mul_hundred_signed, SFdiv_signed.
  destruct (float_sub_signed c m e Hc Hb) as [Ht Hfalse].
  destruct sx; [ apply Ht | apply Hfalse ]; exact Hle.
Qed.

(** X16: a candidate score that is not greater than a finite baseline
    score above zero gives a delta of at most zero, whatever the rounding
    of the three operations, and so, for an int threshold of at least zero,
    the status IMPROVED or OK: never WARN or REGRESSION. *)
Theorem faster_candidate_status (b c : float) (t : Z) :
  valid b -> valid c -> is_finite b = true ->
  num_gt (PyFloat b) (PyInt 0) = true ->
  num_le (PyFloat c) (PyFloat b) = true ->
  0 <= t ->
  exists d s,
    get_diff b c = Ok d /\ num_le (PyFloat d) (PyInt 0) = true /\
    get_status d (PyInt t) = Ok s /\
    (s = "IMPROVED" \/ s = "OK")%string.
Proof.
  intros Hb Hc Hf Hgt Hle Ht.
  pose proof (delta_value_signed true b c Hb Hc Hf Hgt Hle) as Hs.
  exists (delta_value b c). rewrite get_diff_value, status_cases_int.
  rewrite (signed_true_le _ t Hs Ht).
  destruct (num_le (PyFloat (delta_value b c)) (PyInt (-5)));
    eexists; repeat split;
    try (apply signed_true_le; [ exact Hs | lia ]);
    [ left | right ]; reflexivity.
Qed.

(** X17: a candidate score that is not smaller than a finite baseline
    score above zero gives a delta of at least zero, and so never the
    status IMPROVED, whatever the int threshold. *)
Theorem slower_candidate_status (b c : float) (t : Z) :
  valid b -> valid c -> is_finite b = true ->
  num_gt (PyFloat b) (PyInt 0) = true ->
  num_le (PyFloat b) (PyFloat c) = true ->
  exists d s,
    get_diff b c = Ok d /\ num_le (PyInt 0) (PyFloat d) = true /\
    get_status d (PyInt t) = Ok s /\
    (s = "OK" \/ s = "WARN" \/ s = "REGRESSION")%string.
Proof.
  intros Hb Hc Hf Hgt Hle.
  pose proof (delta_value_signed false b c Hb Hc Hf Hgt Hle) as Hs.
  exists (delta_value b c). rewrite get_diff_value, status_cases_int.
  rewrite (signed_false_not_below _ (-5) Hs ltac:(lia)).
  destruct (num_le (PyFloat (delta_value b c)) (PyInt t));
    [ | destruct (num_le (PyFloat (delta_value b c)) (PyInt (t + 10))) ];
    eexists; repeat split;
    try (apply signed_false_ge; [ exact Hs | lia ]); auto.
Qed.

Lemma faster_candidate_status_witness :
  exists d s,
    get_diff hundred ninety = Ok d /\
    num_le (PyFloat d) (PyInt 0) = true /\
    get_status d (PyInt 20) = Ok s /\
    (s = "IMPROVED" \/ s = "OK")%string.
Proof.
  apply (faster_candidate_status hundred ninety 20); try reflexivity. lia.
Defined.

Lemma slower_candidate_status_witness :
  exists d s,
    get_diff ninety hundred = Ok d /\
    num_le (PyInt 0) (PyFloat d) = true /\
    get_status d (PyInt 20) = Ok s /\
    (s = "OK" \/ s = "WARN" \/ s = "REGRESSION")%string.
Proof.
  apply (slower_candidate_status ninety hundred 20); reflexivity.
Defined.

End DeltaSign.

(** ** [get_diff]: the delta is a binary64 number *)

Section DeltaValid.

Lemma digits2_pos_ge (p : positive) (k : Z) :
  2 ^ k <= Z.pos p -> 0 <= k -> k < Z.pos (digits2_pos p).
Proof.
  intros Hp Hk. destruct (digits2_pos_bounds p) as [_ Hhi].
  destruct (Z.lt_ge_cases k (Z.pos (digits2_pos p))) as [H | H];
    [ exact H | ].
  assert (2 ^ Z.pos (digits2_pos p) <= 2 ^ k)
    by (apply Z.pow_le_mono_r; lia).
  lia.
Qed.

(** Rounding a mantissa that has no fewer digits than its exponent asks
    for gives a binary64 number. *)
Lemma binary_round_aux_valid (sx : bool) (mz : positive) (ez : Z) :
  ez <= fexp prec emax (Z.pos (digits2_pos mz) + ez) ->
  valid (binary_round_aux prec emax sx (Z.pos mz) ez loc_Exact).
Proof.
  intros Hez. unfold valid, binary_round_aux.
  set (d := Z.pos (digits2_pos mz) + ez) in *.
  destruct (shr_fexp_exact (Z.pos mz) ez) as (He' & Hm' & _); [ lia | ].
  cbn [Zdigits2] in He', Hm'. fold d in He', Hm'.
  destruct (shr_fexp prec emax (Z.pos mz) ez loc_Exact) as [mrs' e'].
  cbn [fst snd] in He', Hm'.
  rewrite fexp_eq in *.
  assert (He : e' = Z.max (d - 53) (-1074)) by lia.
  set (n := Z.max (d - 53) (-1074) - ez) in *.
  assert (Hn : 0 <= n) by (unfold n; lia).
  replace (Z.max n 0) with n in Hm' by lia.
  assert (Hpn : 0 < 2 ^ n) by (apply Z.pow_pos_nonneg; lia).
  destruct (digits2_pos_bounds mz) as [Hlo Hhi].
  assert (Hm'0 : 0 <= shr_m mrs')
    by (rewrite Hm'; apply Z.div_pos; lia).
  assert (Hm'53 : shr_m mrs' < 2 ^ 53).
  { rewrite Hm'. apply Z.div_lt_upper_bound; [ exact Hpn | ].
    rewrite <- Z.pow_add_r by lia.
    assert (2 ^ Z.pos (digits2_pos mz) <= 2 ^ (n + 53))
      by (apply Z.pow_le_mono_r; unfold n, d; lia).
    lia. }
  assert (Hm'52 : e' = -1074 \/ 2 ^ 52 <= shr_m mrs').
  { destruct (Z.le_gt_cases (d - 53) (-1074)) as [Hs | Hs];
      [ left; lia | right ].
    rewrite Hm'. apply Z.div_le_lower_bound; [ exact Hpn | ].
    rewrite <- Z.pow_add_r by lia.
    replace (n + 52) with (Z.pos (digits2_pos mz) - 1) by (unfold n, d; lia).
    exact Hlo. }
  destruct (round_nearest_even_bounds mrs') as [Hround _].
  set (m'' := round_nearest_even (shr_m mrs') (loc_of_shr_record mrs')) in *.
  destruct (shr_fexp_exact m'' e') as (He'' & Hm'' & _); [ lia | ].
  destruct (shr_fexp prec emax m'' e' loc_Exact) as [mrs'' e''].
  cbn [fst snd] in He'', Hm''. rewrite fexp_eq in He'', Hm''.
  change (2 ^ 53) with 9007199254740992 in *.
  change (2 ^ 52) with 4503599627370496 in *.
  destruct (Z.eq_dec m'' 9007199254740992) as [Hfull | Hfull].
  - (* the rounding carried into a 54th digit *)
    rewrite Hfull in He'', Hm''.
    change (Zdigits2 9007199254740992) with 54 in He'', Hm''.
    replace (Z.max (Z.max (54 + e' - 53) (-1074) - e') 0) with 1 in Hm''
      by lia.
    change (9007199254740992 / 2 ^ 1) with 4503599627370496 in Hm''.
    rewrite Hm''.
    destruct (e'' <=? emax - prec) eqn:Hle; [ | reflexivity ].
    cbn [valid_binary]. unfold bounded, canonical_mantissa.
    rewrite Hle, andb_true_r. apply Z.eqb_eq. rewrite fexp_eq.
    change (Z.pos (digits2_pos 4503599627370496)) with 53. lia.
  - destruct m'' as [ | p | p]; [ | | lia ].
    + change (Zdigits2 0) with 0 in Hm''. rewrite Z.div_0_l in Hm''
        by (apply Z.pow_nonzero; lia).
      rewrite Hm''. reflexivity.
    + cbn [Zdigits2] in He'', Hm''.
      assert (Hd53 : Z.pos (digits2_pos p) <= 53)
        by (apply digits2_pos_le; change (2 ^ 53) with 9007199254740992; lia).
      assert (Hcan : Z.max (Z.pos (digits2_pos p) + e' - 53) (-1074) = e').
      { destruct Hm'52 as [Hsub | Hnorm]; [ lia | ].
        assert (52 < Z.pos (digits2_pos p))
          by (apply digits2_pos_ge;
              [ change (2 ^ 52) with 4503599627370496 | ]; lia).
        lia. }
      rewrite Hcan in He'', Hm''.
      replace (Z.max (e' - e') 0) with 0 in Hm'' by lia.
      rewrite Z.pow_0_r, Z.div_1_r in Hm''. rewrite Hm''.
      destruct (e'' <=? emax - prec) eqn:Hle; [ | reflexivity ].
      cbn [valid_binary]. unfold bounded, canonical_mantissa.
      rewrite Hle, andb_true_r. apply Z.eqb_eq. rewrite fexp_eq. lia.
Qed.

(** A product with [100.0] is a binary64 number, whatever the other
    factor. *)
Lemma float_mul_hundred_valid (q : float) : valid (float_mul q hundred).
Proof.
  unfold float_mul, hundred.
  destruct q as [s | s | | s m e]; cbn [SFmul]; try reflexivity.
  apply binary_round_aux_valid. rewrite fexp_eq.
  assert (52 < Z.pos (digits2_pos (m * 7036874417766400))).
  { apply digits2_pos_ge; [ | lia ].
    rewrite Pos2Z.inj_mul. change (2 ^ 52) with 4503599627370496. lia. }
  lia.
Qed.

Lemma delta_value_valid (b c : float) : valid (delta_value b c).
Proof.
  unfold delta_value. destruct (is_zero b); [ reflexivity | ].
  apply float_mul_hundred_valid.
Qed.

End DeltaValid.

(** ** generate-report.py: the regression table and the tables *)

Section GateAndTables.
Import GenerateReport.

Lemma format_benchmark_row_delta (bench : string)
    (v2_results v3_results : MetricSet) (threshold : num) :
  exists row,
    format_benchmark_row bench v2_results v3_results threshold = Ok row /\
    row_bench row = bench /\
    match expected_diff v2_results v3_results bench with
    | Some d =>
        row_diff row = Some d /\ get_status d threshold = Ok (row_status row)
    | None =>
        row_diff row = None /\
        In (row_status row) ["NEW"; "REMOVED"; status_unknown]%string
    end.
Proof.
  unfold format_benchmark_row, expected_diff, dict_mem, dict_item.
  destruct (dict_get v2_results bench) as [m2 | ];
    destruct (dict_get v3_results bench) as [m3 | ]; cbn [andb bind].
  - rewrite get_diff_value. cbn [bind]. rewrite get_status_cases.
    eexists. repeat split; reflexivity.
  - eexists. repeat split; try reflexivity. cbn. tauto.
  - eexists. repeat split; try reflexivity. cbn. tauto.
  - eexists. repeat split; try reflexivity. cbn. tauto.
Qed.

Lemma main_table_from (benches : list string)
    (v2_results v3_results : MetricSet) (acc rows : list Row) :
  fold_left
    (fun report bench =>
       rows <- report ;;
       row <- format_benchmark_row bench v2_results v3_results
                default_threshold ;;
       Ok (rows ++ [row]))
    benches (Ok acc) = Ok rows ->
  (forall row, In row acc -> In row rows) /\
  forall bench,
    In bench benches ->
    exists row,
      In row rows /\
      format_benchmark_row bench v2_results v3_results default_threshold
      = Ok row.
Proof.
  revert acc. induction benches as [ | b benches IH]; intros acc;
    cbn [fold_left bind].
  - intros H. inversion H; subst. split; [ auto | intros bench [] ].
  - destruct (format_benchmark_row_ok b v2_results v3_results
                default_threshold) as [row Hrow].
    rewrite Hrow. cbn [bind]. intros H.
    destruct (IH _ H) as [Hacc Hrows]. split.
    + intros r Hr. apply Hacc, in_or_app. left. exact Hr.
    + intros bench [<- | Hin].
      * exists row. split; [ | exact Hrow ].
        apply Hacc, in_or_app. right. left. reflexivity.
      * apply Hrows, Hin.
Qed.

Lemma main_table_row (benches : list string)
    (v2_results v3_results : MetricSet) (rows : list Row) (bench : string) :
  main_table benches v2_results v3_results = Ok rows ->
  In bench benches ->
  exists row,
    In row rows /\
    format_benchmark_row bench v2_results v3_results default_threshold
    = Ok row.
Proof.
  intros H. apply (main_table_from benches v2_results v3_results [] rows H).
Qed.

Lemma main_gate_row_status (v2_results v3_results : MetricSet)
    (size : string) (threshold : num) :
  In size ["Small"; "Medium"; "Large"]%string ->
  gate_status
    (main_gate_row
       (map (fun bench => (bench, expected_diff v2_results v3_results bench))
          compared_benchmarks) size threshold)
  = match expected_diff v2_results v3_results ("parse" ++ size) with
    | Some p =>
        if num_le
             (builtin_max (PyFloat p)
                (classify_operand
                   (expected_diff v2_results v3_results
                      ("classify" ++ size)))) threshold
        then "PASS"%string else "FAIL"%string
    | None => "BASELINE"%string
    end.
Proof.
  intros Hin.
  set (diffs := map _ compared_benchmarks).
  assert (Hp : delta_of diffs ("parse" ++ size)
               = expected_diff v2_results v3_results ("parse" ++ size)).
  { cbn in Hin. repeat (destruct Hin as [<- | Hin]; [ reflexivity | ]).
    contradiction. }
  assert (Hc : delta_of diffs ("classify" ++ size)
               = expected_diff v2_results v3_results ("classify" ++ size)).
  { cbn in Hin. repeat (destruct Hin as [<- | Hin]; [ reflexivity | ]).
    contradiction. }
  rewrite <- Hp, <- Hc.
  destruct (delta_of diffs ("parse" ++ size)) as [p | ] eqn:Hd.
  - rewrite (main_gate_row_present _ _ _ _ Hd). reflexivity.
  - rewrite (main_gate_row_absent _ _ _ Hd). reflexivity.
Qed.

Lemma expected_diff_valid (v2_results v3_results : MetricSet)
    (bench : string) (d : float) :
  expected_diff v2_results v3_results bench = Some d -> valid d.
Proof.
  unfold expected_diff.
  destruct (dict_get v2_results bench) as [m2 | ]; [ | discriminate ].
  destruct (dict_get v3_results bench) as [m3 | ]; [ | discriminate ].
  intros H. inversion H. apply delta_value_valid.
Qed.

Lemma classify_operand_valid (c : option float) :
  (forall d, c = Some d -> valid d) -> num_valid (classify_operand c).
Proof.
  intros H. destruct c as [d | ]; cbn [classify_operand]; [ | exact I ].
  destruct (is_zero d); [ exact I | ]. apply H. reflexivity.
Qed.

(** The greater of two numbers is at most a bound only if the first is. *)
Lemma builtin_max_le_first (p : float) (c : num) (t : Z) :
  valid p -> num_valid c ->
  num_le (builtin_max (PyFloat p) c) (PyInt t) = true ->
  num_le (PyFloat p) (PyInt t) = true.
Proof.
  intros Hp Hc. unfold builtin_max.
  destruct (num_gt c (PyFloat p)) eqn:Hgt; [ | auto ].
  intros Hle.
  apply (num_le_trans (PyFloat p) c (PyInt t)); try assumption;
    try exact I.
  apply num_gt_le; assumption.
Qed.

(** The greater of two numbers exceeds a bound of at least zero only if
    one of the two does. *)
Lemma builtin_max_gt_one (p : float) (c : option float) (t : Z) :
  0 <= t ->
  num_le (builtin_max (PyFloat p) (classify_operand c)) (PyInt t) = false ->
  num_le (PyFloat p) (PyInt t) = false \/
  exists d, c = Some d /\ num_le (PyFloat d) (PyInt t) = false.
Proof.
  intros Ht. unfold builtin_max.
  destruct (num_gt (classify_operand c) (PyFloat p)); [ | auto ].
  intros H. right. destruct c as [d | ]; cbn [classify_operand] in H.
  - destruct (is_zero d).
    + exfalso. unfold num_le in H. cbn [num_compare] in H.
      destruct (Z.compare_spec 0 t); try discriminate H; lia.
    + exists d. split; [ reflexivity | exact H ].
  - exfalso. unfold num_le in H. cbn [num_compare] in H.
    destruct (Z.compare_spec 0 t); try discriminate H; lia.
Qed.

Lemma status_within_bound (d : float) (t : Z) (s : string) :
  t <= 30 -> num_le (PyFloat d) (PyInt t) = true ->
  get_status d default_threshold = Ok s ->
  In s ["IMPROVED"; "OK"; "WARN"]%string.
Proof.
  intros Ht Hle. unfold default_threshold. rewrite status_cases_int.
  rewrite (num_le_int_mono d t (20 + 10) Ht Hle).
  destruct (num_le (PyFloat d) (PyInt (-5)));
    [ | destruct (num_le (PyFloat d) (PyInt 20)) ];
    intros H; inversion H; cbn; tauto.
Qed.

Lemma status_beyond_bound (d : float) (t : Z) (s : string) :
  20 <= t -> num_le (PyFloat d) (PyInt t) = false ->
  get_status d default_threshold = Ok s ->
  In s ["WARN"; "REGRESSION"]%string.
Proof.
  intros Ht Hle. unfold default_threshold. rewrite status_cases_int.
  destruct (num_le (PyFloat d) (PyInt (-5))) eqn:H5.
  { rewrite (num_le_int_mono d (-5) t ltac:(lia) H5) in Hle.
    discriminate Hle. }
  destruct (num_le (PyFloat d) (PyInt 20)) eqn:H20.
  { rewrite (num_le_int_mono d 20 t Ht H20) in Hle. discriminate Hle. }
  destruct (num_le (PyFloat d) (PyInt (20 + 10)));
    intros H; inversion H; cbn; tauto.
Qed.

Lemma gate_row_agrees (v2_results v3_results : MetricSet)
    (size : string) (t : Z) (prow crow : Row) :
  In size ["Small"; "Medium"; "Large"]%string ->
  20 <= t <= 30 ->
  format_benchmark_row ("parse" ++ size) v2_results v3_results
    default_threshold = Ok prow ->
  format_benchmark_row ("classify" ++ size) v2_results v3_results
    default_threshold = Ok crow ->
  let gate :=
    main_gate_row
      (map (fun bench => (bench, expected_diff v2_results v3_results bench))
         compared_benchmarks) size (PyInt t) in
  (gate_status gate = "PASS"%string ->
   In (row_status prow) ["IMPROVED"; "OK"; "WARN"]%string) /\
  (gate_status gate = "FAIL"%string ->
   In (row_status prow) ["WARN"; "REGRESSION"]%string \/
   In (row_status crow) ["WARN"; "REGRESSION"]%string) /\
  (gate_status gate = "BASELINE"%string ->
   In (row_status prow) ["NEW"; "REMOVED"; status_unknown]%string).
Proof.
  intros Hin Ht Hprow Hcrow gate. subst gate.
  rewrite (main_gate_row_status v2_results v3_results size (PyInt t) Hin).
  destruct (format_benchmark_row_delta ("parse" ++ size) v2_results
              v3_results default_threshold) as (prow' & Hp' & _ & Hpd).
  rewrite Hprow in Hp'. inversion Hp'; subst prow'. clear Hp'.
  destruct (format_benchmark_row_delta ("classify" ++ size) v2_results
              v3_results default_threshold) as (crow' & Hc' & _ & Hcd).
  rewrite Hcrow in Hc'. inversion Hc'; subst crow'. clear Hc'.
  pose proof (expected_diff_valid v2_results v3_results ("parse" ++ size))
    as Hvp.
  pose proof (classify_operand_valid
                (expected_diff v2_results v3_results ("classify" ++ size))
                (expected_diff_valid v2_results v3_results
                   ("classify" ++ size))) as Hvc.
  destruct (expected_diff v2_results v3_results ("parse" ++ size))
    as [p | ].
  - destruct Hpd as [_ Hps]. specialize (Hvp p eq_refl).
    destruct (num_le _ (PyInt t)) eqn:Hmax.
    + split; [ | split; intros H; discriminate H ].
      intros _. apply (status_within_bound p t); [ lia | | exact Hps ].
      apply (builtin_max_le_first p _ t Hvp Hvc Hmax).
    + split; [ intros H; discriminate H | ].
      split; [ | intros H; discriminate H ].
      intros _.
      destruct (builtin_max_gt_one p _ t ltac:(lia) Hmax)
        as [Hpt | (c & Hc & Hct)].
      * left. apply (status_beyond_bound p t); [ lia | exact Hpt | exact Hps ].
      * right. rewrite Hc in Hcd. destruct Hcd as [_ Hcs].
        apply (status_beyond_bound c t); [ lia | exact Hct | exact Hcs ].
  - split; [ intros H; discriminate H | ].
    split; [ intros H; discriminate H | ].
    intros _. apply Hpd.
Qed.

(** X18: in a report of [main] the regression table agrees with the
    tables of results. For each row of the regression table, the parsing
    and the classification table have the rows of that corpus size, and:
    when the verdict is PASS the parse row is not a REGRESSION; when the
    verdict is FAIL the parse row or the classify row is WARN or
    REGRESSION; when the verdict is BASELINE the parse row is NEW, REMOVED
    or the placeholder. *)
Theorem main_gate_agrees_with_tables (v2_results v3_results : MetricSet) :
  exists report,
    main v2_results v3_results = Ok report /\
    forall gate,
      In gate (report_gate report) ->
      exists prow crow,
        In prow (report_parsing report) /\
        row_bench prow = ("parse" ++ gate_size gate)%string /\
        In crow (report_classification report) /\
        row_bench crow = ("classify" ++ gate_size gate)%string /\
        (gate_status gate = "PASS"%string ->
         In (row_status prow) ["IMPROVED"; "OK"; "WARN"]%string) /\
        (gate_status gate = "FAIL"%string ->
         In (row_status prow) ["WARN"; "REGRESSION"]%string \/
         In (row_status crow) ["WARN"; "REGRESSION"]%string) /\
        (gate_status gate = "BASELINE"%string ->
         In (row_status prow) ["NEW"; "REMOVED"; status_unknown]%string).
Proof.
  unfold main.
  destruct (main_table_ok ["parseSmall"; "parseMedium"; "parseLarge"]%string
              v2_results v3_results) as [r1 H1].
  destruct (main_table_ok
              ["buildGraphSmall"; "buildGraphMedium"; "buildGraphLarge"]%string
              v2_results v3_results) as [r2 H2].
  destruct (main_table_ok
              ["classifySmall"; "classifyMedium"; "classifyLarge"]%string
              v2_results v3_results) as [r3 H3].
  destruct (main_table_ok
              ["analyzeSmall"; "analyzeMedium"; "analyzeLarge"]%string
              v2_results v3_results) as [r4 H4].
  destruct (main_budget_ok v3_results) as [budget Hb].
  rewrite H1, H2, H3, H4, main_diffs_value, Hb. cbn [bind].
  eexists. split; [ reflexivity | ].
  cbn [report_gate report_parsing report_classification].
  assert (Hrow : forall size t,
            In size ["Small"; "Medium"; "Large"]%string ->
            20 <= t <= 30 ->
            let gate :=
              main_gate_row
                (map (fun bench =>
                        (bench, expected_diff v2_results v3_results bench))
                   compared_benchmarks) size (PyInt t) in
            exists prow crow,
              In prow r1 /\ row_bench prow = ("parse" ++ size)%string /\
              In crow r3 /\ row_bench crow = ("classify" ++ size)%string /\
              (gate_status gate = "PASS"%string ->
               In (row_status prow) ["IMPROVED"; "OK"; "WARN"]%string) /\
              (gate_status gate = "FAIL"%string ->
               In (row_status prow) ["WARN"; "REGRESSION"]%string \/
               In (row_status crow) ["WARN"; "REGRESSION"]%string) /\
              (gate_status gate = "BASELINE"%string ->
               In (row_status prow)
                 ["NEW"; "REMOVED"; status_unknown]%string)).
  { intros size t Hin Ht gate.
    destruct (main_table_row _ _ _ r1 ("parse" ++ size) H1)
      as (prow & Hpin & Hprow).
    { cbn in Hin. cbn.
      destruct Hin as [<- | [<- | [<- | []]]]; tauto. }
    destruct (main_table_row _ _ _ r3 ("classify" ++ size) H3)
      as (crow & Hcin & Hcrow).
    { cbn in Hin. cbn.
      destruct Hin as [<- | [<- | [<- | []]]]; tauto. }
    exists prow, crow.
    destruct (format_benchmark_row_delta ("parse" ++ size) v2_results
                v3_results default_threshold) as (prow' & Hp' & Hpb & _).
    rewrite Hprow in Hp'. inversion Hp'; subst prow'.
    destruct (format_benchmark_row_delta ("classify" ++ size) v2_results
                v3_results default_threshold) as (crow' & Hc' & Hcb & _).
    rewrite Hcrow in Hc'. inversion Hc'; subst crow'.
    repeat (split; [ assumption | ]).
    apply (gate_row_agrees v2_results v3_results size t prow crow Hin Ht
             Hprow Hcrow). }
  intros gate Hgate. unfold main_gate, gate_thresholds in Hgate.
  cbn [map In] in Hgate.
  destruct Hgate as [<- | [<- | [<- | []]]];
    match goal with
    | |- context [gate_size (main_gate_row ?d ?sz ?th)] =>
        replace (gate_size (main_gate_row d sz th)) with sz
          by (symmetry;
              apply (f_equal fst (main_gate_row_size d sz th)))
    end;
    apply Hrow; cbn; try tauto; lia.
Qed.

End GateAndTables.

Section GateWithoutSlowdown.
Import GenerateReport.

Lemma not_slower_signed (v2_results v3_results : MetricSet)
    (bench : string) (d : float) :
  not_slower v2_results v3_results bench = true ->
  expected_diff v2_results v3_results bench = Some d ->
  signed true d = true.
Proof.
  unfold not_slower, expected_diff.
  destruct (dict_get v2_results bench) as [m2 | ]; [ | discriminate ].
  destruct (dict_get v3_results bench) as [m3 | ]; [ | discriminate ].
  intros H Hd. inversion Hd; subst d.
  apply andb_prop in H. destruct H as [H Hle].
  apply andb_prop in H. destruct H as [H Hgt].
  apply andb_prop in H. destruct H as [H Hfin].
  apply andb_prop in H. destruct H as [Hv2 Hv3].
  apply (delta_value_signed true); assumption.
Qed.

Lemma gate_max_signed (p : float) (c : option float) (t : Z) :
  signed true p = true ->
  (forall d, c = Some d -> signed true d = true) ->
  0 <= t ->
  num_le (builtin_max (PyFloat p) (classify_operand c)) (PyInt t) = true.
Proof.
  intros Hp Hc Ht. unfold builtin_max.
  destruct (num_gt (classify_operand c) (PyFloat p));
    [ | apply signed_true_le; assumption ].
  assert (H0 : num_le (PyInt 0) (PyInt t) = true).
  { unfold num_le. cbn [num_compare].
    destruct (Z.compare_spec 0 t); try reflexivity; lia. }
  destruct c as [d | ]; cbn [classify_operand]; [ | exact H0 ].
  destruct (is_zero d); [ exact H0 | ].
  apply signed_true_le; [ apply Hc; reflexivity | exact Ht ].
Qed.

(** X19: without a slowdown the gate does not fail. When, for a corpus
    size, neither the parse nor the classify benchmark has a candidate
    score above its baseline score (the baseline finite and above zero),
    the verdict of that size is PASS if the parse benchmark is in both
    results, and BASELINE otherwise. *)
Theorem main_gate_without_slowdown (v2_results v3_results : MetricSet)
    (size : string) :
  not_slower v2_results v3_results ("parse" ++ size) = true ->
  not_slower v2_results v3_results ("classify" ++ size) = true ->
  exists report,
    main v2_results v3_results = Ok report /\
    forall gate,
      In gate (report_gate report) -> gate_size gate = size ->
      gate_status gate
      = match resolve ("parse" ++ size) v2_results v3_results with
        | BOTH => "PASS"%string
        | _ => "BASELINE"%string
        end.
Proof.
  intros Hparse Hclassify. unfold main.
  destruct (main_table_ok ["parseSmall"; "parseMedium"; "parseLarge"]%string
              v2_results v3_results) as [r1 H1].
  destruct (main_table_ok
              ["buildGraphSmall"; "buildGraphMedium"; "buildGraphLarge"]%string
              v2_results v3_results) as [r2 H2].
  destruct (main_table_ok
              ["classifySmall"; "classifyMedium"; "classifyLarge"]%string
              v2_results v3_results) as [r3 H3].
  destruct (main_table_ok
              ["analyzeSmall"; "analyzeMedium"; "analyzeLarge"]%string
              v2_results v3_results) as [r4 H4].
  destruct (main_budget_ok v3_results) as [budget Hb].
  rewrite H1, H2, H3, H4, main_diffs_value, Hb. cbn [bind].
  eexists. split; [ reflexivity | ]. cbn [report_gate].
  assert (Hrow : forall t,
            In size ["Small"; "Medium"; "Large"]%string -> 0 <= t ->
            gate_status
              (main_gate_row
                 (map (fun bench =>
                         (bench, expected_diff v2_results v3_results bench))
                    compared_benchmarks) size (PyInt t))
            = match resolve ("parse" ++ size) v2_results v3_results with
              | BOTH => "PASS"%string
              | _ => "BASELINE"%string
              end).
  { intros t Hin Ht. rewrite (main_gate_row_status _ _ _ _ Hin).
    pose proof (fun d => not_slower_signed v2_results v3_results
                           ("parse" ++ size) d Hparse) as Hp.
    pose proof (fun d => not_slower_signed v2_results v3_results
                           ("classify" ++ size) d Hclassify) as Hc.
    pose proof (expected_diff_none v2_results v3_results ("parse" ++ size))
      as Hnone.
    destruct (expected_diff v2_results v3_results ("parse" ++ size))
      as [p | ].
    - rewrite (gate_max_signed p _ t (Hp p eq_refl) Hc Ht).
      destruct (resolve ("parse" ++ size) v2_results v3_results);
        try reflexivity;
        exfalso; (assert (Hx : Some p = None)
                    by (apply Hnone; discriminate)); discriminate Hx.
    - destruct (resolve ("parse" ++ size) v2_results v3_results);
        try reflexivity.
      exfalso. apply (proj1 Hnone eq_refl). reflexivity. }
  intros gate Hgate Hsize. unfold main_gate, gate_thresholds in Hgate.
  cbn [map In] in Hgate.
  destruct Hgate as [<- | [<- | [<- | []]]];
    match type of Hsize with
    | gate_size (main_gate_row ?d ?sz ?th) = _ =>
        replace (gate_size (main_gate_row d sz th)) with sz in Hsize
          by (symmetry;
              apply (f_equal fst (main_gate_row_size d sz th)))
    end;
    subst size; apply Hrow; cbn; try tauto; lia.
Qed.

Lemma main_gate_without_slowdown_witness :
  exists report,
    main faster_baseline faster_candidate = Ok report /\
    forall gate,
      In gate (report_gate report) -> gate_size gate = "Small"%string ->
      gate_status gate
      = match resolve ("parse" ++ "Small") faster_baseline
                faster_candidate with
        | BOTH => "PASS"%string
        | _ => "BASELINE"%string
        end.
Proof.
  apply (main_gate_without_slowdown faster_baseline faster_candidate "Small");
    reflexivity.
Defined.

End GateWithoutSlowdown.
